(** * BlendingToolKit: the deblender classes of [btk/deblend.py]

    A shallow embedding of [btk.deblend]: the abstract [Deblender] with its
    [batch_call], the concrete deblenders [PeakLocalMax], [SepMultiBand],
    [DeepDisc] and [Scarlet], and the naming of deblenders in
    [DeblendGenerator].

    Conventions.
    - Python floats are rationals ([Q]); comparisons are the exact ones.
    - A raised exception is a value of [exn]; a function that may raise
      returns a [result].
    - A numpy array is the list of its entries along the first axis; the
      entries of a mask or of an image are nested lists.
    - The libraries the code calls ([sep], [skimage], [astropy], [scarlet],
      the DeepDISC predictor, numpy's float functions) are interfaces
      (type classes); every definition and theorem is parametric in them. *)

From Stdlib Require Import QArith Qminmax Qabs Qround ZArith List Ascii.
From stdpp Require Import base option list gmap strings pretty.

Open Scope string_scope.
Open Scope list_scope.

(** ** Exceptions and results *)

Inductive exn : Type :=
| ValueError (msg : string)
| IndexError
| AssertionError
| LinAlgError.

Inductive result (A : Type) : Type :=
| Ok (a : A)
| Raise (e : exn).
Arguments Ok {A} a.
Arguments Raise {A} e.

#[global] Instance result_ret : MRet result := fun A a => Ok a.
#[global] Instance result_bind : MBind result := fun A B f m =>
  match m with
  | Ok a => f a
  | Raise e => Raise e
  end.

(** [l[i]] for an index produced by [range]: out of range raises. *)
Definition getitem {A} (l : list A) (i : nat) : result A :=
  match l !! i with
  | Some a => Ok a
  | None => Raise IndexError
  end.

(** [l[i]] for a Python integer: a negative index counts from the end. *)
Definition py_index {A} (l : list A) (i : Z) : result A :=
  let n := Z.of_nat (length l) in
  if (0 <=? i)%Z then getitem l (Z.to_nat i)
  else if (0 <=? n + i)%Z then getitem l (Z.to_nat (n + i))
  else Raise IndexError.

(** [l[start:]] for a Python integer [start]. *)
Definition py_slice_from {A} (l : list A) (start : Z) : list A :=
  let n := Z.of_nat (length l) in
  if (0 <=? start)%Z then drop (Z.to_nat start) l
  else drop (Z.to_nat (Z.max 0 (n + start))) l.

(** [l[:stop]] for a natural [stop]. *)
Definition py_slice_to {A} (l : list A) (stop : nat) : list A := take stop l.

(** Boolean-mask indexing [l[mask]]. *)
Fixpoint mask_select {A} (l : list A) (mask : list bool) : list A :=
  match l, mask with
  | a :: l', b :: mask' =>
      if b then a :: mask_select l' mask' else mask_select l' mask'
  | _, _ => []
  end.

(** [x > y] on floats. *)
Definition Qgtb (x y : Q) : bool := negb (Qle_bool x y).

#[global] Instance Qlt_decision (x y : Q) : Decision (x < y)%Q :=
  match Qlt_le_dec x y with
  | left Hlt => left Hlt
  | right Hle => right (Qle_not_lt _ _ Hle)
  end.

(** ** Arrays of pixels *)

(** A 2-D image [H, W], a boolean mask [H, W] and a cube [C, H, W]. *)
Definition Image : Type := list (list Q).
Definition Mask : Type := list (list bool).
Definition Cube : Type := list Image.

Definition np_zeros2 (h w : nat) : Image := replicate h (replicate w 0%Q).
Definition np_zeros3 (c h w : nat) : Cube := replicate c (np_zeros2 h w).
Definition np_zeros4 (n c h w : nat) : list Cube := replicate n (np_zeros3 c h w).
Definition np_zeros_mask (h w : nat) : Mask := replicate h (replicate w false).
Definition np_zeros_masks (n h w : nat) : list Mask := replicate n (np_zeros_mask h w).

(** [mask.astype(float)]. *)
Definition astype (m : Mask) : Image :=
  map (map (fun b : bool => if b then 1%Q else 0%Q)) m.

(** Elementwise product of two images of one shape. *)
Definition mul2 (a b : Image) : Image :=
  zip_with (zip_with Qmult) a b.

(** [cube * image]: the image is broadcast over the first axis. *)
Definition mul_broadcast (c : Cube) (m : Image) : Cube :=
  map (fun band => mul2 band m) c.

(** [cube.clip(0)]. *)
Definition clip0 (c : Cube) : Cube := map (map (map (Qmax 0))) c.

(** ** Astropy tables

    A [Table] is the ordered list of its named columns. *)

Definition Table : Type := list (string * list Q).

Definition Table_new : Table := [].

(** [t[name] = col]: replaces the column when it exists, appends it otherwise. *)
Fixpoint Table_set (t : Table) (name : string) (col : list Q) : Table :=
  match t with
  | [] => [(name, col)]
  | (n, c) :: t' =>
      if decide (n = name) then (n, col) :: t' else (n, c) :: Table_set t' name col
  end.

Definition colnames (t : Table) : list string := map fst t.

(** [t[name]]. *)
Definition Table_get (t : Table) (name : string) : list Q :=
  match list_find (fun nc => nc.1 = name) t with
  | Some (_, (_, c)) => c
  | None => []
  end.

(** [len(t)]: the number of rows. *)
Definition Table_len (t : Table) : nat :=
  match t with
  | [] => 0
  | (_, c) :: _ => length c
  end.

(** ** World coordinate system *)

(** [wcs.pixel_to_world_values] on one pixel position: degrees. *)
Definition WCS : Type := Q -> Q -> Q * Q.

(** [wcs.pixel_to_world_values(x, y)] on two arrays. *)
Definition pixel_to_world_values (wcs : WCS) (x y : list Q) : list Q * list Q :=
  let world := zip_with wcs x y in
  (map fst world, map snd world).

(** [a *= 3600]. *)
Definition times3600 (a : list Q) : list Q := map (Qmult 3600) a.

(** ** Batches *)

(** Modelled from the spec: [BlendBatch] is declared in [btk.blend_batch],
    not in [btk/deblend.py]; the record has the fields of the spec's
    InputBatch that [btk.deblend] reads. *)
Module BlendBatch.
Record t : Type := mk {
  batch_size : nat;
  image_size : nat;
  blend_images : list Cube;
  wcs : WCS;
  catalog_list : list Table;
}.
End BlendBatch.

(** Modelled from the spec: [DeblendExample] is declared in
    [btk.blend_batch]; the record is the spec's DetectionResult, with the
    arguments of the constructor in the order in which [btk.deblend] passes
    them. What the constructor may check is not part of [btk/deblend.py]. *)
Module DeblendExample.
Record t {Seg Debl Extra : Type} : Type := mk {
  max_n_sources : nat;
  catalog : Table;
  n_bands : option nat;
  image_size : option nat;
  segmentation : option Seg;
  deblended_images : option Debl;
  extra_data : option Extra;
}.
Arguments t : clear implicits.
Arguments mk {Seg Debl Extra}.
End DeblendExample.

(** Modelled from the spec: [DeblendBatch] is declared in [btk.blend_batch];
    the record is the spec's BatchResult, with the arguments of the
    constructor in the order in which [batch_call] passes them. *)
Module DeblendBatch.
Record t {Seg Debl Extra : Type} : Type := mk {
  batch_size : nat;
  max_n_sources : nat;
  catalog_list : list Table;
  n_bands : option nat;
  image_size : nat;
  segmentation : option (list (option Seg));
  deblended_images : option (list (option Debl));
  extra_data : option (list (option Extra));
}.
Arguments t : clear implicits.
Arguments mk {Seg Debl Extra}.
End DeblendBatch.

(** ** The worker pool *)

(** Modelled from the spec: [btk.multiprocess.multiprocess] is not part of
    [btk/deblend.py]. The spec gives it as the primitive that runs N
    independent units across W workers (1 = fully sequential), returns the
    results as an order-preserving sequence whatever the completion order,
    and propagates the first raised error and stops. [run_units] runs the
    units in the order in which the workers finish them and keeps each
    result with the index of its unit. *)
Definition run_units {A B} (func : A -> result B) (args_iter : list A)
    (order : list nat) : result (list (nat * B)) :=
  mapM (fun i => a ← getitem args_iter i; b ← func a; Ok (i, b)) order.

(** Modelled from the spec: the result of unit [i] among the finished units. *)
Definition result_of_unit {B} (finished : list (nat * B)) (i : nat) : result B :=
  match list_find (fun ib => ib.1 = i) finished with
  | Some (_, (_, b)) => Ok b
  | None => Raise IndexError
  end.

(** Modelled from the spec: [multiprocess(func, args_iter, kwargs_iter, njobs)].
    With one job the units run in their own order, otherwise they finish in
    the order [completion]; the results are read back by index. The keyword
    arguments are already applied in [func]. *)
Definition multiprocess {A B} (func : A -> result B) (args_iter : list A)
    (njobs : nat) (completion : list nat) : result (list B) :=
  let order :=
    if decide (njobs <= 1)%nat then seq 0 (length args_iter) else completion in
  finished ← run_units func args_iter order;
  mapM (result_of_unit finished) (seq 0 (length args_iter)).

(** ** numpy's shape of a stacked array *)

(** [np.array(l).shape] for the list [l] of the per-example arrays. *)
Class NdShape (Debl : Type) : Type :=
  np_array_shape : list (option Debl) -> list nat.

(** [_, _, n_bands, _, _ = shape]. *)
Definition unpack_n_bands (shape : list nat) : result nat :=
  match shape with
  | [_; _; n_bands; _; _] => Ok n_bands
  | _ => Raise (ValueError "unpack: expected 5 values")
  end.

(** ** class Deblender *)

Module Deblender.
(** An instance of a subclass: its [max_n_sources] and its [deblend]
    method, with the keyword arguments of the call already applied. *)
Record t {Seg Debl Extra : Type} : Type := mk {
  max_n_sources : nat;
  deblend : nat -> BlendBatch.t -> result (DeblendExample.t Seg Debl Extra);
}.
Arguments t : clear implicits.
Arguments mk {Seg Debl Extra}.

Section batch_call.
Context {Seg Debl Extra : Type} {nd_shape : NdShape Debl}.

(** [_, _, n_bands, _, _ = deblended.shape], when there is a stacked array. *)
Definition read_n_bands (deblended : option (list (option Debl))) : result (option nat) :=
  match deblended with
  | Some stacked => nb ← unpack_n_bands (np_array_shape stacked); Ok (Some nb)
  | None => Ok None
  end.

(** [None] when the field of the first example is [None], else the field
    of every example, stacked: [if output[0].f is not None:
    f = np.array([db_example.f for db_example in output])]. *)
Definition stack {F : Type} (field : DeblendExample.t Seg Debl Extra -> option F)
    (output : list (DeblendExample.t Seg Debl Extra))
    (first : DeblendExample.t Seg Debl Extra) : option (list (option F)) :=
  match field first with
  | Some _ => Some (map field output)
  | None => None
  end.

(** The body of [batch_call] after the pool has returned [output], whose
    entry 0 is [first]. *)
Definition reconcile (self : t Seg Debl Extra) (blend_batch : BlendBatch.t)
    (output : list (DeblendExample.t Seg Debl Extra))
    (first : DeblendExample.t Seg Debl Extra)
    : result (DeblendBatch.t Seg Debl Extra) :=
  let catalog_list := map DeblendExample.catalog output in
  let segmentation := stack DeblendExample.segmentation output first in
  let deblended := stack DeblendExample.deblended_images output first in
  n_bands ← read_n_bands deblended;
  let extra_data := stack DeblendExample.extra_data output first in
  Ok (DeblendBatch.mk
        (BlendBatch.batch_size blend_batch)
        (max_n_sources self)
        catalog_list
        n_bands
        (BlendBatch.image_size blend_batch)
        segmentation
        deblended
        extra_data).

Definition batch_call (self : t Seg Debl Extra) (blend_batch : BlendBatch.t)
    (njobs : nat) (completion : list nat)
    : result (DeblendBatch.t Seg Debl Extra) :=
  let args_iter :=
    map (fun ii => (ii, blend_batch)) (seq 0 (BlendBatch.batch_size blend_batch)) in
  output ← multiprocess (fun a => deblend self a.1 a.2) args_iter njobs completion;
  first ← getitem output 0;
  reconcile self blend_batch output first.

(** The results of [deblend] on the examples 0, 1, ... in turn. *)
Definition sequential_output (self : t Seg Debl Extra) (blend_batch : BlendBatch.t)
    : result (list (DeblendExample.t Seg Debl Extra)) :=
  mapM (fun ii => deblend self ii blend_batch)
    (seq 0 (BlendBatch.batch_size blend_batch)).
End batch_call.
End Deblender.

(** ** class PeakLocalMax *)

Class Skimage : Type :=
  (** [peak_local_max(image, min_distance, threshold_abs, num_peaks)]: the
      (row, column) positions of the peaks. *)
  peak_local_max : Image -> nat -> Q -> nat -> list (Z * Z).

Class NumpyFloat : Type := {
  np_sqrt : Q -> Q;
  (** [np.mean(cube, axis=0)] *)
  np_mean_axis0 : Cube -> Image;
}.

(** The band that a single-band deblender works on: [__init__] raises unless
    exactly one of [use_mean] and [use_band] is given. *)
Inductive BandChoice : Type :=
| UseMean
| UseBand (use_band : Z).

Definition choose_band (use_mean : bool) (use_band : option Z) : result BandChoice :=
  match use_band, use_mean with
  | None, false =>
      Raise (ValueError "Either set 'use_mean=True' OR indicate a 'use_band' index")
  | Some _, true =>
      Raise (ValueError "Only one of the parameters 'use_band' and 'use_mean' has to be set")
  | None, true => Ok UseMean
  | Some b, false => Ok (UseBand b)
  end.

(** [np.mean(blend_image, axis=0) if self.use_mean else blend_image[self.use_band]]. *)
Definition select_image {numpy : NumpyFloat} (band : BandChoice) (blend_image : Cube)
    : result Image :=
  match band with
  | UseMean => Ok (np_mean_axis0 blend_image)
  | UseBand use_band => py_index blend_image use_band
  end.

Module PeakLocalMax.
Record t : Type := mk {
  max_n_sources : nat;
  sky_level : Q;
  threshold_scale : Q;
  min_distance : nat;
  band : BandChoice;
}.

Definition init (max_n_sources : nat) (sky_level threshold_scale : Q)
    (min_distance : nat) (use_mean : bool) (use_band : option Z) : result t :=
  band ← choose_band use_mean use_band;
  Ok (mk max_n_sources sky_level threshold_scale min_distance band).

Definition too_many : exn :=
  ValueError "`PeakLocalMax` detected more sources than `max_n_sources`. Consider increasing`threshold_scale` or `max_n_sources`.".

Section deblend.
Context {skimage : Skimage} {numpy : NumpyFloat} {Seg Debl Extra : Type}.

Definition deblend (self : t) (ii : nat) (blend_batch : BlendBatch.t)
    : result (DeblendExample.t Seg Debl Extra) :=
  blend_image ← getitem (BlendBatch.blend_images blend_batch) ii;
  image ← select_image (band self) blend_image;
  let threshold := (threshold_scale self * np_sqrt (sky_level self))%Q in
  let coordinates :=
    peak_local_max image (min_distance self) threshold (max_n_sources self) in
  let x := map (fun c => inject_Z c.2) coordinates in
  let y := map (fun c => inject_Z c.1) coordinates in
  let wcs := BlendBatch.wcs blend_batch in
  let world := pixel_to_world_values wcs x y in
  let ra := times3600 world.1 in
  let dec := times3600 world.2 in
  let catalog := Table_new in
  let catalog := Table_set catalog "ra" ra in
  let catalog := Table_set catalog "dec" dec in
  let catalog := Table_set catalog "x_peak" x in
  let catalog := Table_set catalog "y_peak" y in
  if decide (max_n_sources self < Table_len catalog)%nat then Raise too_many
  else Ok (DeblendExample.mk (max_n_sources self) catalog None None None None None).

Definition as_deblender (self : t) : Deblender.t Seg Debl Extra :=
  Deblender.mk (max_n_sources self) (deblend self).
End deblend.
End PeakLocalMax.

(** ** class SepSingleBand *)

Class SepLib : Type := {
  (** [sep.extract(image, thresh, err=sep.Background(image).globalrms,
      segmentation_map=False)]: the columns [x] and [y] of the objects *)
  sep_extract : Image -> Q -> list (Q * Q);
  (** the same with [segmentation_map=True, minarea=min_area]: the objects
      and the map that holds [j + 1] on the pixels of object [j] *)
  sep_extract_segmentation : Image -> Q -> nat -> list (Q * Q) * list (list Z);
}.

Module SepSingleBand.
Record t : Type := mk {
  max_n_sources : nat;
  thresh : Q;
  min_area : nat;
  band : BandChoice;
}.

Definition init (max_n_sources : nat) (thresh : Q) (min_area : nat)
    (use_mean : bool) (use_band : option Z) : result t :=
  band ← choose_band use_mean use_band;
  Ok (mk max_n_sources thresh min_area band).

Definition too_many : exn :=
  ValueError "SEP predicted more sources than `max_n_sources`. Consider increasing `thresh` or `max_n_sources`.".

(** [segmentation == jj + 1]. *)
Definition footprint (segmentation : list (list Z)) (jj : nat) : Mask :=
  map (map (fun v => bool_decide (v = Z.of_nat jj + 1)%Z)) segmentation.

(** The loop over [range(n_objects)] that fills the two padded arrays. *)
Definition fill_objects (image : Image) (segmentation : list (list Z)) (n_objects : nat)
    (arrays : list Mask * list Image) : list Mask * list Image :=
  foldl
    (fun arrays jj =>
       let seg_i := footprint segmentation jj in
       (<[jj := seg_i]> arrays.1, <[jj := mul2 image (astype seg_i)]> arrays.2))
    arrays (seq 0 n_objects).

Section deblend.
Context {sep_lib : SepLib} {numpy : NumpyFloat} {Extra : Type}.

Definition deblend (self : t) (ii : nat) (blend_batch : BlendBatch.t)
    : result (DeblendExample.t (list Mask) (list Cube) Extra) :=
  blend_image ← getitem (BlendBatch.blend_images blend_batch) ii;
  image ← select_image (band self) blend_image;
  let '(catalog, segmentation) :=
    sep_extract_segmentation image (thresh self) (min_area self) in
  if decide (max_n_sources self < length catalog)%nat then Raise too_many
  else
    let h := length image in
    let w := length (hd [] image) in
    let segmentation_exp := np_zeros_masks (max_n_sources self) h w in
    let deblended_images := replicate (max_n_sources self) (np_zeros2 h w) in
    let n_objects := length catalog in
    let filled :=
      fill_objects image segmentation n_objects (segmentation_exp, deblended_images) in
    let wcs := BlendBatch.wcs blend_batch in
    let world := pixel_to_world_values wcs (map fst catalog) (map snd catalog) in
    let ra := times3600 world.1 in
    let dec := times3600 world.2 in
    let cat := Table_new in
    let cat := Table_set cat "ra" ra in
    let cat := Table_set cat "dec" dec in
    let cat := Table_set cat "x_peak" (map fst catalog) in
    let cat := Table_set cat "y_peak" (map snd catalog) in
    Ok (DeblendExample.mk (max_n_sources self) cat (Some 1%nat)
          (Some (BlendBatch.image_size blend_batch))
          (Some filled.1)
          (Some (map (fun deblended => clip0 [deblended]) filled.2))
          None).

Definition as_deblender (self : t) : Deblender.t (list Mask) (list Cube) Extra :=
  Deblender.mk (max_n_sources self) (deblend self).
End deblend.
End SepSingleBand.

(** ** class SepMultiBand *)


Class Astropy : Type :=
  (** The great-circle separation, in arcseconds, of two positions given by
      their right ascension and declination in arcseconds. *)
  separation : Q * Q -> Q * Q -> Q.

(** [SkyCoord(ra=ra * units.arcsec, dec=dec * units.arcsec)]. *)
Definition SkyCoord (ra dec : list Q) : list (Q * Q) := zip ra dec.

(** A [for] loop whose body may raise. *)
Fixpoint for_each {S A} (body : S -> A -> result S) (s : S) (l : list A) : result S :=
  match l with
  | [] => Ok s
  | a :: l' => s' ← body s a; for_each body s' l'
  end.

Module SepMultiBand.
Record t : Type := mk {
  max_n_sources : nat;
  matching_threshold : Q;
  thresh : Q;
}.

Definition too_many : exn :=
  ValueError "SEP predicted more sources than `max_n_sources`. Consider increasing `thresh` or `max_n_sources`.".

Section deblend.
Context {sep_lib : SepLib} {astropy : Astropy} {Seg Debl Extra : Type}.

(** The separation of [p] to its nearest neighbour in the non-empty [c2]. *)
Definition nearest_separation (p : Q * Q) (c2 : list (Q * Q)) : Q :=
  match c2 with
  | [] => 0%Q
  | q :: c2' => foldl (fun d r => Qmin d (separation p r)) (separation p q) c2'
  end.

(** [c1.match_to_catalog_sky(c2)[1].arcsec]. *)
Definition match_to_catalog_sky (c1 c2 : list (Q * Q)) : list Q :=
  map (fun p => nearest_separation p c2) c1.

(** Lines 410-435: merge the detections of one band with the running
    list of coordinates. *)
Definition merge_detections (self : t)
    (ra_coordinates dec_coordinates ra_detections dec_detections : list Q)
    : list Q * list Q :=
  let c1 := SkyCoord ra_detections dec_detections in
  let c2 := SkyCoord ra_coordinates dec_coordinates in
  if decide (0 < length c1 /\ 0 < length c2)%nat then
    let distance2d := match_to_catalog_sky c1 c2 in
    let far := map (fun d => Qgtb d (matching_threshold self)) distance2d in
    (ra_coordinates ++ mask_select ra_detections far,
     dec_coordinates ++ mask_select dec_detections far)
  else
    (ra_coordinates ++ ra_detections, dec_coordinates ++ dec_detections).

(** The body of the loop over the bands after the first. *)
Definition band_step (self : t) (wcs : WCS) (coordinates : list Q * list Q)
    (band_image : Image) : result (list Q * list Q) :=
  let catalog := sep_extract band_image (thresh self) in
  if decide (max_n_sources self < length catalog)%nat then Raise too_many
  else
    let world := pixel_to_world_values wcs (map fst catalog) (map snd catalog) in
    let ra_detections := times3600 world.1 in
    let dec_detections := times3600 world.2 in
    Ok (merge_detections self coordinates.1 coordinates.2
          ra_detections dec_detections).

Definition deblend (self : t) (ii : nat) (blend_batch : BlendBatch.t)
    : result (DeblendExample.t Seg Debl Extra) :=
  let wcs := BlendBatch.wcs blend_batch in
  image ← getitem (BlendBatch.blend_images blend_batch) ii;
  band0 ← getitem image 0;
  let catalog := sep_extract band0 (thresh self) in
  let world := pixel_to_world_values wcs (map fst catalog) (map snd catalog) in
  let ra_coordinates := times3600 world.1 in
  let dec_coordinates := times3600 world.2 in
  if decide (max_n_sources self < length catalog)%nat then Raise too_many
  else
    coordinates ←
      for_each (band_step self wcs) (ra_coordinates, dec_coordinates) (drop 1 image);
    let catalog := Table_new in
    let catalog := Table_set catalog "ra" coordinates.1 in
    let catalog := Table_set catalog "dec" coordinates.2 in
    Ok (DeblendExample.mk (max_n_sources self) catalog None None None None None).

Definition as_deblender (self : t) : Deblender.t Seg Debl Extra :=
  Deblender.mk (max_n_sources self) (deblend self).
End deblend.
End SepMultiBand.

(** ** Slice assignment *)

(** [dst[:stop] = src] along the first axis: [src] has as many rows as the
    slice, or one row that numpy broadcasts; otherwise numpy raises. *)
Definition setslice_to {A} (dst : list A) (stop : nat) (src : list A) : result (list A) :=
  let count := (stop `min` length dst)%nat in
  if decide (length src = count) then Ok (src ++ drop count dst)
  else
    match src with
    | [a] => Ok (replicate count a ++ drop count dst)
    | _ => Raise (ValueError "could not broadcast input array")
    end.

(** ** class DeepDisc *)

(** An image [H, W, C] as the image reader returns it. *)
Definition Img : Type := list (list (list Q)).

(** [img.shape], for an image with at least one pixel. *)
Definition shape0 (img : Img) : nat := length img.
Definition shape1 (img : Img) : nat := length (hd [] img).
Definition shape2 (img : Img) : nat := length (hd [] (hd [] img)).

(** [np.transpose(img, (2, 0, 1))]. *)
Definition transpose_201 (img : Img) : Cube :=
  map (fun c => map (map (fun px => nth c px 0%Q)) img) (seq 0 (shape2 img)).

(** [output['instances']]: the centers of the predicted boxes and the
    predicted masks, one of each per detection. *)
Record Instances : Type := mkInstances {
  pred_boxes_centers : list (Q * Q);
  pred_masks : list Mask;
}.

Class DeepDiscModel : Type := {
  (** [reader_save]: the configured image reader on the cube of one example *)
  reader : Cube -> Img;
  (** [self.predictor] *)
  predictor : Img -> Instances;
}.

(** The values of DeepDisc's [extra_dict]. *)
Inductive ExtraValue : Type :=
| ExtraSegs (segs : list Mask)
| ExtraDeblended (images : list Cube).

Module DeepDisc.
Record t : Type := mk {
  max_n_sources : nat;
  allow_over_n_sources : bool;
}.

Definition too_many : exn :=
  ValueError "DeepDISC predicted more sources than `max_n_sources`. Consider increasing `score_thresh` or decreasing `max_n_sources`.".

(** The loop [for i in range(n): deblended_images[i] = rimg * segmentation[i].astype(img.dtype)]. *)
Definition cut_out_sources (rimg : Cube) (segmentation : list Mask)
      (deblended_images : list Cube) : list Cube :=
    foldl
      (fun deblended_images i =>
         match segmentation !! i with
         | Some seg => <[i := mul_broadcast rimg (astype seg)]> deblended_images
         | None => deblended_images
         end)
      deblended_images (seq 0 (length segmentation)).

Section deblend.
Context {model : DeepDiscModel}.

Definition deblend (self : t) (ii : nat) (blend_batch : BlendBatch.t)
    : result (DeblendExample.t (list Mask) (list Cube) (gmap string ExtraValue)) :=
  bb ← getitem (BlendBatch.blend_images blend_batch) ii;
  let img := reader bb in
  let output := predictor img in
  let extra_dict : gmap string ExtraValue := ∅ in
  let centers := pred_boxes_centers output in
  let wcs := BlendBatch.wcs blend_batch in
  let world := pixel_to_world_values wcs (map fst centers) (map snd centers) in
  let ra_coordinates := times3600 world.1 in
  let dec_coordinates := times3600 world.2 in
  let catalog := Table_new in
  let catalog := Table_set catalog "ra" ra_coordinates in
  let catalog := Table_set catalog "dec" dec_coordinates in
  let catalog := Table_set catalog "x_peak" (map fst centers) in
  let catalog := Table_set catalog "y_peak" (map snd centers) in
  let segmentation := pred_masks output in
  let n := length segmentation in
  let max := max_n_sources self in
  if decide (max < n)%nat then
    if allow_over_n_sources self then
      let segs := np_zeros_masks max (shape0 img) (shape1 img) in
      segs ← setslice_to segs max (py_slice_to segmentation max);
      let extra_segs :=
        py_slice_from segmentation (Z.of_nat max - Z.of_nat n) in
      let extra_dict : gmap string ExtraValue := {[ "segs" := ExtraSegs extra_segs ]} in
      let deblended_images :=
        np_zeros4 n (shape2 img) (shape0 img) (shape1 img) in
      let rimg := transpose_201 img in
      let deblended_images := cut_out_sources rimg segmentation deblended_images in
      let deblended_ims := py_slice_to deblended_images max in
      let extra_deblend :=
        py_slice_from deblended_images (Z.of_nat max - Z.of_nat n) in
      let extra_dict := <[ "deblended_images" := ExtraDeblended extra_deblend ]> extra_dict in
      Ok (DeblendExample.mk max catalog (Some (shape2 img))
            (Some (BlendBatch.image_size blend_batch))
            (Some segs) (Some deblended_ims) (Some extra_dict))
    else Raise too_many
  else
    let segs := np_zeros_masks max (shape0 img) (shape1 img) in
    segs ← setslice_to segs n segmentation;
    let deblended_images :=
      np_zeros4 max (shape2 img) (shape0 img) (shape1 img) in
    let rimg := transpose_201 img in
    let deblended_images := cut_out_sources rimg segmentation deblended_images in
    let deblended_ims := deblended_images in
    Ok (DeblendExample.mk max catalog (Some (shape2 img))
          (Some (BlendBatch.image_size blend_batch))
          (Some segs) (Some deblended_ims) (Some extra_dict)).

Definition as_deblender (self : t)
    : Deblender.t (list Mask) (list Cube) (gmap string ExtraValue) :=
  Deblender.mk (max_n_sources self) (deblend self).
End deblend.
End DeepDisc.

(** ** class Scarlet *)

Module Scarlet.
Record t : Type := mk {
  max_n_sources : nat;
  thres : Q;
  e_rel : Q;
  max_iter : nat;
  max_components : nat;
  min_snr : Q;
}.
End Scarlet.

Class ScarletLib : Type := {
  (** a fitted scarlet source *)
  Source : Type;
  (** [scarlet.initialization.init_all_sources] on the observation of the
      image at the centers [ra_dec], then [scarlet.Blend(...).fit(...)]:
      raises [LinAlgError] on a singular system *)
  init_and_fit : Scarlet.t -> BlendBatch.t -> Cube -> list (Q * Q) -> result (list Source);
  (** [component.center]: (y, x) *)
  center : Source -> Q * Q;
  (** [observations.render(component.get_model(frame=model_frame))] *)
  render_model : Source -> result Cube;
}.

Module ScarletDeblend.
Import Scarlet.

Section deblend.
Context {scarlet : ScarletLib} {Seg : Type}.

Abbreviation Example := (DeblendExample.t Seg (list Cube) (gmap string (list Source))).

(** The result for an empty catalog, and after a [LinAlgError]. *)
Definition no_images (self : t) (n_bands img_size : nat) : Example :=
  let t := Table_new in
  let t := Table_set t "ra" [] in
  let t := Table_set t "dec" [] in
  let deblended_images := np_zeros4 (max_n_sources self) n_bands img_size img_size in
  DeblendExample.mk (max_n_sources self) t (Some n_bands) (Some img_size)
    None (Some deblended_images) None.

(** [deblended_images[: len(individual_sources)] = individual_sources]:
    the right-hand side is a Python list, of shape (0,) when empty. *)
Definition store_sources (img_size : nat) (deblended_images individual_sources : list Cube)
    : result (list Cube) :=
  match individual_sources with
  | [] =>
      if decide (img_size = 0)%nat then Ok deblended_images
      else Raise (ValueError "could not broadcast input array")
  | _ => setslice_to deblended_images (length individual_sources) individual_sources
  end.

(** The body of the [try] statement. *)
Definition fit_and_render (self : t) (blend_batch : BlendBatch.t) (image : Cube)
    (catalog : Table) (n_bands img_size : nat) : result Example :=
  let ra_dec :=
    zip (map (fun a => a / 3600)%Q (Table_get catalog "ra"))
        (map (fun d => d / 3600)%Q (Table_get catalog "dec")) in
  sources ← init_and_fit self blend_batch image ra_dec;
  individual_sources ← mapM render_model sources;
  let selected_peaks := map (fun component => ((center component).2, (center component).1)) sources in
  let deblended_images := np_zeros4 (max_n_sources self) n_bands img_size img_size in
  deblended_images ← store_sources img_size deblended_images individual_sources;
  if decide (length selected_peaks = Table_len catalog) then
    Ok (DeblendExample.mk (max_n_sources self) catalog (Some n_bands)
          (Some (BlendBatch.image_size blend_batch)) None
          (Some (map clip0 deblended_images))
          (Some {[ "scarlet_sources" := sources ]}))
  else Raise AssertionError.

Definition deblend (self : t) (ii : nat) (blend_batch : BlendBatch.t)
    (reference_catalogs : option (list Table)) : result Example :=
  catalog ←
    match reference_catalogs with
    | None => getitem (BlendBatch.catalog_list blend_batch) ii
    | Some reference_catalogs => getitem reference_catalogs ii
    end;
  if decide ("ra" ∈ colnames catalog /\ "dec" ∈ colnames catalog) then
    image ← getitem (BlendBatch.blend_images blend_batch) ii;
    let n_bands := length image in
    let img_size := BlendBatch.image_size blend_batch in
    if decide (Table_len catalog = 0)%nat then Ok (no_images self n_bands img_size)
    else
      match fit_and_render self blend_batch image catalog n_bands img_size with
      | Raise LinAlgError => Ok (no_images self n_bands img_size)
      | outcome => outcome
      end
  else Raise AssertionError.

(** [reference_catalogs] is a keyword argument of the batch call. *)
Definition as_deblender (self : t) (reference_catalogs : option (list Table))
    : Deblender.t Seg (list Cube) (gmap string (list Source)) :=
  Deblender.mk (max_n_sources self)
    (fun ii blend_batch => deblend self ii blend_batch reference_catalogs).
End deblend.
End ScarletDeblend.

(** ** class DeblendGenerator *)

Module DeblendGenerator.
(** [deblender_names.count(name)]. *)
Definition count (deblender_names : list string) (name : string) : nat :=
    length (filter (fun n => n = name) deblender_names).

(** [{name: 0 for name in set(deblender_names) if deblender_names.count(name) > 1}]. *)
Definition repeated_names (deblender_names : list string) : gmap string nat :=
    list_to_map
      (map (fun name => (name, 0%nat))
         (filter (fun name => 1 < count deblender_names name)%nat
            (elements (list_to_set deblender_names : gset string)))).

(** The body of the loop over [enumerate(deblender_names)]. *)
Definition add_suffix (state : list string * gmap string nat) (ii : nat)
      : list string * gmap string nat :=
    let '(deblender_names, names_counts) := state in
    match deblender_names !! ii with
    | Some name =>
        match names_counts !! name with
        | Some k =>
            (<[ii := name +:+ "_" +:+ pretty k]> deblender_names,
             <[name := (k + 1)%nat]> names_counts)
        | None => state
        end
    | None => state
    end.

Section names.
Context {D : Type} (str : D -> string).

Definition _get_unique_deblender_names (deblenders : list D) : list string :=
  let deblender_names := map str deblenders in
  let names_counts := repeated_names deblender_names in
  (foldl add_suffix (deblender_names, names_counts)
     (seq 0 (length deblender_names))).1.
End names.

(** The name that instance [i], of type name [name], ends up with: every
    instance of a type name that occurs more than once is numbered, from 0,
    by the number of earlier instances of that type name. *)
Definition indexed_name (deblender_names : list string) (i : nat) (name : string) : string :=
  if decide (1 < count deblender_names name)%nat
  then name +:+ "_" +:+ pretty (count (take i deblender_names) name)
  else name.

(** The reading under which the first instance of a type name keeps the
    bare name. *)
Definition first_instance_keeps_bare_name : Prop :=
  forall (deblender_names : list string) (i : nat) (name : string),
    deblender_names !! i = Some name ->
    name ∉ take i deblender_names ->
    _get_unique_deblender_names id deblender_names !! i = Some name.
End DeblendGenerator.


(** * Sample libraries and inputs

    Small instances of the library interfaces, on which the definitions
    above evaluate. *)

(** An image that is [v] at column [x] of row [y] and 0 elsewhere. *)
Definition spike (h w x y : nat) (v : Q) : Image :=
  map (fun r => map (fun c => if decide (r = y /\ c = x) then v else 0%Q) (seq 0 w))
    (seq 0 h).

(** A detector that reports one object per pixel brighter than [thresh], at
    the position of the pixel. *)
Definition bright_pixels (image : Image) (thresh : Q) : list (Q * Q) :=
  concat
    (imap (fun y row =>
             omap id
               (imap (fun x v =>
                        if Qgtb v thresh
                        then Some (inject_Z (Z.of_nat x), inject_Z (Z.of_nat y))
                        else None) row))
       image).

(** The map that holds [j + 1] on the pixel of object [j] and 0 elsewhere. *)
Definition one_pixel_objects (image : Image) (objects : list (Q * Q)) : list (list Z) :=
  imap (fun y row =>
          imap (fun x _ =>
                  match list_find (fun o : Q * Q =>
                          Qfloor o.1 = Z.of_nat x /\ Qfloor o.2 = Z.of_nat y) objects with
                  | Some (j, _) => (Z.of_nat j + 1)%Z
                  | None => 0%Z
                  end) row)
    image.

Definition sample_sep : SepLib :=
  {| sep_extract := bright_pixels;
     sep_extract_segmentation := fun image thresh _ =>
       (bright_pixels image thresh, one_pixel_objects image (bright_pixels image thresh)) |}.

(** One pixel is one arcsecond along both axes. *)
Definition arcsec_pixels : WCS := fun x y => (x / 3600, y / 3600)%Q.

(** The separation of two positions on one meridian is the difference of
    their declinations; the samples below only compare such positions. *)
Definition meridian_separation (p q : Q * Q) : Q := Qabs (q.2 - p.2).

(** Two bands of 8 x 8 pixels with one bright pixel each, in column 2 of
    rows 1 and 6: 5 arcseconds apart. *)
Definition two_band_batch : BlendBatch.t :=
  BlendBatch.mk 1 8 [[spike 8 8 2 1 100; spike 8 8 2 6 100]] arcsec_pixels [].

(** A peak finder that reports the pixels brighter than [threshold_abs] as
    (row, column), the first [num_peaks] of them in row-major order. *)
Definition first_bright_pixels (image : Image) (min_distance : nat) (threshold_abs : Q)
    (num_peaks : nat) : list (Z * Z) :=
  take num_peaks
    (map (fun xy => (Qfloor xy.2, Qfloor xy.1)) (bright_pixels image threshold_abs)).

(** The mean of the bands, pixel by pixel, and a square root that is exact on
    the squares of the integers. *)
Definition mean_of_bands (cube : Cube) : Image :=
  match cube with
  | [] => []
  | band :: bands =>
      map (map (fun v => v / inject_Z (Z.of_nat (length cube)))%Q)
        (foldl (zip_with (zip_with Qplus)) band bands)
  end.

Definition integer_sqrt (q : Q) : Q := inject_Z (Z.sqrt (Qfloor q)).

Definition sample_numpy : NumpyFloat :=
  {| np_sqrt := integer_sqrt; np_mean_axis0 := mean_of_bands |}.

(** Three examples of one band with 3, 1 and 0 bright pixels. *)
Definition three_examples : BlendBatch.t :=
  BlendBatch.mk 3 4
    [ [ [ [50; 0; 0; 50]; [0; 0; 0; 0]; [0; 50; 0; 0]; [0; 0; 0; 0] ] ];
      [ spike 4 4 1 2 50 ];
      [ np_zeros2 4 4 ] ]%Q
    arcsec_pixels [].

(** [np.array(l).shape] for per-example arrays [n, C, H, W] with at least one
    entry along each axis; a list holding [None] is an array of objects. *)
Definition stacked_cubes_shape (stacked : list (option (list Cube))) : list nat :=
  match stacked with
  | Some d :: _ =>
      if forallb (fun o : option (list Cube) => bool_decide (is_Some o)) stacked
      then [length stacked; length d; length (hd [] d);
            length (hd [] (hd [] d)); length (hd [] (hd [] (hd [] d)))]
      else [length stacked]
  | _ => [length stacked]
  end.

(** An image reader that moves the band axis last: [H, W, C]. *)
Definition bands_last (bb : Cube) : Img :=
  imap (fun h row => imap (fun w _ => map (fun band => nth w (nth h band []) 0%Q) bb) row)
    (hd [] bb).

(** A predictor that detects every pixel whose first channel is above 10:
    the center of the box is the pixel and the mask is that pixel alone. *)
Definition one_pixel_mask (img : Img) (xy : Q * Q) : Mask :=
  imap (fun h row =>
          imap (fun w _ =>
                  bool_decide (Z.of_nat w = Qfloor xy.1 /\ Z.of_nat h = Qfloor xy.2)) row)
    img.

Definition detect_bright_pixels (img : Img) : Instances :=
  let centers := bright_pixels (map (map (fun px => nth 0 px 0%Q)) img) 10 in
  mkInstances centers (map (one_pixel_mask img) centers).

Definition sample_model : DeepDiscModel :=
  {| reader := bands_last; predictor := detect_bright_pixels |}.

(** Two examples of two bands, 3 x 3 pixels, with three and with one bright
    pixel in the first band. *)
Definition two_examples : BlendBatch.t :=
  BlendBatch.mk 2 3
    [ [ [ [50; 0; 50]; [0; 0; 0]; [0; 50; 0] ]; [ [1; 1; 1]; [1; 1; 1]; [1; 1; 1] ] ];
      [ [ [0; 0; 0]; [0; 50; 0]; [0; 0; 0] ]; [ [1; 1; 1]; [1; 1; 1]; [1; 1; 1] ] ] ]%Q
    arcsec_pixels [].

(** A fit that fails on a singular system when two centers coincide, and
    otherwise returns one source per center whose model is the image. *)
Fixpoint coincident (centers : list (Q * Q)) : bool :=
  match centers with
  | [] => false
  | c :: centers' =>
      existsb (fun c' => Qeq_bool c.1 c'.1 && Qeq_bool c.2 c'.2) centers'
      || coincident centers'
  end.

Definition sample_scarlet : ScarletLib :=
  {| Source := (Q * Q) * Cube;
     init_and_fit := fun _ _ image ra_dec =>
       if coincident ra_dec then Raise LinAlgError
       else Ok (map (fun c => (c, image)) ra_dec);
     center := fun s => (s.1.2, s.1.1);
     render_model := fun s => Ok s.2 |}.

(** One example of one band whose truth catalog has two sources on the same
    position. *)
Definition coincident_batch : BlendBatch.t :=
  BlendBatch.mk 1 4 [ [ spike 4 4 1 1 50 ] ] arcsec_pixels
    [ [("ra", [1; 1]); ("dec", [1; 1])]%Q ].

(** A deblender whose example 0 has a segmentation and no extra data, and
    whose other examples have extra data and no segmentation. *)
Definition uneven_example (ii : nat) : DeblendExample.t (list Mask) (list Cube) (list Q) :=
  DeblendExample.mk 2 [("ra", []); ("dec", [])] None None
    (if decide (ii = 0)%nat then Some (np_zeros_masks 2 1 1) else None)
    None
    (if decide (ii = 0)%nat then None else Some []).

Definition uneven_deblender : Deblender.t (list Mask) (list Cube) (list Q) :=
  Deblender.mk 2 (fun ii _ => Ok (uneven_example ii)).

(** * DeblendGenerator: validation and iteration *)

(** Whether a name holds the character [_]. *)
Fixpoint has_underscore (name : string) : bool :=
  match name with
  | EmptyString => false
  | String c name' => bool_decide (c = "_"%char) || has_underscore name'
  end.

Module Generator.
(** What the caller may pass in the list of deblenders: a class (with its
    name and whether it subclasses [Deblender] or [MultiResolutionDeblender]),
    an instance of a subclass of one of the two, or any other object (with
    the name of its type). *)
Inductive PyObject (D : Type) : Type :=
| AClass (name : string) (is_deblender_cls is_mr_deblender_cls : bool)
| AnInstance (deblender : D)
| AnotherObject (type_name : string).
Arguments AClass {D} name is_deblender_cls is_mr_deblender_cls.
Arguments AnInstance {D} deblender.
Arguments AnotherObject {D} type_name.

Inductive TypeError : Type :=
| mkTypeError (msg : string).

(** The checks of one entry of the list. *)
Definition validate_one {D : Type} (deblender : PyObject D) : TypeError + D :=
  match deblender with
  | AClass name is_deblender_cls is_mr_deblender_cls =>
      if negb (is_deblender_cls || is_mr_deblender_cls) then
        inl (mkTypeError
               ("'" +:+ name +:+ "' must subclass from Deblender orMultiResolutionDeblender."))
      else
        inl (mkTypeError
               ("'" +:+ name +:+ "' must be instantiated. Use '" +:+ name +:+ "()'"))
  | AnInstance d => inr d
  | AnotherObject type_name =>
      inl (mkTypeError
             ("Got type'" +:+ type_name +:+
              "', but expected an object of a Deblender orMultiResolutionDeblender class."))
  end.

(** The loop of [_validate_deblenders]: the first entry that fails raises. *)
Fixpoint validate_all {D : Type} (deblenders : list (PyObject D)) : TypeError + list D :=
  match deblenders with
  | [] => inr []
  | deblender :: rest =>
      match validate_one deblender with
      | inl e => inl e
      | inr d =>
          match validate_all rest with
          | inl e => inl e
          | inr ds => inr (d :: ds)
          end
      end
  end.

(** [_validate_deblenders(deblenders)]: one object that is not a list stands
    for the list that holds it. *)
Definition _validate_deblenders {D : Type} (deblenders : PyObject D + list (PyObject D))
    : TypeError + list D :=
  let deblenders :=
    match deblenders with
    | inl deblender => [deblender]
    | inr deblenders => deblenders
    end in
  validate_all deblenders.

Section next.
Context {Seg Debl Extra : Type} {nd_shape : NdShape Debl}.

(** The generator after [__init__]: the deblenders, each with the name of
    its class, their unique names and [njobs]. *)
Record t : Type := mk {
  deblenders : list (string * Deblender.t Seg Debl Extra);
  deblender_names : list string;
  njobs : nat;
}.

Definition init (deblenders : list (string * Deblender.t Seg Debl Extra)) (njobs : nat) : t :=
  mk deblenders (DeblendGenerator._get_unique_deblender_names fst deblenders) njobs.

(** The dict comprehension of [__next__] on the batch [blend_batch] drawn
    from the generator of blends: the batch calls run in the order of the
    list, the first one that raises stops the iteration, and a later entry
    with the name of an earlier one replaces it. [completion k] is the order
    in which the workers finish the units of deblender [k]. *)
Definition next_output (self : t) (blend_batch : BlendBatch.t)
    (completion : nat -> list nat)
    : result (gmap string (DeblendBatch.t Seg Debl Extra)) :=
  items ←
    mapM (fun '(k, (name, deblender)) =>
            output ← Deblender.batch_call deblender.2 blend_batch (njobs self) (completion k);
            Ok (name, output))
      (imap (fun k item => (k, item)) (zip (deblender_names self) (deblenders self)));
  Ok (foldl (fun deblended_output item => <[item.1 := item.2]> deblended_output) ∅ items).

Definition next_ (self : t) (blend_batch : BlendBatch.t) (completion : nat -> list nat)
    : result (BlendBatch.t * gmap string (DeblendBatch.t Seg Debl Extra)) :=
  deblended_output ← next_output self blend_batch completion;
  Ok (blend_batch, deblended_output).
End next.
End Generator.

(** * The constructor of [DeblendExample] *)

(** Modelled from the spec: the constructor of [DeblendExample] is declared
    in [btk.blend_batch], not in [btk/deblend.py]. The spec gives the
    DetectionResult of a strategy without an overflow policy a catalog of at
    most [max_n_sources] rows: the constructor raises on a longer catalog and
    keeps the example otherwise. The exception that it raises is not part of
    [btk/deblend.py]: [too_many_rows] stands for it. *)
Definition DeblendExample_validate {Seg Debl Extra : Type} (too_many_rows : exn)
    (ex : DeblendExample.t Seg Debl Extra) : result (DeblendExample.t Seg Debl Extra) :=
  if decide (DeblendExample.max_n_sources ex
             < Table_len (DeblendExample.catalog ex))%nat
  then Raise too_many_rows
  else Ok ex.

(** Modelled from the spec: the outcome of [deblend] for a strategy without an
    overflow policy under that constructor. Every [return] of [deblend] is a
    call [DeblendExample(...)], so that the constructor is given every
    example that [deblend] builds. *)
Definition with_validation {Seg Debl Extra : Type} (too_many_rows : exn)
    (outcome : result (DeblendExample.t Seg Debl Extra))
    : result (DeblendExample.t Seg Debl Extra) :=
  ex ← outcome; DeblendExample_validate too_many_rows ex.

(** * Further sample libraries and inputs *)

(** A scarlet library whose fit returns the centers it was given and whose
    models cannot be rendered. *)
Definition unrenderable_scarlet : ScarletLib :=
  {| Source := Q * Q;
     init_and_fit := fun _ _ _ ra_dec => Ok ra_dec;
     center := fun s => (s.2, s.1);
     render_model := fun _ => Raise (ValueError "model outside of the frame") |}.

(** Two instances of one class. *)
Definition two_uneven_deblenders
    : list (string * Deblender.t (list Mask) (list Cube) (list Q)) :=
  [("Uneven", uneven_deblender); ("Uneven", uneven_deblender)].

(** * Properties *)

(** ** Results and loops *)

Lemma bind_Ok {A B} (m : result A) (f : A -> result B) (b : B) :
  m ≫= f = Ok b <-> exists a, m = Ok a /\ f a = Ok b.
Proof.
  destruct m as [a|e]; simpl; split.
  - intros Hf. exists a. done.
  - intros (a' & [= <-] & Hf). done.
  - done.
  - intros (a' & Ha & _). done.
Qed.

Lemma getitem_Ok {A} (l : list A) (i : nat) (a : A) :
  getitem l i = Ok a <-> l !! i = Some a.
Proof. unfold getitem. destruct (l !! i); split; congruence. Qed.

Lemma mapM_Ok_Forall2 {A B} (f : A -> result B) (l : list A) (out : list B) :
  mapM f l = Ok out <-> Forall2 (fun a b => f a = Ok b) l out.
Proof.
  revert out. induction l as [|a l IH]; intros out; simpl.
  - split.
    + intros [= <-]. constructor.
    + intros Hall. inversion Hall. done.
  - split.
    + intros Hm. apply bind_Ok in Hm as (b & Hb & Hm).
      apply bind_Ok in Hm as (k & Hk & [= <-]).
      constructor; [done|]. by apply IH.
    + intros Hall. inversion Hall as [|? b ? k Hb Hk]; subst.
      rewrite Hb. simpl. apply IH in Hk. rewrite Hk. done.
Qed.

Lemma mapM_Raise_elem {A B} (f : A -> result B) (l : list A) (e : exn) :
  mapM f l = Raise e -> exists a e', a ∈ l /\ f a = Raise e'.
Proof.
  induction l as [|a l IH]; simpl; [done|].
  destruct (f a) as [b|e'] eqn:Hfa; simpl.
  - destruct (mapM f l) as [k|e''] eqn:Hk; simpl; [done|].
    intros [= ->]. destruct (IH eq_refl) as (a' & e3 & Hin & Hf).
    exists a', e3. split; [by right | done].
  - intros _. exists a, e'. split; [by left | done].
Qed.

Lemma mapM_elem_Raise {A B} (f : A -> result B) (l : list A) (a : A) (e : exn) :
  a ∈ l -> f a = Raise e -> exists e', mapM f l = Raise e'.
Proof.
  intros Hin Hfa. destruct (mapM f l) as [out|e'] eqn:Hm; [|by eexists].
  apply mapM_Ok_Forall2 in Hm.
  apply list_elem_of_lookup in Hin as [i Hi].
  destruct (Forall2_lookup_l _ _ _ _ _ Hm Hi) as (b & _ & Hb). congruence.
Qed.

Lemma mapM_fmap {A B C} (g : A -> B) (f : B -> result C) (l : list A) :
  mapM f (map g l) = mapM (fun a => f (g a)) l.
Proof. induction l as [|a l IH]; simpl; [done|]. by rewrite IH. Qed.

(** ** The worker pool returns the results in the order of the units *)

Section pool.
Context {A B : Type} (func : A -> result B).

Lemma run_units_Ok (args_iter : list A) (out : list B) (order : list nat) :
  Forall2 (fun a b => func a = Ok b) args_iter out ->
  Forall (fun i => i < length args_iter)%nat order ->
  exists finished,
    run_units func args_iter order = Ok finished /\
    map fst finished = order /\
    Forall (fun ib => out !! ib.1 = Some ib.2) finished.
Proof.
  intros Hall. unfold run_units.
  induction order as [|i order IH]; intros Hlt; simpl.
  - exists []. done.
  - inversion Hlt as [|? ? Hi Hrest]; subst.
    destruct (IH Hrest) as (finished & Hrun & Hfst & Hout).
    destruct (lookup_lt_is_Some_2 args_iter i Hi) as [a Ha].
    destruct (Forall2_lookup_l _ _ _ _ _ Hall Ha) as (b & Hb & Hfa).
    exists ((i, b) :: finished).
    rewrite (proj2 (getitem_Ok _ _ _) Ha). simpl. rewrite Hfa. simpl.
    rewrite Hrun. simpl. split; [done|]. split; [by rewrite Hfst|].
    constructor; done.
Qed.

Lemma result_of_unit_Ok (finished : list (nat * B)) (out : list B) (i : nat) (b : B) :
  Forall (fun ib => out !! ib.1 = Some ib.2) finished ->
  i ∈ map fst finished ->
  out !! i = Some b ->
  result_of_unit finished i = Ok b.
Proof.
  intros Hout Hin Hb. unfold result_of_unit.
  destruct (list_find (fun ib => ib.1 = i) finished) as [[j [i' b']]|] eqn:Hfind.
  - apply list_find_Some in Hfind as (Hj & Hi' & _). simpl in Hi'. subst i'.
    rewrite Forall_lookup in Hout. specialize (Hout _ _ Hj). simpl in Hout.
    congruence.
  - apply list_find_None in Hfind.
    apply list_elem_of_fmap in Hin as ([i' b'] & -> & Hin).
    rewrite Forall_forall in Hfind. by specialize (Hfind _ Hin).
Qed.

Lemma multiprocess_Ok (args_iter : list A) (njobs : nat) (completion : list nat)
    (out : list B) :
  completion ≡ₚ seq 0 (length args_iter) ->
  mapM func args_iter = Ok out ->
  multiprocess func args_iter njobs completion = Ok out.
Proof.
  intros Hperm Hseq. apply mapM_Ok_Forall2 in Hseq.
  unfold multiprocess.
  set (order := if decide (njobs <= 1)%nat then _ else _).
  assert (Horder : order ≡ₚ seq 0 (length args_iter)).
  { unfold order. by destruct (decide _). }
  assert (Hlt : Forall (fun i => i < length args_iter)%nat order).
  { apply Forall_forall. intros i Hi. rewrite Horder in Hi.
    apply elem_of_seq in Hi. lia. }
  destruct (run_units_Ok args_iter out order Hseq Hlt) as (finished & -> & Hfst & Hout).
  simpl. apply mapM_Ok_Forall2.
  apply Forall2_same_length_lookup_2.
  - rewrite length_seq. by eapply Forall2_length.
  - intros i j b Hj Hb. apply lookup_seq in Hj as [-> Hi]. simpl.
    apply (result_of_unit_Ok finished out); [done| |done].
    rewrite Hfst, Horder. apply elem_of_seq. lia.
Qed.

Lemma multiprocess_Raise (args_iter : list A) (njobs : nat) (completion : list nat)
    (e : exn) :
  completion ≡ₚ seq 0 (length args_iter) ->
  mapM func args_iter = Raise e ->
  exists e', multiprocess func args_iter njobs completion = Raise e'.
Proof.
  intros Hperm Hseq.
  apply mapM_Raise_elem in Hseq as (a & e1 & Hin & Hfa).
  apply list_elem_of_lookup in Hin as [i Hi].
  unfold multiprocess.
  set (order := if decide (njobs <= 1)%nat then _ else _).
  assert (Horder : order ≡ₚ seq 0 (length args_iter)).
  { unfold order. by destruct (decide _). }
  assert (Hin : i ∈ order).
  { rewrite Horder. apply elem_of_seq. apply lookup_lt_Some in Hi. lia. }
  destruct (mapM_elem_Raise
              (fun i => a ← getitem args_iter i; b ← func a; Ok (i, b))
              order i e1 Hin) as [e' He'].
  { unfold getitem. rewrite Hi. simpl. by rewrite Hfa. }
  exists e'. unfold run_units. by rewrite He'.
Qed.

Lemma multiprocess_sequential (args_iter : list A) (njobs : nat)
    (completion : list nat) (out : list B) :
  completion ≡ₚ seq 0 (length args_iter) ->
  multiprocess func args_iter njobs completion = Ok out <->
  mapM func args_iter = Ok out.
Proof.
  intros Hperm. split; [|by apply multiprocess_Ok].
  intros Hpar. destruct (mapM func args_iter) as [out'|e] eqn:Hseq.
  - rewrite (multiprocess_Ok _ njobs completion out' Hperm Hseq) in Hpar. done.
  - destruct (multiprocess_Raise _ njobs completion e Hperm Hseq) as [e' He'].
    congruence.
Qed.
End pool.

(** ** batch_call *)

Section batch.
Context {Seg Debl Extra : Type} {nd_shape : NdShape Debl}.
Implicit Types (self : Deblender.t Seg Debl Extra) (blend_batch : BlendBatch.t).

Lemma batch_call_Ok self blend_batch njobs completion db :
  completion ≡ₚ seq 0 (BlendBatch.batch_size blend_batch) ->
  Deblender.batch_call self blend_batch njobs completion = Ok db <->
  exists output first,
    Deblender.sequential_output self blend_batch = Ok output /\
    output !! 0%nat = Some first /\
    Deblender.reconcile self blend_batch output first = Ok db.
Proof.
  intros Hperm. unfold Deblender.batch_call, Deblender.sequential_output.
  set (args_iter := map _ _).
  assert (Hlen : length args_iter = BlendBatch.batch_size blend_batch).
  { unfold args_iter. by rewrite length_map, length_seq. }
  rewrite <- Hlen in Hperm.
  assert (Hpool : forall output,
    multiprocess (fun a => Deblender.deblend self a.1 a.2) args_iter njobs completion
      = Ok output <->
    mapM (fun ii => Deblender.deblend self ii blend_batch)
      (seq 0 (BlendBatch.batch_size blend_batch)) = Ok output).
  { intros output. rewrite (multiprocess_sequential _ args_iter njobs completion _ Hperm).
    unfold args_iter. by rewrite mapM_fmap. }
  split.
  - intros Hdb. apply bind_Ok in Hdb as (output & Hout & Hdb).
    apply bind_Ok in Hdb as (first & Hfirst & Hrec).
    exists output, first. split; [by apply Hpool|].
    split; [by apply getitem_Ok|done].
  - intros (output & first & Hout & Hfirst & Hrec).
    apply bind_Ok. exists output. split; [by apply Hpool|].
    apply bind_Ok. exists first. split; [by apply getitem_Ok|done].
Qed.

Lemma sequential_output_lookup self blend_batch output :
  Deblender.sequential_output self blend_batch = Ok output ->
  length output = BlendBatch.batch_size blend_batch /\
  forall ii, (ii < BlendBatch.batch_size blend_batch)%nat ->
    exists ex, Deblender.deblend self ii blend_batch = Ok ex /\ output !! ii = Some ex.
Proof.
  unfold Deblender.sequential_output. intros Hout.
  apply mapM_Ok_Forall2 in Hout.
  pose proof (Forall2_length _ _ _ Hout) as Hlen. rewrite length_seq in Hlen.
  split; [done|]. intros ii Hii.
  assert (Hseq : seq 0 (BlendBatch.batch_size blend_batch) !! ii = Some ii).
  { by apply lookup_seq. }
  destruct (Forall2_lookup_l _ _ _ _ _ Hout Hseq) as (ex & Hex & Hd).
  exists ex. done.
Qed.

Lemma reconcile_Ok self blend_batch output first nb :
  Deblender.read_n_bands (Deblender.stack DeblendExample.deblended_images output first)
    = Ok nb ->
  Deblender.reconcile self blend_batch output first =
  Ok (DeblendBatch.mk
        (BlendBatch.batch_size blend_batch)
        (Deblender.max_n_sources self)
        (map DeblendExample.catalog output)
        nb
        (BlendBatch.image_size blend_batch)
        (Deblender.stack DeblendExample.segmentation output first)
        (Deblender.stack DeblendExample.deblended_images output first)
        (Deblender.stack DeblendExample.extra_data output first)).
Proof. intros Hnb. unfold Deblender.reconcile. rewrite Hnb. done. Qed.

Lemma reconcile_fields self blend_batch output first db :
  Deblender.reconcile self blend_batch output first = Ok db ->
  DeblendBatch.catalog_list db = map DeblendExample.catalog output /\
  DeblendBatch.segmentation db = Deblender.stack DeblendExample.segmentation output first /\
  DeblendBatch.deblended_images db
    = Deblender.stack DeblendExample.deblended_images output first /\
  DeblendBatch.extra_data db = Deblender.stack DeblendExample.extra_data output first.
Proof.
  unfold Deblender.reconcile. intros Hrec.
  apply bind_Ok in Hrec as (nb & _ & [= <-]). done.
Qed.

Lemma stack_None {F} (field : DeblendExample.t Seg Debl Extra -> option F) output first :
  Deblender.stack field output first = None <-> field first = None.
Proof. unfold Deblender.stack. destruct (field first); split; congruence. Qed.

Lemma stack_Some {F} (field : DeblendExample.t Seg Debl Extra -> option F) output first :
  is_Some (field first) -> Deblender.stack field output first = Some (map field output).
Proof. unfold Deblender.stack. intros [f ->]. done. Qed.

(** C4. [batch_call] returns the catalogs in the order of the examples:
    whenever it returns a batch, entry [ii] of [catalog_list] is the catalog
    that [deblend] returns for example [ii]; it returns a batch whenever every
    [deblend] returns and the shape of the stacked array unpacks; and for any
    [njobs] and any completion order of the workers it returns the batch of
    the sequential run with [njobs = 1]. *)
Theorem batch_call_preserves_order self blend_batch njobs completion :
  completion ≡ₚ seq 0 (BlendBatch.batch_size blend_batch) ->
  (forall db,
     Deblender.batch_call self blend_batch njobs completion = Ok db <->
     Deblender.batch_call self blend_batch 1
       (seq 0 (BlendBatch.batch_size blend_batch)) = Ok db) /\
  (forall db,
     Deblender.batch_call self blend_batch njobs completion = Ok db ->
     length (DeblendBatch.catalog_list db) = BlendBatch.batch_size blend_batch /\
     forall ii, (ii < BlendBatch.batch_size blend_batch)%nat ->
       exists ex,
         Deblender.deblend self ii blend_batch = Ok ex /\
         DeblendBatch.catalog_list db !! ii = Some (DeblendExample.catalog ex)) /\
  (forall output first nb,
     Deblender.sequential_output self blend_batch = Ok output ->
     output !! 0%nat = Some first ->
     Deblender.read_n_bands
       (Deblender.stack DeblendExample.deblended_images output first) = Ok nb ->
     exists db,
       Deblender.batch_call self blend_batch njobs completion = Ok db /\
       DeblendBatch.catalog_list db = map DeblendExample.catalog output).
Proof.
  intros Hperm. split; [|split].
  - intros db. rewrite (batch_call_Ok _ _ njobs completion db Hperm).
    by rewrite (batch_call_Ok _ _ 1%nat _ db).
  - intros db Hdb. apply (batch_call_Ok _ _ _ _ _ Hperm) in Hdb
      as (output & first & Hout & _ & Hrec).
    apply reconcile_fields in Hrec as (-> & _).
    apply sequential_output_lookup in Hout as [Hlen Hout].
    split; [by rewrite length_map|].
    intros ii Hii. destruct (Hout ii Hii) as (ex & Hex & Hlook).
    exists ex. split; [done|]. by rewrite list_lookup_fmap, Hlook.
  - intros output first nb Hout Hfirst Hnb.
    eexists. split.
    + apply (batch_call_Ok _ _ _ _ _ Hperm). exists output, first.
      split; [done|]. split; [done|]. by apply reconcile_Ok.
    + done.
Qed.

(** C5. [batch_call] decides the presence of the optional fields from the
    first per-example result alone: when every [deblend] returns and the
    shape of the stacked array unpacks, it returns a batch in which each of
    segmentation, deblended images and extra data is [None] exactly when that
    field of example 0 is [None], and is otherwise the list of that field of
    every example, whatever the other examples hold. *)
Theorem batch_call_presence_from_first self blend_batch njobs completion output first nb :
  completion ≡ₚ seq 0 (BlendBatch.batch_size blend_batch) ->
  Deblender.sequential_output self blend_batch = Ok output ->
  output !! 0%nat = Some first ->
  Deblender.read_n_bands
    (Deblender.stack DeblendExample.deblended_images output first) = Ok nb ->
  Deblender.deblend self 0 blend_batch = Ok first /\
  exists db,
    Deblender.batch_call self blend_batch njobs completion = Ok db /\
    (DeblendBatch.segmentation db = None <-> DeblendExample.segmentation first = None) /\
    (is_Some (DeblendExample.segmentation first) ->
     DeblendBatch.segmentation db = Some (map DeblendExample.segmentation output)) /\
    (DeblendBatch.deblended_images db = None <->
     DeblendExample.deblended_images first = None) /\
    (is_Some (DeblendExample.deblended_images first) ->
     DeblendBatch.deblended_images db
       = Some (map DeblendExample.deblended_images output)) /\
    (DeblendBatch.extra_data db = None <-> DeblendExample.extra_data first = None) /\
    (is_Some (DeblendExample.extra_data first) ->
     DeblendBatch.extra_data db = Some (map DeblendExample.extra_data output)).
Proof.
  intros Hperm Hout Hfirst Hnb. split.
  - apply sequential_output_lookup in Hout as [Hlen Hout].
    assert (Hpos : (0 < BlendBatch.batch_size blend_batch)%nat).
    { rewrite <- Hlen. by eapply lookup_lt_Some. }
    destruct (Hout 0%nat Hpos) as (ex & Hex & Hlook). congruence.
  - eexists. split.
    + apply (batch_call_Ok _ _ _ _ _ Hperm). exists output, first.
      split; [done|]. split; [done|]. by apply reconcile_Ok.
    + simpl. repeat split; try (apply stack_None; done); try apply stack_Some.
      all: apply stack_None.
Qed.
End batch.

(** ** SepMultiBand *)

Lemma Qgtb_lt (x y : Q) : Qgtb x y = true <-> (y < x)%Q.
Proof.
  unfold Qgtb. rewrite negb_true_iff. split.
  - intros Hle. apply Qnot_le_lt. intros Hxy.
    apply Qle_bool_iff in Hxy. congruence.
  - intros Hlt. destruct (Qle_bool x y) eqn:Hle; [|done].
    apply Qle_bool_iff in Hle. by apply Qlt_not_le in Hlt.
Qed.

Lemma mask_select_fmap {A B} (f : A -> B) (p : A -> bool) (l : list A) :
  mask_select (map f l) (map p l) = map f (filter (fun a => p a = true) l).
Proof.
  induction l as [|a l IH]; simpl; [done|].
  rewrite filter_cons. destruct (decide (p a = true)) as [Hp|Hp].
  - rewrite Hp. simpl. by rewrite IH.
  - apply not_true_is_false in Hp. rewrite Hp. done.
Qed.

Section sep_multi_band.
Context {astropy : Astropy}.
Implicit Types (self : SepMultiBand.t).

Lemma merge_detections_far self ra_coordinates dec_coordinates ra_detections dec_detections :
  length ra_detections = length dec_detections ->
  ra_detections <> [] ->
  SkyCoord ra_coordinates dec_coordinates <> [] ->
  let c1 := SkyCoord ra_detections dec_detections in
  let c2 := SkyCoord ra_coordinates dec_coordinates in
  let kept :=
    filter (fun p =>
      (SepMultiBand.matching_threshold self < SepMultiBand.nearest_separation p c2)%Q) c1 in
  SepMultiBand.merge_detections self ra_coordinates dec_coordinates
    ra_detections dec_detections
  = (ra_coordinates ++ map fst kept, dec_coordinates ++ map snd kept).
Proof.
  intros Hlen Hdet Hrun c1 c2 kept. unfold SepMultiBand.merge_detections.
  fold c1 c2. rewrite decide_True.
  2:{ split.
      - unfold c1, SkyCoord. rewrite length_zip, <- Hlen.
        destruct ra_detections; [done | simpl; lia].
      - fold c2 in Hrun. destruct c2; [done | simpl; lia]. }
  unfold SepMultiBand.match_to_catalog_sky. rewrite map_map.
  assert (Hra : ra_detections = map fst c1).
  { unfold c1, SkyCoord. symmetry. apply fst_zip. lia. }
  assert (Hdec : dec_detections = map snd c1).
  { unfold c1, SkyCoord. symmetry. apply snd_zip. lia. }
  assert (Hkept : kept = filter (fun p =>
    Qgtb (SepMultiBand.nearest_separation p c2) (SepMultiBand.matching_threshold self)
      = true) c1).
  { unfold kept. apply list_filter_iff. intros p. by rewrite Qgtb_lt. }
  rewrite Hkept.
  rewrite Hra at 1. rewrite Hdec at 1.
  by rewrite !mask_select_fmap.
Qed.

(** C2. When the running coordinates and the detections of the new band are
    both non-empty, the merge appends to the running coordinates exactly the
    detections whose separation to the nearest running coordinate is strictly
    greater than [matching_threshold]; a detection whose nearest separation
    equals the threshold is not appended. *)
Theorem merge_keeps_strictly_farther self
    ra_coordinates dec_coordinates ra_detections dec_detections :
  length ra_detections = length dec_detections ->
  length ra_coordinates = length dec_coordinates ->
  ra_detections <> [] ->
  ra_coordinates <> [] ->
  let c1 := SkyCoord ra_detections dec_detections in
  let c2 := SkyCoord ra_coordinates dec_coordinates in
  let kept :=
    filter (fun p =>
      (SepMultiBand.matching_threshold self < SepMultiBand.nearest_separation p c2)%Q) c1 in
  let merged :=
    SepMultiBand.merge_detections self ra_coordinates dec_coordinates
      ra_detections dec_detections in
  merged = (ra_coordinates ++ map fst kept, dec_coordinates ++ map snd kept) /\
  SkyCoord merged.1 merged.2 = c2 ++ kept /\
  (forall p, p ∈ kept <->
     p ∈ c1 /\
     (SepMultiBand.matching_threshold self < SepMultiBand.nearest_separation p c2)%Q) /\
  (forall p, p ∈ c1 ->
     (SepMultiBand.nearest_separation p c2 == SepMultiBand.matching_threshold self)%Q ->
     p ∉ kept).
Proof.
  intros Hdet Hrun Hd Hr c1 c2 kept merged.
  assert (Hmerged : merged =
    (ra_coordinates ++ map fst kept, dec_coordinates ++ map snd kept)).
  { apply merge_detections_far; [done|done|].
    unfold SkyCoord. destruct ra_coordinates, dec_coordinates; done. }
  split; [done|]. split; [|split].
  - rewrite Hmerged. simpl. unfold SkyCoord.
    rewrite zip_with_app by done. f_equal.
    rewrite zip_fst_snd. done.
  - intros p. unfold kept. rewrite list_elem_of_filter. tauto.
  - intros p _ Heq Hin. unfold kept in Hin.
    apply list_elem_of_filter in Hin as [Hlt _].
    rewrite Heq in Hlt. by apply Qlt_irrefl in Hlt.
Qed.
End sep_multi_band.

(** C3. When the running coordinates or the detections of the new band are
    empty, the merge appends every detection of the band to the running
    coordinates, and the separations play no part: the result is the same
    under any two separation functions. *)
Theorem merge_appends_all_when_empty (sep1 sep2 : Astropy) (self : SepMultiBand.t)
    (ra_coordinates dec_coordinates ra_detections dec_detections : list Q) :
  length (SkyCoord ra_detections dec_detections) = 0%nat \/
  length (SkyCoord ra_coordinates dec_coordinates) = 0%nat ->
  SepMultiBand.merge_detections (astropy := sep1) self ra_coordinates dec_coordinates
    ra_detections dec_detections
  = (ra_coordinates ++ ra_detections, dec_coordinates ++ dec_detections) /\
  SepMultiBand.merge_detections (astropy := sep2) self ra_coordinates dec_coordinates
    ra_detections dec_detections
  = SepMultiBand.merge_detections (astropy := sep1) self ra_coordinates dec_coordinates
      ra_detections dec_detections.
Proof.
  intros Hempty.
  assert (Hall : forall sep : Astropy,
    SepMultiBand.merge_detections (astropy := sep) self ra_coordinates dec_coordinates
      ra_detections dec_detections
    = (ra_coordinates ++ ra_detections, dec_coordinates ++ dec_detections)).
  { intros sep. unfold SepMultiBand.merge_detections.
    rewrite decide_False; [done|]. intros [H1 H2]. lia. }
  by rewrite !Hall.
Qed.

(** [SepMultiBand.deblend] itself checks the detections of each band against
    [max_n_sources] but not the merged catalog: on two bands with one
    detection each, 5 arcseconds apart, and [max_n_sources = 1], it calls the
    constructor of [DeblendExample] with a catalog of two rows. *)
Lemma SepMultiBand_merged_catalog_exceeds_max :
  exists ex : DeblendExample.t unit unit unit,
    SepMultiBand.deblend (sep_lib := sample_sep) (astropy := meridian_separation)
      (SepMultiBand.mk 1 1 (3 # 2)) 0 two_band_batch = Ok ex /\
    DeblendExample.max_n_sources ex = 1%nat /\
    Table_len (DeblendExample.catalog ex) = 2%nat.
Proof. eexists. split; [vm_compute; reflexivity|]. split; reflexivity. Qed.

(** ** PeakLocalMax *)

Lemma Table_len_four_columns (ra dec x y : list Q) :
  Table_len
    (Table_set (Table_set (Table_set (Table_set Table_new "ra" ra) "dec" dec) "x_peak" x)
       "y_peak" y) = length ra.
Proof. reflexivity. Qed.

Lemma pixel_to_world_values_length (wcs : WCS) (x y : list Q) :
  length x = length y ->
  length (pixel_to_world_values wcs x y).1 = length x /\
  length (pixel_to_world_values wcs x y).2 = length x.
Proof.
  intros Hlen. unfold pixel_to_world_values. simpl.
  rewrite !length_map, length_zip_with. lia.
Qed.

Section peak_local_max.
Context {skimage : Skimage} {numpy : NumpyFloat} {Seg Debl Extra : Type}.
Implicit Types (self : PeakLocalMax.t).

(** The call of the peak finder in [deblend]. *)
Let peaks self (image : Image) : list (Z * Z) :=
  peak_local_max image (PeakLocalMax.min_distance self)
    (PeakLocalMax.threshold_scale self * np_sqrt (PeakLocalMax.sky_level self))%Q
    (PeakLocalMax.max_n_sources self).

(** C9. As the peak finder returns at most [num_peaks] peaks and is called
    with [num_peaks = max_n_sources], [PeakLocalMax.deblend] never raises a
    [ValueError]: the guard on the length of the catalog never fires. On an
    example and a band that exist it returns a catalog with one row per peak
    that the finder returned, which is at most [max_n_sources] rows. *)
Theorem PeakLocalMax_guard_unreachable self (ii : nat) (blend_batch : BlendBatch.t) :
  (forall image min_distance threshold_abs num_peaks,
     (length (peak_local_max image min_distance threshold_abs num_peaks) <= num_peaks)%nat) ->
  (forall msg,
     PeakLocalMax.deblend (Seg := Seg) (Debl := Debl) (Extra := Extra) self ii blend_batch
       <> Raise (ValueError msg)) /\
  (forall blend_image image,
     BlendBatch.blend_images blend_batch !! ii = Some blend_image ->
     select_image (PeakLocalMax.band self) blend_image = Ok image ->
     exists ex : DeblendExample.t Seg Debl Extra,
       PeakLocalMax.deblend self ii blend_batch = Ok ex /\
       Table_len (DeblendExample.catalog ex) = length (peaks self image) /\
       (Table_len (DeblendExample.catalog ex) <= PeakLocalMax.max_n_sources self)%nat).
Proof.
  intros Hcap.
  assert (Hdeblend : forall blend_image image,
    BlendBatch.blend_images blend_batch !! ii = Some blend_image ->
    select_image (PeakLocalMax.band self) blend_image = Ok image ->
    exists ex : DeblendExample.t Seg Debl Extra,
      PeakLocalMax.deblend self ii blend_batch = Ok ex /\
      Table_len (DeblendExample.catalog ex) = length (peaks self image) /\
      (Table_len (DeblendExample.catalog ex) <= PeakLocalMax.max_n_sources self)%nat).
  { intros blend_image image Hii Himage.
    set (coordinates := peaks self image).
    assert (Hrows :
      length (times3600
                (map fst
                   (zip_with (BlendBatch.wcs blend_batch)
                      (map (fun c : Z * Z => inject_Z c.2) coordinates)
                      (map (fun c : Z * Z => inject_Z c.1) coordinates))))
      = length coordinates).
    { unfold times3600.
      rewrite !length_map, length_zip_with, !length_map. lia. }
    assert (Hle : (length coordinates <= PeakLocalMax.max_n_sources self)%nat).
    { unfold coordinates, peaks. apply Hcap. }
    eexists. split; [|split].
    - unfold PeakLocalMax.deblend.
      rewrite (proj2 (getitem_Ok _ _ _) Hii). simpl. rewrite Himage. simpl.
      fold (peaks self image). fold coordinates.
      rewrite Hrows. rewrite decide_False by lia. reflexivity.
    - simpl. by rewrite Hrows.
    - simpl. by rewrite Hrows. }
  split; [|done].
  intros msg Hraise.
  destruct (BlendBatch.blend_images blend_batch !! ii) as [blend_image|] eqn:Hii.
  - destruct (select_image (PeakLocalMax.band self) blend_image)
      as [image|e] eqn:Himage.
    + destruct (Hdeblend blend_image image eq_refl Himage) as (ex & Hex & _).
      congruence.
    + unfold PeakLocalMax.deblend in Hraise.
      rewrite (proj2 (getitem_Ok _ _ _) Hii) in Hraise. simpl in Hraise.
      rewrite Himage in Hraise. simpl in Hraise.
      unfold select_image in Himage.
      destruct (PeakLocalMax.band self); [done|].
      unfold py_index, getitem in Himage.
      repeat case_match; congruence.
  - unfold PeakLocalMax.deblend, getitem in Hraise. rewrite Hii in Hraise. done.
Qed.
End peak_local_max.

(** ** The deblenders that check the catalog they return *)



(** ** DeepDisc *)

Lemma py_slice_from_negative {A} (l : list A) (k : nat) :
  (k < length l)%nat ->
  py_slice_from l (Z.of_nat k - Z.of_nat (length l)) = drop k l.
Proof.
  intros Hk. unfold py_slice_from.
  destruct (0 <=? Z.of_nat k - Z.of_nat (length l))%Z eqn:Hsign; [lia|].
  f_equal. lia.
Qed.

Lemma setslice_to_exact {A} (dst src : list A) (stop : nat) :
  length src = (stop `min` length dst)%nat ->
  setslice_to dst stop src = Ok (src ++ drop (length src) dst).
Proof. intros Hlen. unfold setslice_to. rewrite decide_True by done. by rewrite Hlen. Qed.

Lemma cut_out_sources_prefix (rimg : Cube) (segmentation : list Mask)
    (deblended_images : list Cube) (k : nat) :
  (k <= length segmentation)%nat ->
  (length segmentation <= length deblended_images)%nat ->
  foldl
    (fun deblended_images i =>
       match segmentation !! i with
       | Some seg => <[i := mul_broadcast rimg (astype seg)]> deblended_images
       | None => deblended_images
       end)
    deblended_images (seq 0 k)
  = map (fun seg => mul_broadcast rimg (astype seg)) (take k segmentation)
    ++ drop k deblended_images.
Proof.
  intros Hk Hlen. induction k as [|k IH].
  - done.
  - rewrite seq_S, foldl_app. simpl. rewrite IH by lia.
    destruct (lookup_lt_is_Some_2 segmentation k ltac:(lia)) as [seg Hseg].
    rewrite Hseg. rewrite (take_S_r _ _ _ Hseg), map_app. simpl.
    destruct (lookup_lt_is_Some_2 deblended_images k ltac:(lia)) as [d Hd].
    rewrite (drop_S _ _ _ Hd).
    rewrite insert_app_r_alt; rewrite length_map, length_take; [|lia].
    replace (k - k `min` length segmentation)%nat with 0%nat by lia.
    simpl. by rewrite <- app_assoc.
Qed.

Lemma cut_out_sources_spec (rimg : Cube) (segmentation : list Mask)
    (deblended_images : list Cube) :
  (length segmentation <= length deblended_images)%nat ->
  DeepDisc.cut_out_sources rimg segmentation deblended_images
  = map (fun seg => mul_broadcast rimg (astype seg)) segmentation
    ++ drop (length segmentation) deblended_images.
Proof.
  intros Hlen. unfold DeepDisc.cut_out_sources.
  rewrite cut_out_sources_prefix by lia. by rewrite take_ge by lia.
Qed.

#[local] Arguments DeepDisc.cut_out_sources : simpl never.
#[local] Arguments np_zeros4 : simpl never.
#[local] Arguments np_zeros_masks : simpl never.
#[local] Arguments py_slice_from : simpl never.
#[local] Arguments py_slice_to : simpl never.
#[local] Arguments setslice_to : simpl never.
#[local] Arguments transpose_201 : simpl never.
#[local] Arguments Table_set : simpl never.

Section deep_disc.
Context {model : DeepDiscModel}.
Implicit Types (self : DeepDisc.t).

(** C7. With [allow_over_n_sources = True] and more predicted detections
    than [max_n_sources], [DeepDisc.deblend] returns the masks and the cut-out
    images of the first [max_n_sources] detections in the fixed arrays and
    those of the remaining detections under the keys [segs] and
    [deblended_images] of the extra data; the two parts together are the
    detections of the model, in its order. *)
Theorem DeepDisc_overflow_goes_to_extra self (ii : nat) (blend_batch : BlendBatch.t)
    (bb : Cube) :
  DeepDisc.allow_over_n_sources self = true ->
  BlendBatch.blend_images blend_batch !! ii = Some bb ->
  let img := reader bb in
  let masks := pred_masks (predictor img) in
  let cutouts := map (fun seg => mul_broadcast (transpose_201 img) (astype seg)) masks in
  let max := DeepDisc.max_n_sources self in
  (max < length masks)%nat ->
  exists ex,
    DeepDisc.deblend self ii blend_batch = Ok ex /\
    DeblendExample.segmentation ex = Some (take max masks) /\
    DeblendExample.deblended_images ex = Some (take max cutouts) /\
    DeblendExample.extra_data ex =
      Some (<["deblended_images" := ExtraDeblended (drop max cutouts)]>
              {["segs" := ExtraSegs (drop max masks)]}) /\
    length (take max masks) = max /\
    length (take max cutouts) = max /\
    (length (take max masks) + length (drop max masks) = length masks)%nat /\
    (length (take max cutouts) + length (drop max cutouts) = length masks)%nat /\
    take max masks ++ drop max masks = masks /\
    take max cutouts ++ drop max cutouts = cutouts.
Proof.
  intros Hallow Hbb img masks cutouts max Hover.
  assert (Hcut : length cutouts = length masks) by (unfold cutouts; by rewrite length_map).
  eexists. split; [|repeat split].
  - unfold DeepDisc.deblend.
    rewrite (proj2 (getitem_Ok _ _ _) Hbb). simpl.
    fold img. fold masks. fold max.
    rewrite decide_True by done. rewrite Hallow.
    rewrite setslice_to_exact.
    2:{ unfold py_slice_to, np_zeros_masks.
        rewrite length_take, length_replicate. lia. }
    simpl.
    assert (Hfill :
      DeepDisc.cut_out_sources (transpose_201 img) masks
        (np_zeros4 (length masks) (shape2 img) (shape0 img) (shape1 img)) = cutouts).
    { rewrite cut_out_sources_spec by (unfold np_zeros4; rewrite length_replicate; lia).
      unfold np_zeros4. rewrite drop_replicate.
      replace (length masks - length masks)%nat with 0%nat by lia.
      simpl. by rewrite app_nil_r. }
    rewrite Hfill. unfold py_slice_to.
    rewrite (py_slice_from_negative masks max Hover).
    rewrite <- Hcut. rewrite (py_slice_from_negative cutouts max) by lia.
    unfold np_zeros_masks. rewrite drop_replicate, length_take.
    replace (max - max `min` length masks)%nat with 0%nat by lia. simpl.
    rewrite app_nil_r. reflexivity.
  - done.
  - done.
  - done.
  - rewrite length_take. lia.
  - rewrite length_take. lia.
  - rewrite length_take, length_drop. lia.
  - rewrite length_take, length_drop. lia.
  - apply take_drop.
  - apply take_drop.
Qed.

(** C10. Whenever [DeepDisc.deblend] returns, the extra data of the example
    is a dict, never [None]: the empty dict when the detections fit in
    [max_n_sources]. It returns on every example of the batch unless the
    detections overflow and [allow_over_n_sources] is off, and any batch that
    [batch_call] returns for a DeepDisc deblender has its list of extra
    data. *)
Theorem DeepDisc_extra_data_is_a_dict self (ii : nat) (blend_batch : BlendBatch.t)
    (bb : Cube) :
  BlendBatch.blend_images blend_batch !! ii = Some bb ->
  let masks := pred_masks (predictor (reader bb)) in
  let max := DeepDisc.max_n_sources self in
  ((length masks <= max)%nat \/ DeepDisc.allow_over_n_sources self = true ->
   exists ex, DeepDisc.deblend self ii blend_batch = Ok ex) /\
  (forall ex,
     DeepDisc.deblend self ii blend_batch = Ok ex ->
     is_Some (DeblendExample.extra_data ex) /\
     ((length masks <= max)%nat -> DeblendExample.extra_data ex = Some ∅)) /\
  (forall (nd_shape : NdShape (list Cube)) njobs completion db,
     completion ≡ₚ seq 0 (BlendBatch.batch_size blend_batch) ->
     Deblender.batch_call (DeepDisc.as_deblender self) blend_batch njobs completion = Ok db ->
     is_Some (DeblendBatch.extra_data db)).
Proof.
  intros Hbb masks max.
  assert (Hsome : forall jj ex,
    DeepDisc.deblend self jj blend_batch = Ok ex ->
    is_Some (DeblendExample.extra_data ex)).
  { intros jj ex. unfold DeepDisc.deblend. intros Hex.
    apply bind_Ok in Hex as (bb' & _ & Hex). simpl in Hex.
    destruct (decide _) in Hex.
    - destruct (DeepDisc.allow_over_n_sources self); [|done].
      apply bind_Ok in Hex as (segs & _ & [= <-]). by eexists.
    - apply bind_Ok in Hex as (segs & _ & [= <-]). by eexists. }
  split; [|split].
  - intros Hfit. unfold DeepDisc.deblend.
    rewrite (proj2 (getitem_Ok _ _ _) Hbb). simpl. fold masks. fold max.
    destruct (decide (max < length masks)%nat) as [Hover|Hunder].
    + destruct Hfit as [Hfit|Hallow]; [lia|]. rewrite Hallow.
      rewrite setslice_to_exact.
      2:{ unfold py_slice_to, np_zeros_masks.
          rewrite length_take, length_replicate. lia. }
      by eexists.
    + rewrite setslice_to_exact.
      2:{ unfold np_zeros_masks. rewrite length_replicate. lia. }
      by eexists.
  - intros ex Hex. split; [by eapply Hsome|].
    intros Hfit. revert Hex. unfold DeepDisc.deblend.
    rewrite (proj2 (getitem_Ok _ _ _) Hbb). simpl. fold masks. fold max.
    rewrite decide_False by lia. intros Hex.
    apply bind_Ok in Hex as (segs & _ & [= <-]). done.
  - intros nd_shape njobs completion db Hperm Hdb.
    apply (batch_call_Ok _ _ _ _ _ Hperm) in Hdb as (output & first & Hout & Hfirst & Hrec).
    apply reconcile_fields in Hrec as (_ & _ & _ & ->).
    apply sequential_output_lookup in Hout as [Hlen Hout].
    assert (Hpos : (0 < BlendBatch.batch_size blend_batch)%nat).
    { rewrite <- Hlen. by eapply lookup_lt_Some. }
    destruct (Hout 0%nat Hpos) as (ex & Hex & Hlook).
    simpl in Hex. apply Hsome in Hex.
    assert (first = ex) as -> by congruence.
    rewrite stack_Some by done. by eexists.
Qed.
End deep_disc.

(** ** Scarlet *)

Section scarlet.
Context {scarlet : ScarletLib} {Seg : Type}.
Implicit Types (self : Scarlet.t).

Lemma fit_and_render_init_Raise self blend_batch image catalog n_bands img_size e :
  init_and_fit self blend_batch image
    (zip (map (fun a => a / 3600)%Q (Table_get catalog "ra"))
         (map (fun d => d / 3600)%Q (Table_get catalog "dec"))) = Raise e ->
  ScarletDeblend.fit_and_render (Seg := Seg) self blend_batch image catalog n_bands img_size
    = Raise e.
Proof. intros Hinit. unfold ScarletDeblend.fit_and_render. by rewrite Hinit. Qed.

Lemma np_zeros4_all_zero (n c h w : nat) :
  length (np_zeros4 n c h w) = n /\
  forall cube band row v,
    cube ∈ np_zeros4 n c h w -> band ∈ cube -> row ∈ band -> v ∈ row ->
    length cube = c /\ length band = h /\ length row = w /\ v = 0%Q.
Proof.
  unfold np_zeros4, np_zeros3, np_zeros2. split; [by rewrite length_replicate|].
  intros cube band row v Hcube Hband Hrow Hv.
  apply elem_of_replicate in Hcube as [-> _].
  apply elem_of_replicate in Hband as [-> _].
  apply elem_of_replicate in Hrow as [-> _].
  apply elem_of_replicate in Hv as [-> _].
  by rewrite !length_replicate.
Qed.

(** C6. When the fit of an example raises [LinAlgError], [Scarlet.deblend]
    returns an example instead of raising: its catalog has the columns [ra]
    and [dec] and no row, it has no segmentation and no extra data, and its
    deblended images are the array of zeros of shape
    (max_n_sources, n_bands, image_size, image_size). *)
Theorem Scarlet_recovers_from_LinAlgError self (ii : nat) (blend_batch : BlendBatch.t)
    (reference_catalogs : option (list Table)) (catalog : Table) (image : Cube) :
  default (BlendBatch.catalog_list blend_batch) reference_catalogs !! ii = Some catalog ->
  "ra" ∈ colnames catalog ->
  "dec" ∈ colnames catalog ->
  BlendBatch.blend_images blend_batch !! ii = Some image ->
  Table_len catalog <> 0%nat ->
  let n_bands := length image in
  let img_size := BlendBatch.image_size blend_batch in
  ScarletDeblend.fit_and_render (Seg := Seg) self blend_batch image catalog n_bands img_size
    = Raise LinAlgError ->
  exists ex,
    ScarletDeblend.deblend (Seg := Seg) self ii blend_batch reference_catalogs = Ok ex /\
    DeblendExample.catalog ex = [("ra", []); ("dec", [])] /\
    Table_len (DeblendExample.catalog ex) = 0%nat /\
    DeblendExample.segmentation ex = None /\
    DeblendExample.extra_data ex = None /\
    DeblendExample.deblended_images ex
      = Some (np_zeros4 (Scarlet.max_n_sources self) n_bands img_size img_size) /\
    length (np_zeros4 (Scarlet.max_n_sources self) n_bands img_size img_size)
      = Scarlet.max_n_sources self /\
    forall cube band row v,
      cube ∈ np_zeros4 (Scarlet.max_n_sources self) n_bands img_size img_size ->
      band ∈ cube -> row ∈ band -> v ∈ row ->
      length cube = n_bands /\ length band = img_size /\ length row = img_size /\ v = 0%Q.
Proof.
  intros Hcat Hra Hdec Himage Hrows n_bands img_size Hfit.
  exists (ScarletDeblend.no_images self n_bands img_size).
  split; [|split; [done|]; split; [done|]; split; [done|]; split; [done|];
           split; [done|]; apply np_zeros4_all_zero].
  unfold ScarletDeblend.deblend.
  assert (Hget :
    match reference_catalogs with
    | Some reference_catalogs0 => getitem reference_catalogs0 ii
    | None => getitem (BlendBatch.catalog_list blend_batch) ii
    end = Ok catalog).
  { destruct reference_catalogs; simpl in Hcat; by apply getitem_Ok. }
  rewrite Hget. simpl. rewrite decide_True by done.
  rewrite (proj2 (getitem_Ok _ _ _) Himage). simpl.
  rewrite decide_False by done.
  fold n_bands img_size. by rewrite Hfit.
Qed.
End scarlet.

(** ** DeblendGenerator *)

Section names.
Import DeblendGenerator.

Lemma count_app (l1 l2 : list string) (name : string) :
  count (l1 ++ l2) name = (count l1 name + count l2 name)%nat.
Proof. unfold count. by rewrite filter_app, length_app. Qed.

Lemma count_singleton (n name : string) :
  count [n] name = if decide (n = name) then 1%nat else 0%nat.
Proof.
  unfold count. rewrite filter_cons, filter_nil. by destruct (decide (n = name)).
Qed.

Lemma count_pos_elem (l : list string) (name : string) :
  (0 < count l name)%nat -> name ∈ l.
Proof.
  unfold count. intros Hpos.
  destruct (filter (fun n => n = name) l) as [|n l'] eqn:Hf; [simpl in Hpos; lia|].
  assert (Hin : n ∈ filter (fun n => n = name) l) by (rewrite Hf; left).
  apply list_elem_of_filter in Hin as [-> Hin]. done.
Qed.

Lemma count_zero_not_elem (l : list string) (name : string) :
  name ∉ l -> count l name = 0%nat.
Proof.
  intros Hnot. unfold count.
  destruct (filter (fun n => n = name) l) as [|n l'] eqn:Hf; [done|].
  assert (Hin : n ∈ filter (fun n => n = name) l) by (rewrite Hf; left).
  apply list_elem_of_filter in Hin as [-> Hin]. done.
Qed.

Lemma repeated_names_lookup (deblender_names : list string) (name : string) :
  repeated_names deblender_names !! name =
  if decide (1 < count deblender_names name)%nat then Some 0%nat else None.
Proof.
  unfold repeated_names.
  set (keys := filter _ (elements _)).
  assert (Hnodup : NoDup keys).
  { unfold keys. apply NoDup_filter, NoDup_elements. }
  assert (Hkeys : forall n, n ∈ keys <-> (1 < count deblender_names n)%nat).
  { intros n. unfold keys. rewrite list_elem_of_filter, elem_of_elements, elem_of_list_to_set.
    split; [tauto|]. intros Hn. split; [done|]. apply count_pos_elem. lia. }
  destruct (decide (1 < count deblender_names name)%nat) as [Hrep|Hrep].
  - apply elem_of_list_to_map.
    + rewrite <- list_fmap_compose. simpl. by rewrite list_fmap_id.
    + apply list_elem_of_fmap. exists name. split; [done|]. by apply Hkeys.
  - apply not_elem_of_list_to_map.
    rewrite <- list_fmap_compose. simpl. rewrite list_fmap_id. by rewrite Hkeys.
Qed.

Lemma add_suffix_loop (deblender_names : list string) (k : nat) :
  (k <= length deblender_names)%nat ->
  exists names_counts,
    foldl add_suffix (deblender_names, repeated_names deblender_names) (seq 0 k)
    = (imap (indexed_name deblender_names) (take k deblender_names)
         ++ drop k deblender_names, names_counts) /\
    forall name,
      names_counts !! name =
      if decide (1 < count deblender_names name)%nat
      then Some (count (take k deblender_names) name) else None.
Proof.
  induction k as [|k IH]; intros Hk.
  - exists (repeated_names deblender_names). split; [done|].
    intros name. rewrite repeated_names_lookup. by destruct (decide _).
  - destruct (IH ltac:(lia)) as (names_counts & Hloop & Hcounts).
    rewrite seq_S, foldl_app, Hloop. simpl.
    destruct (lookup_lt_is_Some_2 deblender_names k ltac:(lia)) as [name Hname].
    assert (Hprefix : length (imap (indexed_name deblender_names) (take k deblender_names)) = k).
    { rewrite length_imap, length_take. lia. }
    assert (Hnext : imap (indexed_name deblender_names) (take (S k) deblender_names)
      = imap (indexed_name deblender_names) (take k deblender_names)
        ++ [indexed_name deblender_names k name]).
    { rewrite (take_S_r _ _ _ Hname), imap_app. simpl.
      rewrite length_take. do 3 f_equal. lia. }
    assert (Hcount : forall n, count (take (S k) deblender_names) n
      = (count (take k deblender_names) n + if decide (name = n) then 1 else 0)%nat).
    { intros n. by rewrite (take_S_r _ _ _ Hname), count_app, count_singleton. }
    rewrite lookup_app_r by lia. rewrite Hprefix, Nat.sub_diag.
    rewrite lookup_drop, Nat.add_0_r, Hname.
    rewrite Hcounts. rewrite Hnext, <- app_assoc. simpl.
    destruct (decide (1 < count deblender_names name)%nat) as [Hrep|Hrep].
    + assert (Hidx : indexed_name deblender_names k name
        = name +:+ "_" +:+ pretty (count (take k deblender_names) name)).
      { unfold indexed_name. by rewrite decide_True by done. }
      eexists. split.
      * rewrite insert_app_r_alt by lia.
        rewrite Hprefix, Nat.sub_diag, (drop_S _ _ _ Hname), Hidx. reflexivity.
      * intros n. rewrite Hcount. destruct (decide (name = n)) as [<-|Hne].
        -- rewrite lookup_insert_eq. by rewrite decide_True by done.
        -- rewrite lookup_insert_ne by done. rewrite Hcounts, Nat.add_0_r. done.
    + assert (Hidx : indexed_name deblender_names k name = name).
      { unfold indexed_name. by rewrite decide_False by done. }
      exists names_counts. split; [by rewrite (drop_S _ _ _ Hname), Hidx|].
      intros n. rewrite Hcounts, Hcount.
      destruct (decide (1 < count deblender_names n)%nat) as [Hn|Hn]; [|done].
      rewrite decide_False by (intros ->; lia). by rewrite Nat.add_0_r.
Qed.

Lemma unique_names_imap {D : Type} (str : D -> string) (deblenders : list D) :
  _get_unique_deblender_names str deblenders
  = imap (indexed_name (map str deblenders)) (map str deblenders).
Proof.
  unfold _get_unique_deblender_names.
  destruct (add_suffix_loop (map str deblenders) (length (map str deblenders)) ltac:(lia))
    as (names_counts & -> & _).
  simpl. rewrite take_ge, drop_ge by lia. by rewrite app_nil_r.
Qed.

(** C8, as the code has it. Every instance of a type name that several
    instances share gets a numeric suffix: the number of earlier instances of
    that type name, so the first one gets [_0]; the instances are numbered in
    the order of the list, and the name of an instance whose type name occurs
    once is left as it is. *)
Theorem unique_names_number_every_repeated {D : Type} (str : D -> string)
    (deblenders : list D) :
  let deblender_names := map str deblenders in
  let unique := _get_unique_deblender_names str deblenders in
  length unique = length deblenders /\
  (forall i name,
     deblender_names !! i = Some name ->
     count deblender_names name = 1%nat ->
     unique !! i = Some name) /\
  (forall i name,
     deblender_names !! i = Some name ->
     (1 < count deblender_names name)%nat ->
     unique !! i
       = Some (name +:+ "_" +:+ pretty (count (take i deblender_names) name))) /\
  (forall i name,
     deblender_names !! i = Some name ->
     (1 < count deblender_names name)%nat ->
     name ∉ take i deblender_names ->
     unique !! i = Some (name +:+ "_0")).
Proof.
  intros deblender_names unique.
  assert (Hunique : forall i name,
    deblender_names !! i = Some name ->
    unique !! i = Some (indexed_name deblender_names i name)).
  { intros i name Hname. unfold unique. rewrite unique_names_imap.
    rewrite list_lookup_imap. fold deblender_names. by rewrite Hname. }
  split; [|split; [|split]].
  - unfold unique. rewrite unique_names_imap, length_imap. apply length_map.
  - intros i name Hname Honce. rewrite (Hunique i name Hname).
    unfold indexed_name. rewrite decide_False by lia. done.
  - intros i name Hname Hrep. rewrite (Hunique i name Hname).
    unfold indexed_name. by rewrite decide_True by done.
  - intros i name Hname Hrep Hfirst. rewrite (Hunique i name Hname).
    unfold indexed_name. rewrite decide_True by done.
    by rewrite (count_zero_not_elem _ _ Hfirst).
Qed.

(** C8, as stated, fails: of two [SepSingleBand] instances the first one is
    named [SepSingleBand_0], not [SepSingleBand]. *)
Lemma first_instance_keeps_bare_name_fails : ~ first_instance_keeps_bare_name.
Proof.
  intros Hclaim.
  specialize (Hclaim ["SepSingleBand"; "SepSingleBand"] 0%nat "SepSingleBand").
  assert (Hname : _get_unique_deblender_names id ["SepSingleBand"; "SepSingleBand"] !! 0%nat
                  = Some "SepSingleBand_0") by (vm_compute; reflexivity).
  rewrite Hname in Hclaim.
  assert (Hbad : Some "SepSingleBand_0" = Some "SepSingleBand").
  { apply Hclaim; [reflexivity|]. simpl. apply not_elem_of_nil. }
  discriminate Hbad.
Qed.
End names.

(** ** The catalog that a deblender returns *)


Lemma with_validation_Raise {Seg Debl Extra : Type} (too_many_rows : exn)
    (outcome : result (DeblendExample.t Seg Debl Extra)) (ex : DeblendExample.t Seg Debl Extra) :
  outcome = Ok ex ->
  (DeblendExample.max_n_sources ex < Table_len (DeblendExample.catalog ex))%nat ->
  with_validation too_many_rows outcome = Raise too_many_rows.
Proof.
  intros -> Hover. unfold with_validation, DeblendExample_validate. simpl.
  by rewrite decide_True.
Qed.





Section returned_catalog.
Context {skimage : Skimage} {numpy : NumpyFloat} {sep_lib : SepLib} {astropy : Astropy}
  {scarlet : ScarletLib} {Seg Debl Extra : Type}.

End returned_catalog.

(** * The theorems on the sample inputs *)

Lemma completion_201 : [2; 0; 1]%nat ≡ₚ seq 0 3.
Proof. exact (Permutation_cons_append [0; 1]%nat 2%nat). Defined.

Lemma completion_10 : [1; 0]%nat ≡ₚ seq 0 2.
Proof. exact (Permutation_cons_append [0]%nat 1%nat). Defined.

(** Three examples deblended by [PeakLocalMax] on two workers that finish in
    the order 2, 0, 1. *)
Lemma batch_call_preserves_order_sample :
  [2; 0; 1]%nat ≡ₚ seq 0 (BlendBatch.batch_size three_examples) /\
  forall db : DeblendBatch.t unit (list Cube) unit,
    Deblender.batch_call (nd_shape := stacked_cubes_shape)
      (PeakLocalMax.as_deblender (skimage := first_bright_pixels) (numpy := sample_numpy)
         (PeakLocalMax.mk 2 16 5 2 (UseBand 0)))
      three_examples 2 [2; 0; 1]%nat = Ok db <->
    Deblender.batch_call (nd_shape := stacked_cubes_shape)
      (PeakLocalMax.as_deblender (skimage := first_bright_pixels) (numpy := sample_numpy)
         (PeakLocalMax.mk 2 16 5 2 (UseBand 0)))
      three_examples 1 (seq 0 3) = Ok db.
Proof.
  split; [exact completion_201|].
  exact (proj1 (batch_call_preserves_order (nd_shape := stacked_cubes_shape)
                  (PeakLocalMax.as_deblender (skimage := first_bright_pixels)
                     (numpy := sample_numpy) (PeakLocalMax.mk 2 16 5 2 (UseBand 0)))
                  three_examples 2 [2; 0; 1]%nat completion_201)).
Defined.

(** Two examples that disagree on their optional fields: the batch has the
    segmentation of every example, absent ones included, because example 0
    has one, and no extra data, because example 0 has none. *)
Lemma batch_call_presence_from_first_sample :
  exists db,
    Deblender.batch_call (nd_shape := stacked_cubes_shape) uneven_deblender
      two_examples 2 [1; 0]%nat = Ok db /\
    DeblendBatch.segmentation db = Some [Some (np_zeros_masks 2 1 1); None] /\
    DeblendBatch.extra_data db = None.
Proof.
  destruct (batch_call_presence_from_first (nd_shape := stacked_cubes_shape)
              uneven_deblender two_examples 2 [1; 0]%nat
              [uneven_example 0; uneven_example 1] (uneven_example 0) None
              completion_10 eq_refl eq_refl eq_refl)
    as (_ & db & Hdb & _ & Hseg & _ & _ & Hextra & _).
  exists db. split; [exact Hdb|]. split.
  - apply Hseg. eexists. reflexivity.
  - apply Hextra. reflexivity.
Defined.

(** A running coordinate at declination 1 and two detections at
    declinations 6 and 7, with a threshold of 5: the first detection, at
    exactly the threshold, is dropped and the second is appended. *)
Lemma merge_keeps_strictly_farther_sample :
  SepMultiBand.merge_detections (astropy := meridian_separation)
    (SepMultiBand.mk 5 5 (3 # 2)) [2]%Q [1]%Q [2; 2]%Q [6; 7]%Q
  = ([2; 2], [1; 7])%Q.
Proof.
  rewrite (proj1 (merge_keeps_strictly_farther (astropy := meridian_separation)
                    (SepMultiBand.mk 5 5 (3 # 2)) [2]%Q [1]%Q [2; 2]%Q [6; 7]%Q
                    eq_refl eq_refl ltac:(discriminate) ltac:(discriminate))).
  vm_compute. reflexivity.
Defined.

(** No running coordinate yet: both detections are appended. *)
Lemma merge_appends_all_when_empty_sample :
  SepMultiBand.merge_detections (astropy := meridian_separation)
    (SepMultiBand.mk 5 5 (3 # 2)) [] [] [2; 2]%Q [6; 7]%Q
  = ([2; 2], [6; 7])%Q.
Proof.
  exact (proj1 (merge_appends_all_when_empty meridian_separation meridian_separation
                  (SepMultiBand.mk 5 5 (3 # 2)) [] [] [2; 2]%Q [6; 7]%Q
                  (or_intror eq_refl))).
Defined.

(** Three bright pixels and [max_n_sources = 2]: two rows, no error. *)
Lemma PeakLocalMax_guard_unreachable_sample :
  exists ex : DeblendExample.t unit unit unit,
    PeakLocalMax.deblend (skimage := first_bright_pixels) (numpy := sample_numpy)
      (PeakLocalMax.mk 2 16 5 2 (UseBand 0)) 0 three_examples = Ok ex /\
    (Table_len (DeblendExample.catalog ex) <= 2)%nat.
Proof.
  assert (Hcap : forall image min_distance threshold_abs num_peaks,
    (length (peak_local_max (Skimage := first_bright_pixels)
               image min_distance threshold_abs num_peaks) <= num_peaks)%nat).
  { intros image min_distance threshold_abs num_peaks.
    unfold peak_local_max, first_bright_pixels. rewrite length_take. lia. }
  destruct (getitem (BlendBatch.blend_images three_examples) 0) as [blend_image|e] eqn:Hbb;
    [|discriminate Hbb].
  destruct (proj2 (PeakLocalMax_guard_unreachable (skimage := first_bright_pixels)
                     (numpy := sample_numpy) (Seg := unit) (Debl := unit) (Extra := unit)
                     (PeakLocalMax.mk 2 16 5 2 (UseBand 0)) 0 three_examples Hcap)
              blend_image (default [] (blend_image !! 0%nat)))
    as (ex & Hex & _ & Hle).
  - injection Hbb as <-. reflexivity.
  - injection Hbb as <-. reflexivity.
  - exists ex. split; [exact Hex | exact Hle].
Defined.

(** Three detections, [max_n_sources = 2] and overflow allowed: two masks in
    the fixed array. *)
Lemma DeepDisc_overflow_goes_to_extra_sample :
  exists ex,
    DeepDisc.deblend (model := sample_model) (DeepDisc.mk 2 true) 0 two_examples = Ok ex /\
    (length <$> DeblendExample.segmentation ex) = Some 2%nat.
Proof.
  destruct (BlendBatch.blend_images two_examples !! 0%nat) as [bb|] eqn:Hbb;
    [|discriminate Hbb].
  destruct (DeepDisc_overflow_goes_to_extra (model := sample_model) (DeepDisc.mk 2 true)
              0 two_examples bb eq_refl Hbb)
    as (ex & Hex & Hseg & _ & _ & Hlen & _).
  - injection Hbb as <-. vm_compute. lia.
  - exists ex. split; [exact Hex|]. rewrite Hseg. simpl. f_equal. exact Hlen.
Defined.

(** One detection and [max_n_sources = 2]: the extra data is the empty dict. *)
Lemma DeepDisc_extra_data_is_a_dict_sample :
  exists ex,
    DeepDisc.deblend (model := sample_model) (DeepDisc.mk 2 false) 1 two_examples = Ok ex /\
    DeblendExample.extra_data ex = Some ∅.
Proof.
  destruct (BlendBatch.blend_images two_examples !! 1%nat) as [bb|] eqn:Hbb;
    [|discriminate Hbb].
  destruct (DeepDisc_extra_data_is_a_dict (model := sample_model) (DeepDisc.mk 2 false)
              1 two_examples bb Hbb) as (Hreturns & Hdict & _).
  assert (Hfit : (length (pred_masks (predictor (DeepDiscModel := sample_model)
                                         (reader (DeepDiscModel := sample_model) bb)))
                  <= DeepDisc.max_n_sources (DeepDisc.mk 2 false))%nat).
  { injection Hbb as <-. vm_compute. lia. }
  destruct (Hreturns (or_introl Hfit)) as [ex Hex].
  exists ex. split; [exact Hex|]. exact (proj2 (Hdict ex Hex) Hfit).
Defined.

(** Two truth sources on one position: the fit raises and [deblend] returns
    the empty example. *)
Lemma Scarlet_recovers_from_LinAlgError_sample :
  exists ex,
    ScarletDeblend.deblend (scarlet := sample_scarlet) (Seg := unit)
      (Scarlet.mk 3 1 1 200 2 50) 0 coincident_batch None = Ok ex /\
    Table_len (DeblendExample.catalog ex) = 0%nat.
Proof.
  destruct (Scarlet_recovers_from_LinAlgError (scarlet := sample_scarlet) (Seg := unit)
              (Scarlet.mk 3 1 1 200 2 50) 0 coincident_batch None
              [("ra", [1; 1]); ("dec", [1; 1])]%Q [spike 4 4 1 1 50])
    as (ex & Hex & _ & Hlen & _).
  - reflexivity.
  - apply list_elem_of_In. simpl. tauto.
  - apply list_elem_of_In. simpl. tauto.
  - reflexivity.
  - simpl. lia.
  - vm_compute. reflexivity.
  - exists ex. split; [exact Hex | exact Hlen].
Defined.

(** [SepSingleBand, Scarlet, SepSingleBand]. *)
Lemma unique_names_number_every_repeated_sample :
  DeblendGenerator._get_unique_deblender_names id ["SepSingleBand"; "Scarlet"; "SepSingleBand"]
    !! 2%nat = Some "SepSingleBand_1".
Proof.
  destruct (unique_names_number_every_repeated id ["SepSingleBand"; "Scarlet"; "SepSingleBand"])
    as (_ & _ & Hrep & _).
  rewrite (Hrep 2%nat "SepSingleBand"); [reflexivity | reflexivity | vm_compute; lia].
Defined.



(** * Further properties of the deblenders *)

(** ** The constructors of the single-band deblenders *)

(** X1. [PeakLocalMax.__init__] and [SepSingleBand.__init__] return an
    instance exactly when one of [use_mean] and [use_band] is given and not
    the other; with neither they raise the [ValueError] that asks for one of
    them, with both the [ValueError] that allows only one. *)
Theorem init_needs_exactly_one_band_choice (max_n_sources : nat)
    (sky_level threshold_scale thresh : Q) (min_distance min_area : nat)
    (use_mean : bool) (use_band : option Z) :
  let peak := PeakLocalMax.init max_n_sources sky_level threshold_scale min_distance
                use_mean use_band in
  let single := SepSingleBand.init max_n_sources thresh min_area use_mean use_band in
  ((exists self, peak = Ok self) <-> (use_mean = true <-> use_band = None)) /\
  ((exists self, single = Ok self) <-> (use_mean = true <-> use_band = None)) /\
  (use_mean = false /\ use_band = None ->
   peak = Raise (ValueError "Either set 'use_mean=True' OR indicate a 'use_band' index") /\
   single = Raise (ValueError "Either set 'use_mean=True' OR indicate a 'use_band' index")) /\
  (use_mean = true /\ is_Some use_band ->
   peak = Raise (ValueError "Only one of the parameters 'use_band' and 'use_mean' has to be set") /\
   single = Raise (ValueError "Only one of the parameters 'use_band' and 'use_mean' has to be set")) /\
  (forall self, peak = Ok self ->
     PeakLocalMax.band self = match use_band with Some b => UseBand b | None => UseMean end) /\
  (forall self, single = Ok self ->
     SepSingleBand.band self = match use_band with Some b => UseBand b | None => UseMean end).
Proof.
  intros peak single. unfold peak, single, PeakLocalMax.init, SepSingleBand.init, choose_band.
  destruct use_mean, use_band as [b|]; simpl; split_and!.
  all: try (intros [self Hself]; discriminate Hself).
  all: try (intros self Hself; first [discriminate Hself | by injection Hself as <-]).
  all: try (intros [Hm Hb]; first [discriminate Hm | discriminate Hb | by destruct Hb]).
  all: try (split; intros H; first [by eexists | done | discriminate H]).
  all: try (split; [intros [self Hself]; discriminate Hself|]).
  all: try (intros [H1 H2]; first [by specialize (H1 eq_refl) | by specialize (H2 eq_refl)]).
Qed.

(** ** SepSingleBand *)

#[local] Arguments np_zeros_masks : simpl never.
#[local] Arguments np_zeros2 : simpl never.
#[local] Arguments Table_set : simpl never.
#[local] Arguments SepSingleBand.fill_objects : simpl never.
#[local] Arguments clip0 : simpl never.

Lemma fill_objects_spec (image : Image) (segmentation : list (list Z)) (n_objects : nat)
    (masks : list Mask) (images : list Image) :
  (n_objects <= length masks)%nat ->
  (n_objects <= length images)%nat ->
  SepSingleBand.fill_objects image segmentation n_objects (masks, images)
  = (map (SepSingleBand.footprint segmentation) (seq 0 n_objects) ++ drop n_objects masks,
     map (fun jj => mul2 image (astype (SepSingleBand.footprint segmentation jj)))
       (seq 0 n_objects) ++ drop n_objects images).
Proof.
  unfold SepSingleBand.fill_objects.
  induction n_objects as [|n IH]; intros Hmasks Himages; [done|].
  rewrite seq_S, foldl_app, IH by lia. simpl.
  destruct (lookup_lt_is_Some_2 masks n ltac:(lia)) as [m Hm].
  destruct (lookup_lt_is_Some_2 images n ltac:(lia)) as [im Him].
  rewrite (drop_S _ _ _ Hm), (drop_S _ _ _ Him).
  rewrite !map_app. simpl. rewrite <- !app_assoc. simpl.
  rewrite !insert_app_r_alt by (rewrite length_map, length_seq; lia).
  rewrite !length_map, !length_seq, Nat.sub_diag. done.
Qed.

Lemma clip0_zeros (h w : nat) : clip0 [np_zeros2 h w] = [np_zeros2 h w].
Proof.
  unfold clip0, np_zeros2. simpl. f_equal.
  rewrite <- (list_fmap_id (replicate h (replicate w 0%Q))) at 2.
  apply list_fmap_ext. intros i row Hrow.
  apply lookup_replicate in Hrow as [-> _].
  rewrite <- (list_fmap_id (replicate w 0%Q)) at 2.
  apply list_fmap_ext. intros j v Hv.
  apply lookup_replicate in Hv as [-> _]. reflexivity.
Qed.

Lemma clip0_nonnegative (cube : Cube) (band : Image) (row : list Q) (v : Q) :
  band ∈ clip0 cube -> row ∈ band -> v ∈ row -> (0 <= v)%Q.
Proof.
  unfold clip0. intros Hband Hrow Hv.
  apply list_elem_of_fmap in Hband as (band0 & -> & _).
  apply list_elem_of_fmap in Hrow as (row0 & -> & _).
  apply list_elem_of_fmap in Hv as (v0 & -> & _).
  apply Q.le_max_l.
Qed.

Section sep_single_band.
Context {sep_lib : SepLib} {numpy : NumpyFloat} {Extra : Type}.
Implicit Types (self : SepSingleBand.t).

(** X2. When SEP finds [n <= max_n_sources] objects, [SepSingleBand.deblend]
    returns arrays of exactly [max_n_sources] entries: entry [jj < n] of the
    segmentation is the footprint [segmentation == jj + 1] and entry [jj] of
    the deblended images is the image masked by it, as one band clipped at 0;
    the entries from [n] on are the zero padding. The catalog has [n] rows. *)
Theorem SepSingleBand_pads_with_zeros self (ii : nat) (blend_batch : BlendBatch.t)
    (blend_image : Cube) (image : Image) (catalog : list (Q * Q))
    (segmentation : list (list Z)) :
  BlendBatch.blend_images blend_batch !! ii = Some blend_image ->
  select_image (SepSingleBand.band self) blend_image = Ok image ->
  sep_extract_segmentation image (SepSingleBand.thresh self) (SepSingleBand.min_area self)
    = (catalog, segmentation) ->
  (length catalog <= SepSingleBand.max_n_sources self)%nat ->
  let n := length catalog in
  let max := SepSingleBand.max_n_sources self in
  let h := length image in
  let w := length (hd [] image) in
  exists ex : DeblendExample.t (list Mask) (list Cube) Extra,
    SepSingleBand.deblend self ii blend_batch = Ok ex /\
    DeblendExample.segmentation ex
      = Some (map (SepSingleBand.footprint segmentation) (seq 0 n)
              ++ replicate (max - n) (np_zeros_mask h w)) /\
    DeblendExample.deblended_images ex
      = Some (map (fun jj =>
                     clip0 [mul2 image (astype (SepSingleBand.footprint segmentation jj))])
                (seq 0 n)
              ++ replicate (max - n) [np_zeros2 h w]) /\
    (length <$> DeblendExample.segmentation ex) = Some max /\
    (length <$> DeblendExample.deblended_images ex) = Some max /\
    Table_len (DeblendExample.catalog ex) = n /\
    DeblendExample.n_bands ex = Some 1%nat /\
    DeblendExample.extra_data ex = None.
Proof.
  intros Hii Himage Hsep Hfit n max h w.
  assert (Hfill :
    SepSingleBand.fill_objects image segmentation n
      (np_zeros_masks max h w, replicate max (np_zeros2 h w))
    = (map (SepSingleBand.footprint segmentation) (seq 0 n)
       ++ replicate (max - n) (np_zeros_mask h w),
       map (fun jj => mul2 image (astype (SepSingleBand.footprint segmentation jj)))
         (seq 0 n) ++ replicate (max - n) (np_zeros2 h w))).
  { rewrite fill_objects_spec;
      [|unfold np_zeros_masks; rewrite length_replicate; lia
       |rewrite length_replicate; lia].
    unfold np_zeros_masks. by rewrite !drop_replicate. }
  eexists. split.
  - unfold SepSingleBand.deblend.
    rewrite (proj2 (getitem_Ok _ _ _) Hii). simpl. rewrite Himage. simpl.
    rewrite Hsep. rewrite decide_False by lia.
    fold n max h w. rewrite Hfill. simpl. reflexivity.
  - simpl. split_and!.
    + done.
    + rewrite map_app, map_map. do 2 f_equal.
      rewrite fmap_replicate. by rewrite clip0_zeros.
    + rewrite length_app, length_map, length_seq, length_replicate. f_equal. lia.
    + rewrite length_map, length_app, length_map, length_seq, length_replicate.
      f_equal. lia.
    + unfold Table_set, times3600. simpl.
      rewrite !length_map, length_zip_with, !length_map. lia.
    + done.
    + done.
Qed.

(** X3. On an example and a band that exist, [SepSingleBand.deblend] raises
    its [ValueError] exactly when SEP finds more than [max_n_sources]
    objects, and returns an example otherwise. *)
Theorem SepSingleBand_raises_iff_too_many self (ii : nat) (blend_batch : BlendBatch.t)
    (blend_image : Cube) (image : Image) :
  BlendBatch.blend_images blend_batch !! ii = Some blend_image ->
  select_image (SepSingleBand.band self) blend_image = Ok image ->
  let n :=
    length (sep_extract_segmentation image (SepSingleBand.thresh self)
              (SepSingleBand.min_area self)).1 in
  (SepSingleBand.deblend (Extra := Extra) self ii blend_batch
     = Raise SepSingleBand.too_many <->
   (SepSingleBand.max_n_sources self < n)%nat) /\
  ((exists ex, SepSingleBand.deblend (Extra := Extra) self ii blend_batch = Ok ex) <->
   (n <= SepSingleBand.max_n_sources self)%nat).
Proof.
  intros Hii Himage n.
  destruct (sep_extract_segmentation image (SepSingleBand.thresh self)
              (SepSingleBand.min_area self)) as [catalog segmentation] eqn:Hsep.
  simpl in n.
  destruct (decide (SepSingleBand.max_n_sources self < n)%nat) as [Hover|Hfit].
  - assert (Hraise : SepSingleBand.deblend (Extra := Extra) self ii blend_batch
                     = Raise SepSingleBand.too_many).
    { unfold SepSingleBand.deblend.
      rewrite (proj2 (getitem_Ok _ _ _) Hii). simpl. rewrite Himage. simpl.
      rewrite Hsep. by rewrite decide_True by done. }
    rewrite Hraise. split; [done|]. split; [|lia].
    intros [ex Hex]. discriminate Hex.
  - assert (Hreturn : exists ex,
      SepSingleBand.deblend (Extra := Extra) self ii blend_batch = Ok ex).
    { unfold SepSingleBand.deblend.
      rewrite (proj2 (getitem_Ok _ _ _) Hii). simpl. rewrite Himage. simpl.
      rewrite Hsep. rewrite decide_False by (unfold n in Hfit; lia). by eexists. }
    destruct Hreturn as [ex Hex].
    rewrite Hex. split; [split; [done | lia]|].
    split; [lia|]. intros _. by exists ex.
Qed.

(** X4. Every deblended image that [SepSingleBand.deblend] returns has
    exactly one band, and none of its pixels is negative. *)
Theorem SepSingleBand_images_one_band_nonnegative self (ii : nat)
    (blend_batch : BlendBatch.t) (ex : DeblendExample.t (list Mask) (list Cube) Extra) :
  SepSingleBand.deblend self ii blend_batch = Ok ex ->
  exists deblended_images,
    DeblendExample.deblended_images ex = Some deblended_images /\
    forall cube, cube ∈ deblended_images ->
      length cube = 1%nat /\
      forall band row v, band ∈ cube -> row ∈ band -> v ∈ row -> (0 <= v)%Q.
Proof.
  unfold SepSingleBand.deblend. intros Hex.
  apply bind_Ok in Hex as (blend_image & _ & Hex).
  apply bind_Ok in Hex as (image & _ & Hex).
  destruct (sep_extract_segmentation image (SepSingleBand.thresh self)
              (SepSingleBand.min_area self)) as [catalog segmentation].
  destruct (decide _) as [Hover|Hfit] in Hex; [done|].
  injection Hex as <-. simpl. eexists. split; [done|].
  intros cube Hcube. apply list_elem_of_fmap in Hcube as (deblended & -> & _).
  split; [done|]. intros band row v. apply clip0_nonnegative.
Qed.
End sep_single_band.

(** ** SepMultiBand *)

(** Two lookups of one entry give one value. *)
Ltac same_lookup H1 H2 :=
  let Heq := fresh "Heq" in
  pose proof (eq_trans (eq_sym H1) H2) as Heq; injection Heq as ->.

Lemma mask_select_length_le {A} (l : list A) (mask : list bool) :
  (length (mask_select l mask) <= length l)%nat.
Proof.
  revert mask. induction l as [|a l IH]; intros [|b mask]; simpl; try lia.
  specialize (IH mask). destruct b; simpl; lia.
Qed.

Lemma mask_select_length_eq {A B} (l1 : list A) (l2 : list B) (mask : list bool) :
  length l1 = length l2 ->
  length (mask_select l1 mask) = length (mask_select l2 mask).
Proof.
  revert l2 mask. induction l1 as [|a l1 IH]; intros [|b l2] [|m mask] Hlen;
    simpl in *; try done.
  destruct m; simpl; by rewrite (IH l2 mask) by lia.
Qed.

Lemma detections_length (wcs : WCS) (catalog : list (Q * Q)) :
  length (times3600 (pixel_to_world_values wcs (map fst catalog) (map snd catalog)).1)
    = length catalog /\
  length (times3600 (pixel_to_world_values wcs (map fst catalog) (map snd catalog)).2)
    = length catalog.
Proof.
  unfold times3600, pixel_to_world_values. simpl.
  rewrite !length_map, length_zip_with, !length_map. lia.
Qed.

Lemma for_each_cons {S A} (body : S -> A -> result S) (s : S) (a : A) (l : list A) :
  for_each body s (a :: l) = body s a ≫= fun s' => for_each body s' l.
Proof. reflexivity. Qed.

Section sep_multi_band_loop.
Context {sep_lib : SepLib} {astropy : Astropy}.
Implicit Types (self : SepMultiBand.t).

Lemma merge_detections_appends self ra dec ra_detections dec_detections :
  length ra_detections = length dec_detections ->
  exists ra_new dec_new,
    SepMultiBand.merge_detections self ra dec ra_detections dec_detections
      = (ra ++ ra_new, dec ++ dec_new) /\
    length ra_new = length dec_new /\
    (length ra_new <= length ra_detections)%nat.
Proof.
  intros Hlen. unfold SepMultiBand.merge_detections.
  destruct (decide _) as [Hboth|Hempty].
  - eexists _, _. split; [done|]. split.
    + by apply mask_select_length_eq.
    + apply mask_select_length_le.
  - exists ra_detections, dec_detections. split; [done|]. split; [done|lia].
Qed.

Lemma for_each_band_step_Ok self (wcs : WCS) (bands : list Image)
    (ra dec ra' dec' : list Q) :
  length ra = length dec ->
  for_each (SepMultiBand.band_step self wcs) (ra, dec) bands = Ok (ra', dec') ->
  length ra' = length dec' /\
  ra `prefix_of` ra' /\
  dec `prefix_of` dec' /\
  (length ra' <= length ra + length bands * SepMultiBand.max_n_sources self)%nat.
Proof.
  revert ra dec. induction bands as [|band bands IH]; intros ra dec Hlen.
  - simpl. intros [= <- <-]. split; [done|]. split; [done|]. split; [done|lia].
  - rewrite for_each_cons. intros Hloop.
    apply bind_Ok in Hloop as ([ra1 dec1] & Hstep & Hloop).
    unfold SepMultiBand.band_step in Hstep.
    destruct (decide _) as [Hover|Hfit] in Hstep; [done|].
    injection Hstep as Hstep.
    destruct (detections_length wcs (sep_extract band (SepMultiBand.thresh self)))
      as [Hra Hdec].
    destruct (merge_detections_appends self ra dec _ _ ltac:(by rewrite Hra, Hdec))
      as (ra_new & dec_new & Hmerge & Hnew & Hle).
    assert (Heq : (ra1, dec1) = (ra ++ ra_new, dec ++ dec_new)).
    { rewrite <- Hstep. exact Hmerge. }
    injection Heq as -> ->.
    destruct (IH (ra ++ ra_new) (dec ++ dec_new)
                ltac:(rewrite !length_app; lia) Hloop) as (Hlen' & Hpra & Hpdec & Hbound).
    split; [done|]. split; [|split].
    + etrans; [|exact Hpra]. by apply prefix_app_r.
    + etrans; [|exact Hpdec]. by apply prefix_app_r.
    + rewrite length_app in Hbound. rewrite Hra in Hle.
      cbn [length]. rewrite Nat.mul_succ_l. lia.
Qed.

Lemma for_each_band_step_outcome self (wcs : WCS) (bands : list Image)
    (coordinates : list Q * list Q) :
  (Forall (fun band =>
     (length (sep_extract band (SepMultiBand.thresh self))
        <= SepMultiBand.max_n_sources self)%nat) bands /\
   exists merged, for_each (SepMultiBand.band_step self wcs) coordinates bands = Ok merged) \/
  (Exists (fun band =>
     (SepMultiBand.max_n_sources self
        < length (sep_extract band (SepMultiBand.thresh self)))%nat) bands /\
   for_each (SepMultiBand.band_step self wcs) coordinates bands
     = Raise SepMultiBand.too_many).
Proof.
  revert coordinates. induction bands as [|band bands IH]; intros coordinates.
  - left. split; [constructor | by eexists].
  - rewrite for_each_cons.
    destruct (decide (SepMultiBand.max_n_sources self
                < length (sep_extract band (SepMultiBand.thresh self)))%nat)
      as [Hover|Hfit].
    + right. split; [by left|].
      unfold SepMultiBand.band_step. by rewrite decide_True by done.
    + destruct (SepMultiBand.band_step self wcs coordinates band) as [merged|e] eqn:Hstep.
      2:{ unfold SepMultiBand.band_step in Hstep. by rewrite decide_False in Hstep by done. }
      change (Ok merged ≫= ?f) with (f merged). cbv beta.
      destruct (IH merged) as [[Hall Hok]|[Hex Hraise]].
      * left. split; [constructor; [lia | done] | done].
      * right. split; [by right | done].
Qed.
End sep_multi_band_loop.

Section sep_multi_band_deblend.
Context {sep_lib : SepLib} {astropy : Astropy} {Seg Debl Extra : Type}.
Implicit Types (self : SepMultiBand.t).

(** The detections of a band, in arcseconds. *)
Let detections self (wcs : WCS) (band : Image) : list Q * list Q :=
  let catalog := sep_extract band (SepMultiBand.thresh self) in
  let world := pixel_to_world_values wcs (map fst catalog) (map snd catalog) in
  (times3600 world.1, times3600 world.2).

Lemma SepMultiBand_deblend_Ok self (ii : nat) (blend_batch : BlendBatch.t)
    (ex : DeblendExample.t Seg Debl Extra) :
  SepMultiBand.deblend self ii blend_batch = Ok ex <->
  exists band0 bands ra dec,
    BlendBatch.blend_images blend_batch !! ii = Some (band0 :: bands) /\
    (length (sep_extract band0 (SepMultiBand.thresh self))
       <= SepMultiBand.max_n_sources self)%nat /\
    for_each (SepMultiBand.band_step self (BlendBatch.wcs blend_batch))
      (detections self (BlendBatch.wcs blend_batch) band0) bands = Ok (ra, dec) /\
    ex = DeblendExample.mk (SepMultiBand.max_n_sources self) [("ra", ra); ("dec", dec)]
           None None None None None.
Proof.
  unfold SepMultiBand.deblend. split.
  - intros Hex. apply bind_Ok in Hex as (image & Himage & Hex).
    apply bind_Ok in Hex as (band0 & Hband0 & Hex).
    apply getitem_Ok in Himage. apply getitem_Ok in Hband0.
    destruct image as [|band0' bands]; [done|]. injection Hband0 as ->.
    destruct (decide _) as [Hover|Hfit] in Hex; [done|].
    apply bind_Ok in Hex as ([ra dec] & Hloop & [= <-]).
    exists band0, bands, ra, dec. split; [done|]. split; [lia|]. split; [exact Hloop|done].
  - intros (band0 & bands & ra & dec & Himage & Hfit & Hloop & ->).
    assert (Hget : getitem (A := Cube) (BlendBatch.blend_images blend_batch) ii
                   = Ok (band0 :: bands)).
    { apply getitem_Ok. exact Himage. }
    cbv zeta. rewrite Hget.
    change (Ok ?x ≫= ?f) with (f x). cbv beta.
    change (getitem (band0 :: bands) 0) with (Ok (A := Image) band0).
    change (Ok ?x ≫= ?f) with (f x). cbv beta.
    rewrite decide_False by lia.
    change (drop 1 (band0 :: bands)) with bands.
    unfold detections in Hloop. rewrite Hloop. reflexivity.
Qed.

(** X5. The catalog that [SepMultiBand.deblend] returns has the two columns
    [ra] and [dec] and no other, the two of one length; it returns no
    segmentation, no deblended images and no extra data. *)
Theorem SepMultiBand_columns_aligned self (ii : nat) (blend_batch : BlendBatch.t)
    (ex : DeblendExample.t Seg Debl Extra) :
  SepMultiBand.deblend self ii blend_batch = Ok ex ->
  colnames (DeblendExample.catalog ex) = ["ra"; "dec"] /\
  length (Table_get (DeblendExample.catalog ex) "ra")
    = length (Table_get (DeblendExample.catalog ex) "dec") /\
  Table_len (DeblendExample.catalog ex)
    = length (Table_get (DeblendExample.catalog ex) "ra") /\
  DeblendExample.segmentation ex = None /\
  DeblendExample.deblended_images ex = None /\
  DeblendExample.extra_data ex = None.
Proof.
  intros Hex. apply SepMultiBand_deblend_Ok in Hex
    as (band0 & bands & ra & dec & _ & _ & Hloop & ->).
  destruct (detections_length (BlendBatch.wcs blend_batch)
              (sep_extract band0 (SepMultiBand.thresh self))) as [Hra Hdec].
  apply for_each_band_step_Ok in Hloop as (Hlen & _); [|by rewrite Hra, Hdec].
  split_and!; done.
Qed.

(** X6. The running list only grows: the detections of the first band are
    the first rows of the catalog that [SepMultiBand.deblend] returns, in
    the order of SEP, whatever the later bands hold. *)
Theorem SepMultiBand_keeps_first_band self (ii : nat) (blend_batch : BlendBatch.t)
    (image : Cube) (band0 : Image) (ex : DeblendExample.t Seg Debl Extra) :
  BlendBatch.blend_images blend_batch !! ii = Some image ->
  image !! 0%nat = Some band0 ->
  SepMultiBand.deblend self ii blend_batch = Ok ex ->
  (detections self (BlendBatch.wcs blend_batch) band0).1
    `prefix_of` Table_get (DeblendExample.catalog ex) "ra" /\
  (detections self (BlendBatch.wcs blend_batch) band0).2
    `prefix_of` Table_get (DeblendExample.catalog ex) "dec".
Proof.
  intros Himage Hband0 Hex. apply SepMultiBand_deblend_Ok in Hex
    as (band0' & bands & ra & dec & Himage' & _ & Hloop & ->).
  same_lookup Himage Himage'. injection Hband0 as <-.
  destruct (detections_length (BlendBatch.wcs blend_batch)
              (sep_extract band0' (SepMultiBand.thresh self))) as [Hra Hdec].
  apply for_each_band_step_Ok in Hloop as (_ & Hpra & Hpdec & _); [|by rewrite Hra, Hdec].
  split; done.
Qed.

(** X7. The catalog that [SepMultiBand.deblend] returns has at least the
    rows of the first band and at most [max_n_sources] rows per band: at
    most [n_bands * max_n_sources] rows. *)
Theorem SepMultiBand_catalog_bounds self (ii : nat) (blend_batch : BlendBatch.t)
    (image : Cube) (band0 : Image) (ex : DeblendExample.t Seg Debl Extra) :
  BlendBatch.blend_images blend_batch !! ii = Some image ->
  image !! 0%nat = Some band0 ->
  SepMultiBand.deblend self ii blend_batch = Ok ex ->
  (length (sep_extract band0 (SepMultiBand.thresh self))
     <= Table_len (DeblendExample.catalog ex))%nat /\
  (Table_len (DeblendExample.catalog ex)
     <= length image * SepMultiBand.max_n_sources self)%nat.
Proof.
  intros Himage Hband0 Hex. apply SepMultiBand_deblend_Ok in Hex
    as (band0' & bands & ra & dec & Himage' & Hfit & Hloop & ->).
  same_lookup Himage Himage'. injection Hband0 as <-.
  destruct (detections_length (BlendBatch.wcs blend_batch)
              (sep_extract band0' (SepMultiBand.thresh self))) as [Hra Hdec].
  apply for_each_band_step_Ok in Hloop as (_ & Hpra & _ & Hbound); [|by rewrite Hra, Hdec].
  apply prefix_length in Hpra. unfold detections in Hpra, Hbound. simpl in Hpra, Hbound.
  simpl. unfold times3600 in *. rewrite !length_map, length_zip_with, !length_map in *.
  split; [lia|]. rewrite Nat.min_id in *. lia.
Qed.

(** X8. On an example with at least one band, [SepMultiBand.deblend] raises
    its [ValueError] exactly when SEP finds more than [max_n_sources] objects
    in some band: every band is checked on its own, before the catalog is
    built. This is so whether the constructor of [DeblendExample] checks the
    catalog or not, as long as the exception of the constructor is another
    one. *)
Theorem SepMultiBand_raises_iff_a_band_has_too_many (too_many_rows : exn) self (ii : nat)
    (blend_batch : BlendBatch.t) (image : Cube) :
  BlendBatch.blend_images blend_batch !! ii = Some image ->
  image <> [] ->
  too_many_rows <> SepMultiBand.too_many ->
  (SepMultiBand.deblend (Seg := Seg) (Debl := Debl) (Extra := Extra) self ii blend_batch
     = Raise SepMultiBand.too_many <->
   Exists (fun band =>
     (SepMultiBand.max_n_sources self
        < length (sep_extract band (SepMultiBand.thresh self)))%nat) image) /\
  (with_validation too_many_rows
     (SepMultiBand.deblend (Seg := Seg) (Debl := Debl) (Extra := Extra) self ii blend_batch)
     = Raise SepMultiBand.too_many <->
   Exists (fun band =>
     (SepMultiBand.max_n_sources self
        < length (sep_extract band (SepMultiBand.thresh self)))%nat) image).
Proof.
  intros Himage Hbands Hother. destruct image as [|band0 bands]; [done|]. clear Hbands.
  assert (Hexcl : forall l : list Image,
    Exists (fun band => (SepMultiBand.max_n_sources self
              < length (sep_extract band (SepMultiBand.thresh self)))%nat) l ->
    Forall (fun band => (length (sep_extract band (SepMultiBand.thresh self))
              <= SepMultiBand.max_n_sources self)%nat) l -> False).
  { intros l Hex Hall. apply Exists_exists in Hex as (band & Hin & Hover).
    rewrite Forall_forall in Hall. specialize (Hall band Hin). lia. }
  assert (Hvalid : forall ex : DeblendExample.t Seg Debl Extra,
    with_validation too_many_rows (Ok ex) <> Raise SepMultiBand.too_many).
  { intros ex. unfold with_validation, DeblendExample_validate. simpl.
    destruct (decide _); [by intros [= ?] | done]. }
  destruct (decide (SepMultiBand.max_n_sources self
              < length (sep_extract band0 (SepMultiBand.thresh self)))%nat)
    as [Hover|Hfit].
  - assert (Hraise : SepMultiBand.deblend (Seg := Seg) (Debl := Debl) (Extra := Extra)
                       self ii blend_batch = Raise SepMultiBand.too_many).
    { unfold SepMultiBand.deblend. cbv zeta.
      rewrite (proj2 (getitem_Ok _ _ _) Himage).
      change (Ok ?x ≫= ?f) with (f x). cbv beta.
      change (getitem (band0 :: bands) 0) with (Ok (A := Image) band0).
      change (Ok ?x ≫= ?f) with (f x). cbv beta.
      by rewrite decide_True by done. }
    rewrite Hraise. split; (split; [intros _; by left | done]).
  - destruct (for_each_band_step_outcome self (BlendBatch.wcs blend_batch) bands
                (detections self (BlendBatch.wcs blend_batch) band0))
      as [[Hall [[ra dec] Hok]]|[Hex Hraise]].
    + assert (Hret : SepMultiBand.deblend (Seg := Seg) (Debl := Debl) (Extra := Extra)
                       self ii blend_batch
                     = Ok (DeblendExample.mk (SepMultiBand.max_n_sources self)
                             [("ra", ra); ("dec", dec)] None None None None None)).
      { apply SepMultiBand_deblend_Ok. exists band0, bands, ra, dec.
        split; [done|]. split; [lia|]. split; done. }
      rewrite Hret. split.
      * split; [done|]. intros Hex. exfalso.
        apply (Hexcl (band0 :: bands)); [done|]. constructor; [lia | done].
      * split; [intros Habs; by apply Hvalid in Habs|]. intros Hex. exfalso.
        apply (Hexcl (band0 :: bands)); [done|]. constructor; [lia | done].
    + assert (Hraise' : SepMultiBand.deblend (Seg := Seg) (Debl := Debl) (Extra := Extra)
                          self ii blend_batch = Raise SepMultiBand.too_many).
      { unfold SepMultiBand.deblend. cbv zeta.
        rewrite (proj2 (getitem_Ok _ _ _) Himage).
        change (Ok ?x ≫= ?f) with (f x). cbv beta.
        change (getitem (band0 :: bands) 0) with (Ok (A := Image) band0).
        change (Ok ?x ≫= ?f) with (f x). cbv beta.
        rewrite decide_False by done.
        change (drop 1 (band0 :: bands)) with bands.
        unfold detections in Hraise. by rewrite Hraise. }
      rewrite Hraise'. split; (split; [intros _; by right | done]).
Qed.
End sep_multi_band_deblend.

Section nearest.
Context {astropy : Astropy}.
Implicit Types (self : SepMultiBand.t).

Lemma foldl_Qmin_gt (thr : Q) (p : Q * Q) (d0 : Q) (c2 : list (Q * Q)) :
  (thr < foldl (fun d r => Qmin d (separation p r)) d0 c2)%Q <->
  (thr < d0)%Q /\ Forall (fun q => (thr < separation p q)%Q) c2.
Proof.
  revert d0. induction c2 as [|q c2 IH]; intros d0; simpl.
  - split; [intros Hd; split; [done | constructor] | by intros [Hd _]].
  - rewrite IH, Q.min_glb_lt_iff, Forall_cons. tauto.
Qed.

Lemma nearest_separation_gt (thr : Q) (p : Q * Q) (c2 : list (Q * Q)) :
  c2 <> [] ->
  (thr < SepMultiBand.nearest_separation p c2)%Q <->
  Forall (fun q => (thr < separation p q)%Q) c2.
Proof.
  intros Hc2. destruct c2 as [|q c2]; [done|].
  unfold SepMultiBand.nearest_separation. rewrite foldl_Qmin_gt, Forall_cons. tauto.
Qed.

(** X9. When the running coordinates and the detections of a band are both
    non-empty, a detection is appended exactly when it is farther than
    [matching_threshold] from every running coordinate: one that is within
    the threshold of any of them is dropped, and the detections of the band
    are not compared with each other. *)
Theorem merge_keeps_far_from_all self
    (ra_coordinates dec_coordinates ra_detections dec_detections : list Q) :
  length ra_detections = length dec_detections ->
  length ra_coordinates = length dec_coordinates ->
  ra_detections <> [] ->
  ra_coordinates <> [] ->
  let c1 := SkyCoord ra_detections dec_detections in
  let c2 := SkyCoord ra_coordinates dec_coordinates in
  let merged :=
    SepMultiBand.merge_detections self ra_coordinates dec_coordinates
      ra_detections dec_detections in
  SkyCoord merged.1 merged.2
  = c2 ++ filter (fun p =>
            Forall (fun q => (SepMultiBand.matching_threshold self < separation p q)%Q) c2)
          c1.
Proof.
  intros Hdet Hrun Hd Hr c1 c2 merged.
  assert (Hc2 : c2 <> []).
  { unfold c2, SkyCoord. destruct ra_coordinates, dec_coordinates; done. }
  pose proof (merge_detections_far self ra_coordinates dec_coordinates
                ra_detections dec_detections Hdet Hd Hc2) as Hmerged.
  cbv zeta in Hmerged. fold c1 c2 merged in Hmerged. rewrite Hmerged. simpl.
  unfold c2 at 2, SkyCoord. rewrite zip_with_app by done.
  fold (SkyCoord ra_coordinates dec_coordinates). fold c2. f_equal.
  rewrite zip_fst_snd.
  apply list_filter_iff. intros p. by apply nearest_separation_gt.
Qed.
End nearest.

(** ** DeepDisc *)

#[local] Arguments DeepDisc.cut_out_sources : simpl never.
#[local] Arguments np_zeros4 : simpl never.
#[local] Arguments py_slice_from : simpl never.
#[local] Arguments py_slice_to : simpl never.
#[local] Arguments setslice_to : simpl never.
#[local] Arguments transpose_201 : simpl never.

Section deep_disc_more.
Context {model : DeepDiscModel}.
Implicit Types (self : DeepDisc.t).

(** What [DeepDisc.deblend] does on an example that exists, by the number
    of detections and [allow_over_n_sources]. *)
Lemma DeepDisc_deblend_cases self (ii : nat) (blend_batch : BlendBatch.t) (bb : Cube) :
  BlendBatch.blend_images blend_batch !! ii = Some bb ->
  let img := reader bb in
  let output := predictor img in
  let masks := pred_masks output in
  let cutouts := map (fun seg => mul_broadcast (transpose_201 img) (astype seg)) masks in
  let max := DeepDisc.max_n_sources self in
  exists catalog,
    Table_len catalog = length (pred_boxes_centers output) /\
    colnames catalog = ["ra"; "dec"; "x_peak"; "y_peak"] /\
    DeepDisc.deblend self ii blend_batch
    = if decide (max < length masks)%nat then
        if DeepDisc.allow_over_n_sources self then
          Ok (DeblendExample.mk max catalog (Some (shape2 img))
                (Some (BlendBatch.image_size blend_batch))
                (Some (take max masks)) (Some (take max cutouts))
                (Some (<["deblended_images" := ExtraDeblended (drop max cutouts)]>
                         {["segs" := ExtraSegs (drop max masks)]})))
        else Raise DeepDisc.too_many
      else
        Ok (DeblendExample.mk max catalog (Some (shape2 img))
              (Some (BlendBatch.image_size blend_batch))
              (Some (masks ++ replicate (max - length masks)
                                (np_zeros_mask (shape0 img) (shape1 img))))
              (Some (cutouts ++ replicate (max - length masks)
                                  (np_zeros3 (shape2 img) (shape0 img) (shape1 img))))
              (Some ∅)).
Proof.
  intros Hbb img output masks cutouts max.
  assert (Hcut : length cutouts = length masks) by (unfold cutouts; by rewrite length_map).
  set (centers := pred_boxes_centers output).
  set (world := pixel_to_world_values (BlendBatch.wcs blend_batch)
                  (map fst centers) (map snd centers)).
  exists (Table_set
            (Table_set
               (Table_set (Table_set Table_new "ra" (times3600 world.1))
                  "dec" (times3600 world.2))
               "x_peak" (map fst centers))
            "y_peak" (map snd centers)).
  split; [|split].
  - rewrite Table_len_four_columns. unfold times3600. rewrite length_map.
    destruct (pixel_to_world_values_length (BlendBatch.wcs blend_batch)
                (map fst centers) (map snd centers)) as [Hworld _];
      [by rewrite !length_map|].
    fold world in Hworld. by rewrite Hworld, length_map.
  - reflexivity.
  - unfold DeepDisc.deblend.
    rewrite (proj2 (getitem_Ok _ _ _) Hbb). simpl.
    fold img. fold output. fold masks. fold max. fold centers. fold world.
    destruct (decide (max < length masks)%nat) as [Hover|Hfit].
    + destruct (DeepDisc.allow_over_n_sources self); [|done].
      rewrite setslice_to_exact.
      2:{ unfold py_slice_to, np_zeros_masks.
          rewrite length_take, length_replicate. lia. }
      simpl.
      assert (Hfill :
        DeepDisc.cut_out_sources (transpose_201 img) masks
          (np_zeros4 (length masks) (shape2 img) (shape0 img) (shape1 img)) = cutouts).
      { rewrite cut_out_sources_spec by (unfold np_zeros4; rewrite length_replicate; lia).
        unfold np_zeros4. rewrite drop_replicate.
        replace (length masks - length masks)%nat with 0%nat by lia.
        simpl. by rewrite app_nil_r. }
      rewrite Hfill. unfold py_slice_to.
      rewrite (py_slice_from_negative masks max Hover).
      rewrite <- Hcut. rewrite (py_slice_from_negative cutouts max) by lia.
      unfold np_zeros_masks. rewrite drop_replicate, length_take.
      replace (max - max `min` length masks)%nat with 0%nat by lia. simpl.
      rewrite app_nil_r. reflexivity.
    + rewrite setslice_to_exact.
      2:{ unfold np_zeros_masks. rewrite length_replicate. lia. }
      simpl. rewrite cut_out_sources_spec
        by (unfold np_zeros4; rewrite length_replicate; fold masks; lia).
      fold cutouts. unfold np_zeros_masks, np_zeros4. rewrite !drop_replicate.
      reflexivity.
Qed.

(** X10. When the detections fit in [max_n_sources], [DeepDisc.deblend]
    returns the predicted masks followed by zero masks, and the image cut out
    by each mask followed by zero images, both padded to exactly
    [max_n_sources] entries. *)
Theorem DeepDisc_pads_with_zeros self (ii : nat) (blend_batch : BlendBatch.t) (bb : Cube) :
  BlendBatch.blend_images blend_batch !! ii = Some bb ->
  let img := reader bb in
  let masks := pred_masks (predictor img) in
  let max := DeepDisc.max_n_sources self in
  (length masks <= max)%nat ->
  exists ex,
    DeepDisc.deblend self ii blend_batch = Ok ex /\
    DeblendExample.segmentation ex
      = Some (masks ++ replicate (max - length masks)
                         (np_zeros_mask (shape0 img) (shape1 img))) /\
    DeblendExample.deblended_images ex
      = Some (map (fun seg => mul_broadcast (transpose_201 img) (astype seg)) masks
              ++ replicate (max - length masks)
                   (np_zeros3 (shape2 img) (shape0 img) (shape1 img))) /\
    (length <$> DeblendExample.segmentation ex) = Some max /\
    (length <$> DeblendExample.deblended_images ex) = Some max /\
    DeblendExample.n_bands ex = Some (shape2 img) /\
    DeblendExample.image_size ex = Some (BlendBatch.image_size blend_batch).
Proof.
  intros Hbb img masks max Hfit.
  eexists. split.
  - unfold DeepDisc.deblend.
    rewrite (proj2 (getitem_Ok _ _ _) Hbb). simpl.
    fold img. fold masks. fold max.
    rewrite decide_False by lia.
    rewrite setslice_to_exact.
    2:{ unfold np_zeros_masks. rewrite length_replicate. lia. }
    simpl. rewrite cut_out_sources_spec
      by (unfold np_zeros4; rewrite length_replicate; fold masks; lia).
    reflexivity.
  - simpl. fold img. fold masks. fold max.
    unfold np_zeros_masks, np_zeros4. rewrite !drop_replicate.
    split_and!; try done.
    + rewrite length_app, length_replicate. f_equal. lia.
    + rewrite length_app, length_map, length_replicate. f_equal. lia.
Qed.

(** X11. On an example that exists, [DeepDisc.deblend] raises its
    [ValueError] exactly when the model predicts more than [max_n_sources]
    detections and [allow_over_n_sources] is off; in every other case it
    returns an example. *)
Theorem DeepDisc_raises_iff_overflow_not_allowed self (ii : nat)
    (blend_batch : BlendBatch.t) (bb : Cube) :
  BlendBatch.blend_images blend_batch !! ii = Some bb ->
  let masks := pred_masks (predictor (reader bb)) in
  (DeepDisc.deblend self ii blend_batch = Raise DeepDisc.too_many <->
   (DeepDisc.max_n_sources self < length masks)%nat /\
   DeepDisc.allow_over_n_sources self = false) /\
  ((exists ex, DeepDisc.deblend self ii blend_batch = Ok ex) <->
   (length masks <= DeepDisc.max_n_sources self)%nat \/
   DeepDisc.allow_over_n_sources self = true).
Proof.
  intros Hbb masks.
  pose proof (DeepDisc_deblend_cases self ii blend_batch bb Hbb) as Hcases.
  cbv zeta in Hcases. fold masks in Hcases.
  destruct Hcases as (catalog & _ & _ & Hdeblend). rewrite Hdeblend.
  destruct (decide (DeepDisc.max_n_sources self < length masks)%nat) as [Hover|Hfit].
  - destruct (DeepDisc.allow_over_n_sources self).
    + split; [split; [done | by intros [_ ?]] | split; [by right | by eexists]].
    + split; [split; [intros _; split; [lia | done] | done]|].
      split; [intros [ex Hex]; discriminate Hex | intros [Hle|Habs]; [lia | done]].
  - split; [split; [done | lia] | split; [left; lia | by eexists]].
Qed.

(** X12. Whenever [DeepDisc.deblend] returns, the two fixed arrays have
    exactly [max_n_sources] entries, while the catalog has one row for every
    predicted box, the overflow included: with [allow_over_n_sources] the
    catalog can have more than [max_n_sources] rows. *)
Theorem DeepDisc_array_and_catalog_sizes self (ii : nat) (blend_batch : BlendBatch.t)
    (bb : Cube) (ex : DeblendExample.t (list Mask) (list Cube) (gmap string ExtraValue)) :
  BlendBatch.blend_images blend_batch !! ii = Some bb ->
  DeepDisc.deblend self ii blend_batch = Ok ex ->
  let output := predictor (reader bb) in
  (length <$> DeblendExample.segmentation ex) = Some (DeepDisc.max_n_sources self) /\
  (length <$> DeblendExample.deblended_images ex) = Some (DeepDisc.max_n_sources self) /\
  Table_len (DeblendExample.catalog ex) = length (pred_boxes_centers output) /\
  colnames (DeblendExample.catalog ex) = ["ra"; "dec"; "x_peak"; "y_peak"].
Proof.
  intros Hbb Hex output.
  pose proof (DeepDisc_deblend_cases self ii blend_batch bb Hbb) as Hcases.
  cbv zeta in Hcases. fold output in Hcases.
  destruct Hcases as (catalog & Hrows & Hcols & Hdeblend). rewrite Hdeblend in Hex.
  destruct (decide _) as [Hover|Hfit] in Hex.
  - destruct (DeepDisc.allow_over_n_sources self); [|done].
    injection Hex as <-. simpl. rewrite !length_take, length_map.
    split_and!; [f_equal; lia | f_equal; lia | done | done].
  - injection Hex as <-. simpl.
    rewrite !length_app, length_map, !length_replicate.
    split_and!; [f_equal; lia | f_equal; lia | done | done].
Qed.
End deep_disc_more.

(** ** Scarlet *)

Lemma mapM_Ok_length {A B} (f : A -> result B) (l : list A) (out : list B) :
  mapM f l = Ok out -> length out = length l.
Proof. intros Hm. apply mapM_Ok_Forall2 in Hm. symmetry. by eapply Forall2_length. Qed.

Section scarlet_more.
Context {scarlet : ScarletLib} {Seg : Type}.
Implicit Types (self : Scarlet.t).

(** The centers that the fit is given, in degrees. *)
Let ra_dec (catalog : Table) : list (Q * Q) :=
  zip (map (fun a => a / 3600)%Q (Table_get catalog "ra"))
      (map (fun d => d / 3600)%Q (Table_get catalog "dec")).

Lemma Scarlet_deblend_after_checks self (ii : nat) (blend_batch : BlendBatch.t)
    (reference_catalogs : option (list Table)) (catalog : Table) (image : Cube) :
  default (BlendBatch.catalog_list blend_batch) reference_catalogs !! ii = Some catalog ->
  "ra" ∈ colnames catalog ->
  "dec" ∈ colnames catalog ->
  BlendBatch.blend_images blend_batch !! ii = Some image ->
  ScarletDeblend.deblend (Seg := Seg) self ii blend_batch reference_catalogs =
  if decide (Table_len catalog = 0)%nat
  then Ok (ScarletDeblend.no_images self (length image) (BlendBatch.image_size blend_batch))
  else
    match ScarletDeblend.fit_and_render self blend_batch image catalog (length image)
            (BlendBatch.image_size blend_batch) with
    | Raise LinAlgError =>
        Ok (ScarletDeblend.no_images self (length image) (BlendBatch.image_size blend_batch))
    | outcome => outcome
    end.
Proof.
  intros Hcat Hra Hdec Himage. unfold ScarletDeblend.deblend.
  assert (Hget :
    match reference_catalogs with
    | Some reference_catalogs0 => getitem reference_catalogs0 ii
    | None => getitem (BlendBatch.catalog_list blend_batch) ii
    end = Ok catalog).
  { destruct reference_catalogs; simpl in Hcat; by apply getitem_Ok. }
  rewrite Hget. change (Ok ?x ≫= ?f) with (f x). cbv beta.
  rewrite decide_True by done.
  rewrite (proj2 (getitem_Ok _ _ _) Himage). reflexivity.
Qed.

(** X13. On an empty catalog [Scarlet.deblend] returns the empty catalog and
    the array of zeros without fitting anything: for every scarlet library,
    also one whose fit would raise. *)
Theorem Scarlet_empty_catalog_skips_fit self (ii : nat) (blend_batch : BlendBatch.t)
    (reference_catalogs : option (list Table)) (catalog : Table) (image : Cube) :
  default (BlendBatch.catalog_list blend_batch) reference_catalogs !! ii = Some catalog ->
  "ra" ∈ colnames catalog ->
  "dec" ∈ colnames catalog ->
  BlendBatch.blend_images blend_batch !! ii = Some image ->
  Table_len catalog = 0%nat ->
  ScarletDeblend.deblend (Seg := Seg) self ii blend_batch reference_catalogs
  = Ok (DeblendExample.mk (Scarlet.max_n_sources self) [("ra", []); ("dec", [])]
          (Some (length image)) (Some (BlendBatch.image_size blend_batch)) None
          (Some (np_zeros4 (Scarlet.max_n_sources self) (length image)
                   (BlendBatch.image_size blend_batch) (BlendBatch.image_size blend_batch)))
          None).
Proof.
  intros Hcat Hra Hdec Himage Hempty.
  rewrite (Scarlet_deblend_after_checks self ii blend_batch reference_catalogs catalog image)
    by done.
  by rewrite decide_True by done.
Qed.

(** X14. [Scarlet.deblend] reads the catalog before the image: it raises
    [IndexError] when the catalogs have no entry [ii], [AssertionError] when
    the catalog lacks the column [ra] or the column [dec], and [IndexError]
    when the catalog passes and the batch has no image [ii]. A reference
    catalog, when given, is used instead of the truth catalog. *)
Theorem Scarlet_input_errors self (ii : nat) (blend_batch : BlendBatch.t)
    (reference_catalogs : option (list Table)) :
  let catalogs := default (BlendBatch.catalog_list blend_batch) reference_catalogs in
  (catalogs !! ii = None ->
   ScarletDeblend.deblend (Seg := Seg) self ii blend_batch reference_catalogs
     = Raise IndexError) /\
  (forall catalog,
     catalogs !! ii = Some catalog ->
     ~ ("ra" ∈ colnames catalog /\ "dec" ∈ colnames catalog) ->
     ScarletDeblend.deblend (Seg := Seg) self ii blend_batch reference_catalogs
       = Raise AssertionError) /\
  (forall catalog,
     catalogs !! ii = Some catalog ->
     "ra" ∈ colnames catalog ->
     "dec" ∈ colnames catalog ->
     BlendBatch.blend_images blend_batch !! ii = None ->
     ScarletDeblend.deblend (Seg := Seg) self ii blend_batch reference_catalogs
       = Raise IndexError).
Proof.
  intros catalogs.
  assert (Hget : forall r,
    match reference_catalogs with
    | Some reference_catalogs0 => getitem reference_catalogs0 ii
    | None => getitem (BlendBatch.catalog_list blend_batch) ii
    end = r <-> getitem catalogs ii = r).
  { intros r. unfold catalogs. by destruct reference_catalogs. }
  split_and!.
  - intros Hnone. unfold ScarletDeblend.deblend.
    rewrite (proj2 (Hget (Raise IndexError))); [done|]. unfold getitem. by rewrite Hnone.
  - intros catalog Hcat Hcols. unfold ScarletDeblend.deblend.
    rewrite (proj2 (Hget (Ok catalog))) by (by apply getitem_Ok).
    change (Ok ?x ≫= ?f) with (f x). cbv beta. by rewrite decide_False by done.
  - intros catalog Hcat Hra Hdec Hnone. unfold ScarletDeblend.deblend.
    rewrite (proj2 (Hget (Ok catalog))) by (by apply getitem_Ok).
    change (Ok ?x ≫= ?f) with (f x). cbv beta. rewrite decide_True by done.
    unfold getitem. by rewrite Hnone.
Qed.

(** X15. Only [LinAlgError] is caught: any other exception that the body of
    the [try] statement raises is raised by [Scarlet.deblend]. *)
Theorem Scarlet_other_exceptions_propagate self (ii : nat) (blend_batch : BlendBatch.t)
    (reference_catalogs : option (list Table)) (catalog : Table) (image : Cube) (e : exn) :
  default (BlendBatch.catalog_list blend_batch) reference_catalogs !! ii = Some catalog ->
  "ra" ∈ colnames catalog ->
  "dec" ∈ colnames catalog ->
  BlendBatch.blend_images blend_batch !! ii = Some image ->
  Table_len catalog <> 0%nat ->
  ScarletDeblend.fit_and_render (Seg := Seg) self blend_batch image catalog (length image)
    (BlendBatch.image_size blend_batch) = Raise e ->
  e <> LinAlgError ->
  ScarletDeblend.deblend (Seg := Seg) self ii blend_batch reference_catalogs = Raise e.
Proof.
  intros Hcat Hra Hdec Himage Hrows Hfit He.
  rewrite (Scarlet_deblend_after_checks self ii blend_batch reference_catalogs catalog image)
    by done.
  rewrite decide_False by done. rewrite Hfit. by destruct e.
Qed.

(** X16. When the fit returns one source per row of the catalog, at most
    [max_n_sources] of them, and their models render, [Scarlet.deblend]
    returns the catalog it was given, the rendered models clipped at 0 and
    padded with zeros to exactly [max_n_sources] images, and the fitted
    sources under the key [scarlet_sources] of the extra data. *)
Theorem Scarlet_returns_clipped_padded_models self (ii : nat) (blend_batch : BlendBatch.t)
    (reference_catalogs : option (list Table)) (catalog : Table) (image : Cube)
    (sources : list Source) (models : list Cube) :
  default (BlendBatch.catalog_list blend_batch) reference_catalogs !! ii = Some catalog ->
  "ra" ∈ colnames catalog ->
  "dec" ∈ colnames catalog ->
  BlendBatch.blend_images blend_batch !! ii = Some image ->
  Table_len catalog <> 0%nat ->
  init_and_fit self blend_batch image (ra_dec catalog) = Ok sources ->
  mapM render_model sources = Ok models ->
  length sources = Table_len catalog ->
  (length sources <= Scarlet.max_n_sources self)%nat ->
  let size := BlendBatch.image_size blend_batch in
  let padded :=
    map clip0 models
    ++ replicate (Scarlet.max_n_sources self - length sources)
         (np_zeros3 (length image) size size) in
  ScarletDeblend.deblend (Seg := Seg) self ii blend_batch reference_catalogs
  = Ok (DeblendExample.mk (Scarlet.max_n_sources self) catalog (Some (length image))
          (Some size) None (Some padded) (Some {[ "scarlet_sources" := sources ]})) /\
  length padded = Scarlet.max_n_sources self /\
  (forall cube band row v,
     cube ∈ padded -> band ∈ cube -> row ∈ band -> v ∈ row -> (0 <= v)%Q).
Proof.
  intros Hcat Hra Hdec Himage Hrows Hinit Hrender Hcount Hfit size padded.
  pose proof (mapM_Ok_length _ _ _ Hrender) as Hmodels.
  assert (Hclipz : forall c h w, clip0 (np_zeros3 c h w) = np_zeros3 c h w).
  { intros c h w. unfold np_zeros3.
    assert (H1 := clip0_zeros h w). unfold clip0 in *. simpl in H1.
    injection H1 as H1. rewrite fmap_replicate. by rewrite H1. }
  split_and!.
  - rewrite (Scarlet_deblend_after_checks self ii blend_batch reference_catalogs
               catalog image) by done.
    rewrite decide_False by done.
    unfold ScarletDeblend.fit_and_render. fold (ra_dec catalog). rewrite Hinit.
    change (Ok ?x ≫= ?f) with (f x). cbv beta. rewrite Hrender.
    change (Ok ?x ≫= ?f) with (f x). cbv beta.
    assert (Hstore :
      ScarletDeblend.store_sources (BlendBatch.image_size blend_batch)
        (np_zeros4 (Scarlet.max_n_sources self) (length image)
           (BlendBatch.image_size blend_batch) (BlendBatch.image_size blend_batch)) models
      = Ok (models ++ replicate (Scarlet.max_n_sources self - length sources)
                        (np_zeros3 (length image) size size))).
    { unfold ScarletDeblend.store_sources.
      destruct models as [|model models']; [simpl in Hmodels; lia|].
      rewrite setslice_to_exact
        by (unfold np_zeros4; rewrite length_replicate; lia).
      unfold np_zeros4. rewrite drop_replicate. by rewrite Hmodels. }
    rewrite Hstore. change (Ok ?x ≫= ?f) with (f x). cbv beta.
    rewrite decide_True by (by rewrite length_map).
    unfold padded. rewrite map_app, fmap_replicate, Hclipz. reflexivity.
  - unfold padded. rewrite length_app, length_map, length_replicate. lia.
  - intros cube band row v Hcube. unfold padded in Hcube.
    apply elem_of_app in Hcube as [Hcube|Hcube].
    + apply list_elem_of_fmap in Hcube as (model & -> & _). apply clip0_nonnegative.
    + apply elem_of_replicate in Hcube as [-> _]. rewrite <- Hclipz.
      apply clip0_nonnegative.
Qed.

(** X17. [Scarlet.deblend] has no guard on [max_n_sources]: when the fit
    returns more sources than [max_n_sources], at least two, storing their
    models raises numpy's [ValueError]; when it returns a number of sources
    that fits but differs from the number of rows of the catalog, the
    assertion fails. *)
Theorem Scarlet_source_count_errors self (ii : nat) (blend_batch : BlendBatch.t)
    (reference_catalogs : option (list Table)) (catalog : Table) (image : Cube)
    (sources : list Source) (models : list Cube) :
  default (BlendBatch.catalog_list blend_batch) reference_catalogs !! ii = Some catalog ->
  "ra" ∈ colnames catalog ->
  "dec" ∈ colnames catalog ->
  BlendBatch.blend_images blend_batch !! ii = Some image ->
  Table_len catalog <> 0%nat ->
  init_and_fit self blend_batch image (ra_dec catalog) = Ok sources ->
  mapM render_model sources = Ok models ->
  ((Scarlet.max_n_sources self < length sources)%nat ->
   (1 < length sources)%nat ->
   ScarletDeblend.deblend (Seg := Seg) self ii blend_batch reference_catalogs
     = Raise (ValueError "could not broadcast input array")) /\
  ((0 < length sources <= Scarlet.max_n_sources self)%nat ->
   length sources <> Table_len catalog ->
   ScarletDeblend.deblend (Seg := Seg) self ii blend_batch reference_catalogs
     = Raise AssertionError).
Proof.
  intros Hcat Hra Hdec Himage Hrows Hinit Hrender.
  pose proof (mapM_Ok_length _ _ _ Hrender) as Hmodels.
  rewrite (Scarlet_deblend_after_checks self ii blend_batch reference_catalogs
             catalog image) by done.
  rewrite decide_False by done.
  unfold ScarletDeblend.fit_and_render. fold (ra_dec catalog). rewrite Hinit.
  change (Ok ?x ≫= ?f) with (f x). cbv beta. rewrite Hrender.
  change (Ok ?x ≫= ?f) with (f x). cbv beta.
  split.
  - intros Hover Htwo.
    assert (Hstore :
      ScarletDeblend.store_sources (BlendBatch.image_size blend_batch)
        (np_zeros4 (Scarlet.max_n_sources self) (length image)
           (BlendBatch.image_size blend_batch) (BlendBatch.image_size blend_batch)) models
      = Raise (ValueError "could not broadcast input array")).
    { unfold ScarletDeblend.store_sources, setslice_to, np_zeros4.
      destruct models as [|m1 [|m2 models']];
        [simpl in Hmodels; lia | simpl in Hmodels; lia |].
      rewrite decide_False; [done|]. rewrite length_replicate, Hmodels. lia. }
    by rewrite Hstore.
  - intros Hfit Hdiff.
    assert (Hstore : exists stored,
      ScarletDeblend.store_sources (BlendBatch.image_size blend_batch)
        (np_zeros4 (Scarlet.max_n_sources self) (length image)
           (BlendBatch.image_size blend_batch) (BlendBatch.image_size blend_batch)) models
      = Ok stored).
    { unfold ScarletDeblend.store_sources.
      destruct models as [|model models']; [simpl in Hmodels; lia|].
      rewrite setslice_to_exact
        by (unfold np_zeros4; rewrite length_replicate; lia).
      by eexists. }
    destruct Hstore as [stored ->]. change (Ok ?x ≫= ?f) with (f x). cbv beta.
    by rewrite decide_False by (by rewrite length_map).
Qed.
End scarlet_more.

(** ** batch_call: the empty batch and the failing example *)

Lemma mapM_first_Raise {A B} (f : A -> result B) (l1 l2 : list A) (a : A) (e : exn) :
  Forall (fun x => exists b, f x = Ok b) l1 ->
  f a = Raise e ->
  mapM f (l1 ++ a :: l2) = Raise e.
Proof.
  intros Hl1 Ha. induction Hl1 as [|x l1 [b Hx] _ IH]; simpl.
  - by rewrite Ha.
  - rewrite Hx. simpl. by rewrite IH.
Qed.

Section batch_more.
Context {Seg Debl Extra : Type} {nd_shape : NdShape Debl}.
Implicit Types (self : Deblender.t Seg Debl Extra) (blend_batch : BlendBatch.t).

(** X18. On a batch of size 0 [batch_call] raises [IndexError], for every
    deblender and every number of jobs: there is no [output[0]] to read the
    optional fields from. *)
Theorem batch_call_empty_batch_raises self blend_batch (njobs : nat) (completion : list nat) :
  BlendBatch.batch_size blend_batch = 0%nat ->
  Deblender.batch_call self blend_batch njobs completion = Raise IndexError.
Proof.
  intros Hsize. unfold Deblender.batch_call, multiprocess. rewrite Hsize. simpl.
  destruct (decide (njobs <= 1)%nat) as [Hseq|Hpar]; [done|].
  destruct completion as [|i completion]; done.
Qed.

(** X19. No partial result: if [deblend] raises on some example of the
    batch, [batch_call] raises too, whatever the number of jobs and the order
    in which the workers finish; with one job it raises the exception of the
    first example that fails. *)
Theorem batch_call_fails_with_an_example self blend_batch (njobs : nat)
    (completion : list nat) (ii : nat) (e : exn) :
  completion ≡ₚ seq 0 (BlendBatch.batch_size blend_batch) ->
  (ii < BlendBatch.batch_size blend_batch)%nat ->
  Deblender.deblend self ii blend_batch = Raise e ->
  (exists e', Deblender.batch_call self blend_batch njobs completion = Raise e') /\
  ((forall jj, (jj < ii)%nat -> exists ex, Deblender.deblend self jj blend_batch = Ok ex) ->
   Deblender.batch_call self blend_batch 1 completion = Raise e).
Proof.
  intros Hperm Hii Hraise. split.
  - destruct (Deblender.batch_call self blend_batch njobs completion) as [db|e'] eqn:Hdb;
      [|by eexists].
    apply (batch_call_Ok _ _ _ _ _ Hperm) in Hdb as (output & _ & Hout & _).
    apply sequential_output_lookup in Hout as [_ Hout].
    destruct (Hout ii Hii) as (ex & Hex & _). congruence.
  - intros Hbefore. unfold Deblender.batch_call, multiprocess.
    rewrite decide_True by lia. rewrite length_map, length_seq.
    set (args_iter := map (fun ii0 => (ii0, blend_batch))
                        (seq 0 (BlendBatch.batch_size blend_batch))).
    assert (Hitem : forall jj, (jj < BlendBatch.batch_size blend_batch)%nat ->
      getitem args_iter jj = Ok (jj, blend_batch)).
    { intros jj Hjj. apply getitem_Ok. unfold args_iter. rewrite list_lookup_fmap.
      by rewrite (proj2 (lookup_seq 0 _ jj jj) (conj eq_refl Hjj)). }
    assert (Hrun :
      run_units (fun a => Deblender.deblend self a.1 a.2) args_iter
        (seq 0 (BlendBatch.batch_size blend_batch)) = Raise e).
    { replace (BlendBatch.batch_size blend_batch)
        with (ii + S (BlendBatch.batch_size blend_batch - S ii))%nat at 1 by lia.
      rewrite seq_app. cbn [seq]. unfold run_units.
      apply mapM_first_Raise.
      - apply Forall_forall. intros jj Hjj. apply elem_of_seq in Hjj.
        rewrite Hitem by lia. destruct (Hbefore jj ltac:(lia)) as [ex Hex].
        exists (jj, ex). simpl. by rewrite Hex.
      - rewrite Hitem by lia. simpl. by rewrite Hraise. }
    by rewrite Hrun.
Qed.
End batch_more.

(** ** PeakLocalMax: the errors *)

(** Replace the first [getitem l i] of the goal by its value, given by [H]. *)
Ltac step_getitem H :=
  match goal with
  | |- context [getitem ?l ?i] =>
      let Hg := fresh "Hg" in
      eassert (Hg : getitem l i = Ok _) by (apply getitem_Ok; exact H);
      rewrite Hg; clear Hg
  end.

Lemma py_index_in_range {A} (l : list A) (i : Z) :
  (- Z.of_nat (length l) <= i < Z.of_nat (length l))%Z ->
  exists a,
    py_index l i = Ok a /\
    l !! Z.to_nat (if (0 <=? i)%Z then i else Z.of_nat (length l) + i)%Z = Some a.
Proof.
  intros Hi. unfold py_index.
  destruct (0 <=? i)%Z eqn:Hsign.
  - destruct (lookup_lt_is_Some_2 l (Z.to_nat i) ltac:(lia)) as [a Ha].
    exists a. split; [by apply getitem_Ok | done].
  - destruct (0 <=? Z.of_nat (length l) + i)%Z eqn:Hwrap; [|lia].
    destruct (lookup_lt_is_Some_2 l (Z.to_nat (Z.of_nat (length l) + i)) ltac:(lia))
      as [a Ha].
    exists a. split; [by apply getitem_Ok | done].
Qed.

Lemma py_index_out_of_range {A} (l : list A) (i : Z) :
  ~ (- Z.of_nat (length l) <= i < Z.of_nat (length l))%Z ->
  py_index l i = Raise IndexError.
Proof.
  intros Hi. unfold py_index, getitem.
  destruct (0 <=? i)%Z eqn:Hsign.
  - rewrite lookup_ge_None_2; [done | lia].
  - destruct (0 <=? Z.of_nat (length l) + i)%Z eqn:Hwrap; [lia | done].
Qed.

Section peak_local_max_errors.
Context {skimage : Skimage} {numpy : NumpyFloat} {Seg Debl Extra : Type}.
Implicit Types (self : PeakLocalMax.t).

Lemma PeakLocalMax_deblend_returns self (ii : nat) (blend_batch : BlendBatch.t)
    (blend_image : Cube) (image : Image) :
  (forall image min_distance threshold_abs num_peaks,
     (length (peak_local_max image min_distance threshold_abs num_peaks) <= num_peaks)%nat) ->
  BlendBatch.blend_images blend_batch !! ii = Some blend_image ->
  select_image (PeakLocalMax.band self) blend_image = Ok image ->
  exists ex : DeblendExample.t Seg Debl Extra,
    PeakLocalMax.deblend self ii blend_batch = Ok ex.
Proof.
  intros Hcap Hii Himage. unfold PeakLocalMax.deblend.
  step_getitem Hii. simpl. rewrite Himage. simpl.
  rewrite decide_False; [by eexists|].
  unfold times3600. rewrite !length_map, length_zip_with, !length_map.
  pose proof (Hcap image (PeakLocalMax.min_distance self)
                (PeakLocalMax.threshold_scale self * np_sqrt (PeakLocalMax.sky_level self))%Q
                (PeakLocalMax.max_n_sources self)).
  lia.
Qed.

(** X20. As the peak finder returns at most [num_peaks] peaks,
    [PeakLocalMax.deblend] returns an example exactly when the batch has an
    example [ii] and, with [use_band], the band index is within the bands of
    the example, where a negative index counts from the last band; in every
    other case it raises [IndexError], and it raises nothing else. *)
Theorem PeakLocalMax_returns_iff_in_range self (ii : nat) (blend_batch : BlendBatch.t) :
  (forall image min_distance threshold_abs num_peaks,
     (length (peak_local_max image min_distance threshold_abs num_peaks) <= num_peaks)%nat) ->
  let in_range :=
    exists blend_image : Cube,
      BlendBatch.blend_images blend_batch !! ii = Some blend_image /\
      match PeakLocalMax.band self with
      | UseMean => True
      | UseBand b =>
          (- Z.of_nat (length blend_image) <= b < Z.of_nat (length blend_image))%Z
      end in
  ((exists ex : DeblendExample.t Seg Debl Extra,
      PeakLocalMax.deblend self ii blend_batch = Ok ex) <-> in_range) /\
  (PeakLocalMax.deblend (Seg := Seg) (Debl := Debl) (Extra := Extra) self ii blend_batch
     = Raise IndexError <-> ~ in_range) /\
  (forall e,
     PeakLocalMax.deblend (Seg := Seg) (Debl := Debl) (Extra := Extra) self ii blend_batch
       = Raise e -> e = IndexError).
Proof.
  intros Hcap in_range.
  assert (Hcases :
    (in_range /\ exists ex : DeblendExample.t Seg Debl Extra,
       PeakLocalMax.deblend self ii blend_batch = Ok ex) \/
    (~ in_range /\
     PeakLocalMax.deblend (Seg := Seg) (Debl := Debl) (Extra := Extra) self ii blend_batch
       = Raise IndexError)).
  { destruct (BlendBatch.blend_images blend_batch !! ii) as [blend_image|] eqn:Hii.
    - destruct (PeakLocalMax.band self) as [|b] eqn:Hband.
      + left. split.
        * exists blend_image. by rewrite ?Hband.
        * apply (PeakLocalMax_deblend_returns self ii blend_batch blend_image
                   (np_mean_axis0 blend_image) Hcap Hii).
          by rewrite ?Hband.
      + destruct (decide (- Z.of_nat (length blend_image) <= b
                          < Z.of_nat (length blend_image))%Z) as [Hb|Hb].
        * left. split.
          -- exists blend_image. by rewrite ?Hband.
          -- destruct (py_index_in_range blend_image b Hb) as (image & Himage & _).
             apply (PeakLocalMax_deblend_returns self ii blend_batch blend_image image
                      Hcap Hii).
             by rewrite ?Hband.
        * right. split.
          -- intros (blend_image' & [= <-] & Hin). by rewrite ?Hband in Hin.
          -- unfold PeakLocalMax.deblend.
             step_getitem Hii. simpl. rewrite ?Hband. simpl.
             by rewrite (py_index_out_of_range blend_image b Hb).
    - right. split.
      + by intros (blend_image & Habs & _).
      + unfold PeakLocalMax.deblend, getitem. by rewrite Hii. }
  destruct Hcases as [[Hin [ex Hex]]|[Hout Hraise]].
  - rewrite Hex. split_and!.
    + split; [done | intros _; by exists ex].
    + split; [done | by intros Hnot].
    + intros e He. discriminate He.
  - rewrite Hraise. split_and!.
    + split; [intros [ex Hex]; discriminate Hex | by intros Hin].
    + done.
    + intros e [= <-]. done.
Qed.
End peak_local_max_errors.

(** ** DeblendGenerator: the names are distinct *)

Section distinct_names.
Import DeblendGenerator.

Lemma has_underscore_app (a x : string) : has_underscore (a +:+ "_" +:+ x) = true.
Proof. induction a as [|c a IH]; simpl; [done|]. rewrite IH. apply orb_true_r. Qed.

Lemma suffix_inj (a b x y : string) :
  has_underscore a = false ->
  has_underscore b = false ->
  a +:+ "_" +:+ x = b +:+ "_" +:+ y ->
  a = b /\ x = y.
Proof.
  revert b. induction a as [|c a IH]; intros [|c' b] Ha Hb Heq; cbn in *.
  - injection Heq as Heq. done.
  - injection Heq as Hc _. subst c'. done.
  - injection Heq as Hc _. subst c. done.
  - injection Heq as Hc Heq. subst c'.
    apply orb_false_iff in Ha as [_ Ha]. apply orb_false_iff in Hb as [_ Hb].
    destruct (IH b Ha Hb Heq) as [-> ->]. done.
Qed.

Lemma count_take_lt (l : list string) (i j : nat) (name : string) :
  l !! i = Some name ->
  (i < j)%nat ->
  (count (take i l) name < count (take j l) name)%nat.
Proof.
  intros Hi Hij.
  assert (Hsplit : take j l = take i l ++ name :: take (j - S i) (drop (S i) l)).
  { rewrite <- (take_drop i l) at 1. rewrite take_app, length_take.
    apply lookup_lt_Some in Hi as Hlt.
    rewrite take_take. replace (j `min` i)%nat with i by lia.
    replace (i `min` length l)%nat with i by lia.
    f_equal. rewrite (drop_S _ _ _ Hi).
    replace (j - i)%nat with (S (j - S i)) by lia. done. }
  rewrite Hsplit, count_app.
  change (name :: ?t) with ([name] ++ t). rewrite count_app, count_singleton.
  rewrite decide_True by done. lia.
Qed.

Lemma count_take_le (l : list string) (j : nat) (name : string) :
  (count (take j l) name <= count l name)%nat.
Proof. rewrite <- (take_drop j l) at 2. rewrite count_app. lia. Qed.

Lemma count_two (l : list string) (i j : nat) (name : string) :
  l !! i = Some name -> l !! j = Some name -> (i < j)%nat -> (1 < count l name)%nat.
Proof.
  intros Hi Hj Hij.
  pose proof (count_take_lt l i j name Hi Hij) as H1.
  pose proof (count_take_lt l j (S j) name Hj ltac:(lia)) as H2.
  pose proof (count_take_le l (S j) name). lia.
Qed.

(** X21. When no type name holds the character [_], the names that
    [_get_unique_deblender_names] returns are pairwise distinct, so that the
    dict of [__next__] has one entry for each deblender. *)
Theorem unique_names_are_distinct {D : Type} (str : D -> string) (deblenders : list D) :
  Forall (fun d => has_underscore (str d) = false) deblenders ->
  NoDup (_get_unique_deblender_names str deblenders).
Proof.
  intros Hplain. rewrite unique_names_imap.
  set (names := map str deblenders).
  assert (Hnames : forall i name, names !! i = Some name -> has_underscore name = false).
  { intros i name Hname. unfold names in Hname.
    rewrite list_lookup_fmap in Hname.
    destruct (deblenders !! i) as [d|] eqn:Hd; [|done]. injection Hname as <-.
    rewrite Forall_forall in Hplain. apply Hplain. by eapply list_elem_of_lookup_2. }
  assert (Hdistinct : forall i j a b,
    names !! i = Some a -> names !! j = Some b -> (i < j)%nat ->
    indexed_name names i a <> indexed_name names j b).
  { intros i j a b Ha Hb Hij Heq. unfold indexed_name in Heq.
    pose proof (Hnames i a Ha) as Hpa. pose proof (Hnames j b Hb) as Hpb.
    destruct (decide (1 < count names a)%nat) as [Hra|Hra];
      destruct (decide (1 < count names b)%nat) as [Hrb|Hrb].
    - apply suffix_inj in Heq as [<- Heq]; [|done|done].
      apply (inj pretty) in Heq.
      pose proof (count_take_lt names i j a Ha Hij). lia.
    - rewrite <- Heq, has_underscore_app in Hpb. done.
    - rewrite Heq, has_underscore_app in Hpa. done.
    - subst b. pose proof (count_two names i j a Ha Hb Hij). lia. }
  apply NoDup_alt. intros i j x Hi Hj.
  rewrite list_lookup_imap in Hi, Hj.
  destruct (names !! i) as [a|] eqn:Ha; [|done].
  destruct (names !! j) as [b|] eqn:Hb; [|done].
  simpl in Hi, Hj. injection Hi as Hi. injection Hj as Hj.
  destruct (Nat.lt_trichotomy i j) as [Hlt|[Heq|Hgt]]; [|done|].
  - exfalso. apply (Hdistinct i j a b Ha Hb Hlt). congruence.
  - exfalso. apply (Hdistinct j i b a Hb Ha Hgt). congruence.
Qed.
End distinct_names.

(** ** DeblendGenerator: validation *)

Section validation.
Import Generator.
Context {D : Type}.

Lemma validate_all_inr (objects : list (PyObject D)) (deblenders : list D) :
  validate_all objects = inr deblenders <-> objects = map AnInstance deblenders.
Proof.
  revert deblenders. induction objects as [|object objects IH]; intros deblenders; simpl.
  - split.
    + intros [= <-]. done.
    + intros Hnil. destruct deblenders; [done | discriminate Hnil].
  - destruct object as [name is_d is_mr|d|type_name]; simpl.
    + split.
      * intros Hv. by destruct (negb (is_d || is_mr)).
      * intros Heq. destruct deblenders; discriminate Heq.
    + destruct (validate_all objects) as [e|ds] eqn:Hrest.
      * split; [done|]. intros Heq. destruct deblenders as [|d' ds']; [discriminate Heq|].
        injection Heq as <- Heq. apply (IH ds') in Heq. discriminate Heq.
      * split.
        -- intros [= <-]. simpl. f_equal. by apply IH.
        -- intros Heq. destruct deblenders as [|d' ds']; [discriminate Heq|].
           injection Heq as <- Heq. apply (IH ds') in Heq.
           by injection Heq as <-.
    + split; [done|]. intros Heq. destruct deblenders; discriminate Heq.
Qed.

(** X22. [_validate_deblenders] accepts its argument exactly when every
    entry is an instance of a deblender class, and then returns the
    deblenders in the order given; one object that is not a list is taken as
    the list that holds it; a class is always rejected with a [TypeError],
    also a class that subclasses [Deblender]. *)
Theorem validate_deblenders_accepts_instances_only
    (argument : PyObject D + list (PyObject D)) :
  let objects := match argument with inl object => [object] | inr objects => objects end in
  (forall deblenders,
     _validate_deblenders argument = inr deblenders <->
     objects = map AnInstance deblenders) /\
  (forall name is_deblender_cls is_mr_deblender_cls,
     AClass name is_deblender_cls is_mr_deblender_cls ∈ objects ->
     exists e, _validate_deblenders argument = inl e).
Proof.
  intros objects. split.
  - intros deblenders. unfold _validate_deblenders. fold objects. apply validate_all_inr.
  - intros name is_d is_mr Hin. unfold _validate_deblenders. fold objects.
    destruct (validate_all objects) as [e|deblenders] eqn:Hv; [by eexists|].
    apply validate_all_inr in Hv. rewrite Hv in Hin.
    apply list_elem_of_fmap in Hin as (d & Habs & _). discriminate Habs.
Qed.
End validation.

(** ** DeblendGenerator: iteration *)

Lemma mapM_keys {A B K} (f : A -> result B) (ka : A -> K) (kb : B -> K)
    (l : list A) (out : list B) :
  (forall a b, f a = Ok b -> kb b = ka a) ->
  mapM f l = Ok out ->
  map kb out = map ka l.
Proof.
  intros Hkey Hout. apply mapM_Ok_Forall2 in Hout.
  induction Hout as [|a b l out Hab _ IH]; simpl; [done|].
  by rewrite (Hkey a b Hab), IH.
Qed.

Lemma mapM_all_Ok {A B} (f : A -> result B) (l : list A) :
  (forall a, a ∈ l -> exists b, f a = Ok b) -> exists out, mapM f l = Ok out.
Proof.
  intros Hall. destruct (mapM f l) as [out|e] eqn:Hout; [by eexists|].
  apply mapM_Raise_elem in Hout as (a & e' & Ha & Hraise).
  destruct (Hall a Ha) as [b Hb]. congruence.
Qed.

Section dict_of_items.
Context {V : Type}.

(** The dict that a comprehension builds from its items, in their order. *)
Let dict_of (items : list (string * V)) : gmap string V :=
  foldl (fun deblended_output item => <[item.1 := item.2]> deblended_output) ∅ items.

Lemma dict_of_snoc (items : list (string * V)) (item : string * V) :
  dict_of (items ++ [item]) = <[item.1 := item.2]> (dict_of items).
Proof. unfold dict_of. by rewrite foldl_app. Qed.

Lemma dict_of_lookup (items : list (string * V)) (name : string) (v : V) :
  NoDup (map fst items) -> (name, v) ∈ items -> dict_of items !! name = Some v.
Proof.
  induction items as [|item items IH] using rev_ind; intros Hnodup Hin.
  - by apply elem_of_nil in Hin.
  - rewrite dict_of_snoc. rewrite map_app in Hnodup.
    apply NoDup_app in Hnodup as (Hitems & Hfresh & _).
    apply elem_of_app in Hin as [Hin|Hin].
    + rewrite lookup_insert_ne; [by apply IH|].
      intros Heq. apply (Hfresh name); [|rewrite <- Heq; simpl; apply list_elem_of_here].
      apply list_elem_of_fmap. by exists (name, v).
    + apply list_elem_of_singleton in Hin as <-. simpl. by rewrite lookup_insert_eq.
Qed.

Lemma dict_of_dom (items : list (string * V)) :
  dom (dict_of items) = list_to_set (map fst items).
Proof.
  induction items as [|item items IH] using rev_ind; [apply dom_empty_L|].
  rewrite dict_of_snoc, dom_insert_L, IH, map_app, list_to_set_app_L. simpl.
  rewrite (right_id_L ∅ (∪)). apply (comm_L (∪)).
Qed.

Lemma dict_of_size (items : list (string * V)) :
  NoDup (map fst items) -> size (dict_of items) = length items.
Proof.
  intros Hnodup. rewrite <- size_dom, dict_of_dom, size_list_to_set by done.
  by rewrite length_map.
Qed.
End dict_of_items.

Section generator_next.
Import Generator.
Context {Seg Debl Extra : Type} {nd_shape : NdShape Debl}.

Lemma unique_names_length {D : Type} (str : D -> string) (deblenders : list D) :
  length (DeblendGenerator._get_unique_deblender_names str deblenders) = length deblenders.
Proof. by rewrite unique_names_imap, length_imap, length_map. Qed.

(** X23. When the unique names are pairwise distinct, [__next__] returns
    exactly when the batch call of every deblender returns; it then returns
    the batch it drew and a dict with one entry per deblender, which holds
    under the unique name of each deblender the result of its batch call. *)
Theorem next_returns_one_entry_per_deblender
    (deblenders : list (string * Deblender.t Seg Debl Extra)) (njobs : nat)
    (blend_batch : BlendBatch.t) (completion : nat -> list nat) :
  let self := Generator.init deblenders njobs in
  NoDup (deblender_names self) ->
  ((exists out, next_ self blend_batch completion = Ok out) <->
   (forall k d, deblenders !! k = Some d ->
      exists output,
        Deblender.batch_call d.2 blend_batch njobs (completion k) = Ok output)) /\
  (forall out, next_ self blend_batch completion = Ok out ->
     out.1 = blend_batch /\
     size out.2 = length deblenders /\
     forall k name d,
       deblender_names self !! k = Some name ->
       deblenders !! k = Some d ->
       exists output,
         Deblender.batch_call d.2 blend_batch njobs (completion k) = Ok output /\
         out.2 !! name = Some output).
Proof.
  intros self Hnodup.
  set (names := deblender_names self) in *.
  assert (Hlen : length names = length deblenders) by apply unique_names_length.
  set (call := fun '((k, (name, deblender)) :
                      nat * (string * (string * Deblender.t Seg Debl Extra))) =>
         output ← Deblender.batch_call deblender.2 blend_batch njobs (completion k);
         Ok (name, output)
       : result (string * DeblendBatch.t Seg Debl Extra)).
  set (entries := imap (fun k item => (k, item)) (zip names deblenders)).
  assert (Hnext : forall out,
    next_ self blend_batch completion = Ok out <->
    exists items, mapM call entries = Ok items /\
      out = (blend_batch,
             foldl (fun deblended_output item => <[item.1 := item.2]> deblended_output)
               ∅ items)).
  { intros out. unfold next_, next_output.
    change (Generator.deblenders self) with deblenders. fold names entries.
    change (mapM _ entries) with (mapM call entries).
    destruct (mapM call entries) as [items|e]; simpl.
    - split.
      + intros Hout. injection Hout as Hout. subst out. by exists items.
      + intros (items' & Hitems & Hout). injection Hitems as Hitems. by subst.
    - split; [done | intros (items' & Habs & _); done]. }
  assert (Hentry : forall k name d,
    (k, (name, d)) ∈ entries <-> names !! k = Some name /\ deblenders !! k = Some d).
  { intros k name d. unfold entries. rewrite list_elem_of_lookup. split.
    - intros (i & Hi). rewrite list_lookup_imap in Hi.
      destruct (zip names deblenders !! i) as [[name' d']|] eqn:Hz; [|done].
      injection Hi as -> -> ->. apply lookup_zip_with_Some in Hz as (x & y & [= <- <-] & Hx & Hy).
      done.
    - intros [Hname Hd]. exists k. rewrite list_lookup_imap.
      assert (Hz : zip names deblenders !! k = Some (name, d)).
      { apply lookup_zip_with_Some. by exists name, d. }
      by rewrite Hz. }
  split.
  - split.
    + intros [out Hout] k d Hd. apply Hnext in Hout as (items & Hitems & _).
      destruct (names !! k) as [name|] eqn:Hname.
      2: { apply lookup_lt_Some in Hd. apply lookup_ge_None in Hname. lia. }
      apply mapM_Ok_Forall2 in Hitems.
      assert (Hin : (k, (name, d)) ∈ entries) by by apply Hentry.
      apply list_elem_of_lookup in Hin as [i Hi].
      destruct (Forall2_lookup_l _ _ _ _ _ Hitems Hi) as (item & _ & Hcall).
      simpl in Hcall.
      destruct (Deblender.batch_call d.2 blend_batch njobs (completion k)); [by eexists|done].
    + intros Hall.
      destruct (mapM_all_Ok call entries) as [items Hitems].
      * intros [k [name d]] Hin. apply Hentry in Hin as [_ Hd].
        destruct (Hall k d Hd) as [output Houtput]. exists (name, output). simpl.
        by rewrite Houtput.
      * eexists. apply Hnext. by exists items.
  - intros out Hout. apply Hnext in Hout as (items & Hitems & ->). simpl.
    assert (Hkeys : map fst items = names).
    { rewrite (mapM_keys call (fun a => a.2.1) fst entries items); [| |done].
      - unfold entries. rewrite fmap_imap.
        rewrite <- (fst_zip names deblenders) at 2 by lia.
        apply list_eq. intros i. rewrite list_lookup_imap, list_lookup_fmap.
        by destruct (zip names deblenders !! i).
      - intros [k [name d]] b. simpl.
        destruct (Deblender.batch_call d.2 blend_batch njobs (completion k)); [|done].
        by intros [= <-]. }
    split; [done|]. split.
    + rewrite dict_of_size by by rewrite Hkeys.
      rewrite <- Hlen, <- Hkeys. by rewrite length_map.
    + intros k name d Hname Hd.
      assert (Hin : (k, (name, d)) ∈ entries) by by apply Hentry.
      apply list_elem_of_lookup in Hin as [i Hi].
      apply mapM_Ok_Forall2 in Hitems.
      destruct (Forall2_lookup_l _ _ _ _ _ Hitems Hi) as (item & Hitem & Hcall).
      simpl in Hcall.
      destruct (Deblender.batch_call d.2 blend_batch njobs (completion k)) as [output|e];
        [|done].
      injection Hcall as <-. exists output. split; [done|].
      apply dict_of_lookup; [by rewrite Hkeys|]. by eapply list_elem_of_lookup_2.
Qed.
End generator_next.

(** * The further properties on the sample inputs *)

(** A call that is known not to raise. *)
Ltac not_raised H :=
  apply (f_equal (fun r => match r with Ok _ => true | Raise _ => false end)) in H;
  lazy in H; discriminate H.

Lemma SepSingleBand_pads_with_zeros_sample :
  exists ex : DeblendExample.t (list Mask) (list Cube) unit,
    SepSingleBand.deblend (sep_lib := sample_sep) (numpy := sample_numpy)
      (SepSingleBand.mk 2 10 1 (UseBand 0)) 1 three_examples = Ok ex /\
    (length <$> DeblendExample.segmentation ex) = Some 2%nat /\
    (length <$> DeblendExample.deblended_images ex) = Some 2%nat.
Proof.
  pose proof (SepSingleBand_pads_with_zeros (sep_lib := sample_sep) (numpy := sample_numpy)
                (Extra := unit) (SepSingleBand.mk 2 10 1 (UseBand 0)) 1 three_examples
                [spike 4 4 1 2 50] (spike 4 4 1 2 50)
                (bright_pixels (spike 4 4 1 2 50) 10)
                (one_pixel_objects (spike 4 4 1 2 50) (bright_pixels (spike 4 4 1 2 50) 10))
                eq_refl eq_refl eq_refl ltac:(vm_compute; lia)) as Hpads.
  cbv zeta in Hpads. destruct Hpads as (ex & Hex & _ & _ & Hseg & Himages & _).
  exists ex. split; [exact Hex|]. split; [exact Hseg | exact Himages].
Defined.

Lemma SepSingleBand_raises_iff_too_many_sample :
  SepSingleBand.deblend (sep_lib := sample_sep) (numpy := sample_numpy) (Extra := unit)
    (SepSingleBand.mk 2 10 1 (UseBand 0)) 0 three_examples
  = Raise SepSingleBand.too_many.
Proof.
  pose proof (SepSingleBand_raises_iff_too_many (sep_lib := sample_sep)
                (numpy := sample_numpy) (Extra := unit)
                (SepSingleBand.mk 2 10 1 (UseBand 0)) 0 three_examples
                [[[50; 0; 0; 50]; [0; 0; 0; 0]; [0; 50; 0; 0]; [0; 0; 0; 0]]]%Q
                [[50; 0; 0; 50]; [0; 0; 0; 0]; [0; 50; 0; 0]; [0; 0; 0; 0]]%Q
                eq_refl eq_refl) as Hraises.
  cbv zeta in Hraises. destruct Hraises as [[_ Hraises] _].
  apply Hraises. vm_compute. lia.
Defined.

Lemma SepSingleBand_images_one_band_nonnegative_sample :
  exists (ex : DeblendExample.t (list Mask) (list Cube) unit) deblended_images,
    SepSingleBand.deblend (sep_lib := sample_sep) (numpy := sample_numpy)
      (SepSingleBand.mk 2 10 1 (UseBand 0)) 1 three_examples = Ok ex /\
    DeblendExample.deblended_images ex = Some deblended_images /\
    forall cube, cube ∈ deblended_images -> length cube = 1%nat.
Proof.
  destruct (SepSingleBand.deblend (sep_lib := sample_sep) (numpy := sample_numpy)
              (Extra := unit) (SepSingleBand.mk 2 10 1 (UseBand 0)) 1 three_examples)
    as [ex|e] eqn:Hex; [|not_raised Hex].
  destruct (SepSingleBand_images_one_band_nonnegative (sep_lib := sample_sep)
              (numpy := sample_numpy) (SepSingleBand.mk 2 10 1 (UseBand 0)) 1
              three_examples ex Hex) as (deblended_images & Himages & Hcubes).
  exists ex, deblended_images. split; [reflexivity|]. split; [exact Himages|].
  intros cube Hcube. exact (proj1 (Hcubes cube Hcube)).
Defined.

Lemma SepMultiBand_columns_aligned_sample :
  exists ex : DeblendExample.t unit unit unit,
    SepMultiBand.deblend (sep_lib := sample_sep) (astropy := meridian_separation)
      (SepMultiBand.mk 5 (3 # 2) 5) 0 two_band_batch = Ok ex /\
    colnames (DeblendExample.catalog ex) = ["ra"; "dec"] /\
    DeblendExample.deblended_images ex = None.
Proof.
  destruct (SepMultiBand.deblend (sep_lib := sample_sep) (astropy := meridian_separation)
              (Seg := unit) (Debl := unit) (Extra := unit)
              (SepMultiBand.mk 5 (3 # 2) 5) 0 two_band_batch)
    as [ex|e] eqn:Hex; [|not_raised Hex].
  destruct (SepMultiBand_columns_aligned (sep_lib := sample_sep)
              (astropy := meridian_separation) (SepMultiBand.mk 5 (3 # 2) 5) 0
              two_band_batch ex Hex) as (Hcols & _ & _ & _ & Himages & _).
  exists ex. split; [reflexivity|]. split; [exact Hcols | exact Himages].
Defined.

Lemma SepMultiBand_keeps_first_band_sample :
  exists ex : DeblendExample.t unit unit unit,
    SepMultiBand.deblend (sep_lib := sample_sep) (astropy := meridian_separation)
      (SepMultiBand.mk 5 (3 # 2) 5) 0 two_band_batch = Ok ex /\
    times3600 [2 / 3600]%Q `prefix_of` Table_get (DeblendExample.catalog ex) "ra" /\
    times3600 [1 / 3600]%Q `prefix_of` Table_get (DeblendExample.catalog ex) "dec".
Proof.
  destruct (SepMultiBand.deblend (sep_lib := sample_sep) (astropy := meridian_separation)
              (Seg := unit) (Debl := unit) (Extra := unit)
              (SepMultiBand.mk 5 (3 # 2) 5) 0 two_band_batch)
    as [ex|e] eqn:Hex; [|not_raised Hex].
  destruct (SepMultiBand_keeps_first_band (sep_lib := sample_sep)
              (astropy := meridian_separation) (SepMultiBand.mk 5 (3 # 2) 5) 0
              two_band_batch [spike 8 8 2 1 100; spike 8 8 2 6 100] (spike 8 8 2 1 100)
              ex eq_refl eq_refl Hex) as [Hra Hdec].
  exists ex. split; [reflexivity|]. split; [exact Hra | exact Hdec].
Defined.

Lemma SepMultiBand_catalog_bounds_sample :
  exists ex : DeblendExample.t unit unit unit,
    SepMultiBand.deblend (sep_lib := sample_sep) (astropy := meridian_separation)
      (SepMultiBand.mk 5 (3 # 2) 5) 0 two_band_batch = Ok ex /\
    (1 <= Table_len (DeblendExample.catalog ex) <= 10)%nat.
Proof.
  destruct (SepMultiBand.deblend (sep_lib := sample_sep) (astropy := meridian_separation)
              (Seg := unit) (Debl := unit) (Extra := unit)
              (SepMultiBand.mk 5 (3 # 2) 5) 0 two_band_batch)
    as [ex|e] eqn:Hex; [|not_raised Hex].
  destruct (SepMultiBand_catalog_bounds (sep_lib := sample_sep)
              (astropy := meridian_separation) (SepMultiBand.mk 5 (3 # 2) 5) 0
              two_band_batch [spike 8 8 2 1 100; spike 8 8 2 6 100] (spike 8 8 2 1 100)
              ex eq_refl eq_refl Hex) as [Hlower Hupper].
  exists ex. split; [reflexivity|]. split.
  - etransitivity; [|exact Hlower]. vm_compute. lia.
  - exact Hupper.
Defined.

Lemma SepMultiBand_raises_iff_a_band_has_too_many_sample :
  SepMultiBand.deblend (sep_lib := sample_sep) (astropy := meridian_separation)
    (Seg := unit) (Debl := unit) (Extra := unit)
    (SepMultiBand.mk 0 (3 # 2) 5) 0 two_band_batch
  = Raise SepMultiBand.too_many.
Proof.
  destruct (SepMultiBand_raises_iff_a_band_has_too_many (sep_lib := sample_sep)
              (astropy := meridian_separation) (Seg := unit) (Debl := unit) (Extra := unit)
              (ValueError "catalog longer than max_n_sources")
              (SepMultiBand.mk 0 (3 # 2) 5) 0 two_band_batch
              [spike 8 8 2 1 100; spike 8 8 2 6 100] eq_refl ltac:(discriminate)
              ltac:(discriminate))
    as [[_ Hraises] _].
  apply Hraises. apply Exists_cons_tl, Exists_cons_hd. vm_compute. lia.
Defined.

Lemma merge_keeps_far_from_all_sample :
  SkyCoord
    (SepMultiBand.merge_detections (astropy := meridian_separation)
       (SepMultiBand.mk 5 5 (3 # 2)) [2; 2]%Q [1; 20]%Q [2; 2; 2]%Q [3; 10; 18]%Q).1
    (SepMultiBand.merge_detections (astropy := meridian_separation)
       (SepMultiBand.mk 5 5 (3 # 2)) [2; 2]%Q [1; 20]%Q [2; 2; 2]%Q [3; 10; 18]%Q).2
  = [(2, 1); (2, 20); (2, 10)]%Q.
Proof.
  pose proof (merge_keeps_far_from_all (astropy := meridian_separation)
                (SepMultiBand.mk 5 5 (3 # 2)) [2; 2]%Q [1; 20]%Q [2; 2; 2]%Q [3; 10; 18]%Q
                eq_refl eq_refl ltac:(discriminate) ltac:(discriminate)) as Hmerge.
  cbv zeta in Hmerge. rewrite Hmerge. vm_compute. reflexivity.
Defined.

Lemma DeepDisc_pads_with_zeros_sample :
  exists ex,
    DeepDisc.deblend (model := sample_model) (DeepDisc.mk 2 false) 1 two_examples = Ok ex /\
    (length <$> DeblendExample.segmentation ex) = Some 2%nat /\
    (length <$> DeblendExample.deblended_images ex) = Some 2%nat /\
    DeblendExample.n_bands ex = Some 2%nat.
Proof.
  destruct (BlendBatch.blend_images two_examples !! 1%nat) as [bb|] eqn:Hbb;
    [|discriminate Hbb].
  pose proof (DeepDisc_pads_with_zeros (model := sample_model) (DeepDisc.mk 2 false)
                1 two_examples bb Hbb) as Hpads.
  cbv zeta in Hpads. injection Hbb as <-.
  destruct Hpads as (ex & Hex & _ & _ & Hseg & Himages & Hbands & _).
  - vm_compute. lia.
  - exists ex. split; [exact Hex|]. split; [exact Hseg|]. split; [exact Himages|].
    rewrite Hbands. reflexivity.
Defined.

Lemma DeepDisc_raises_iff_overflow_not_allowed_sample :
  DeepDisc.deblend (model := sample_model) (DeepDisc.mk 2 false) 0 two_examples
  = Raise DeepDisc.too_many.
Proof.
  destruct (BlendBatch.blend_images two_examples !! 0%nat) as [bb|] eqn:Hbb;
    [|discriminate Hbb].
  pose proof (DeepDisc_raises_iff_overflow_not_allowed (model := sample_model)
                (DeepDisc.mk 2 false) 0 two_examples bb Hbb) as Hraises.
  cbv zeta in Hraises. injection Hbb as <-. destruct Hraises as [[_ Hraises] _].
  apply Hraises. split; [vm_compute; lia | reflexivity].
Defined.

Lemma DeepDisc_array_and_catalog_sizes_sample :
  exists ex,
    DeepDisc.deblend (model := sample_model) (DeepDisc.mk 2 true) 0 two_examples = Ok ex /\
    (length <$> DeblendExample.segmentation ex) = Some 2%nat /\
    Table_len (DeblendExample.catalog ex) = 3%nat.
Proof.
  destruct (DeepDisc.deblend (model := sample_model) (DeepDisc.mk 2 true) 0 two_examples)
    as [ex|e] eqn:Hex; [|not_raised Hex].
  destruct (BlendBatch.blend_images two_examples !! 0%nat) as [bb|] eqn:Hbb;
    [|discriminate Hbb].
  pose proof (DeepDisc_array_and_catalog_sizes (model := sample_model) (DeepDisc.mk 2 true)
                0 two_examples bb ex Hbb Hex) as Hsizes.
  cbv zeta in Hsizes. injection Hbb as <-. destruct Hsizes as (Hseg & _ & Hlen & _).
  exists ex. split; [reflexivity|]. split; [exact Hseg|].
  rewrite Hlen. vm_compute. reflexivity.
Defined.

Lemma Scarlet_empty_catalog_skips_fit_sample :
  ScarletDeblend.deblend (scarlet := sample_scarlet) (Seg := unit)
    (Scarlet.mk 3 1 1 200 2 50) 0 coincident_batch (Some [[("ra", []); ("dec", [])]])
  = Ok (DeblendExample.mk 3 [("ra", []); ("dec", [])] (Some 1%nat) (Some 4%nat) None
          (Some (np_zeros4 3 1 4 4)) None).
Proof.
  apply (Scarlet_empty_catalog_skips_fit (scarlet := sample_scarlet) (Seg := unit)
           (Scarlet.mk 3 1 1 200 2 50) 0 coincident_batch
           (Some [[("ra", []); ("dec", [])]]) [("ra", []); ("dec", [])]
           [spike 4 4 1 1 50]).
  - reflexivity.
  - apply list_elem_of_In. simpl. tauto.
  - apply list_elem_of_In. simpl. tauto.
  - reflexivity.
  - reflexivity.
Defined.

Lemma Scarlet_input_errors_sample :
  ScarletDeblend.deblend (scarlet := sample_scarlet) (Seg := unit)
    (Scarlet.mk 3 1 1 200 2 50) 1 coincident_batch None
  = Raise IndexError.
Proof.
  destruct (Scarlet_input_errors (scarlet := sample_scarlet) (Seg := unit)
              (Scarlet.mk 3 1 1 200 2 50) 1 coincident_batch None) as [Hmissing _].
  apply Hmissing. reflexivity.
Defined.

Lemma Scarlet_other_exceptions_propagate_sample :
  ScarletDeblend.deblend (scarlet := unrenderable_scarlet) (Seg := unit)
    (Scarlet.mk 3 1 1 200 2 50) 0 coincident_batch None
  = Raise (ValueError "model outside of the frame").
Proof.
  apply (Scarlet_other_exceptions_propagate (scarlet := unrenderable_scarlet) (Seg := unit)
           (Scarlet.mk 3 1 1 200 2 50) 0 coincident_batch None
           [("ra", [1; 1]); ("dec", [1; 1])]%Q [spike 4 4 1 1 50]).
  - reflexivity.
  - apply list_elem_of_In. simpl. tauto.
  - apply list_elem_of_In. simpl. tauto.
  - reflexivity.
  - simpl. lia.
  - reflexivity.
  - discriminate.
Defined.

Lemma Scarlet_returns_clipped_padded_models_sample :
  exists ex,
    ScarletDeblend.deblend (scarlet := sample_scarlet) (Seg := unit)
      (Scarlet.mk 3 1 1 200 2 50) 0 coincident_batch
      (Some [[("ra", [1]); ("dec", [2])]%Q]) = Ok ex /\
    DeblendExample.catalog ex = [("ra", [1]); ("dec", [2])]%Q /\
    (length <$> DeblendExample.deblended_images ex) = Some 3%nat.
Proof.
  pose proof (Scarlet_returns_clipped_padded_models (scarlet := sample_scarlet) (Seg := unit)
                (Scarlet.mk 3 1 1 200 2 50) 0 coincident_batch
                (Some [[("ra", [1]); ("dec", [2])]%Q]) [("ra", [1]); ("dec", [2])]%Q
                [spike 4 4 1 1 50]
                [((1 / 3600, 2 / 3600)%Q, [spike 4 4 1 1 50])]
                [[spike 4 4 1 1 50]]) as Hmodels.
  cbv zeta in Hmodels. destruct Hmodels as (Hex & _ & _).
  - reflexivity.
  - apply list_elem_of_In. simpl. tauto.
  - apply list_elem_of_In. simpl. tauto.
  - reflexivity.
  - simpl. lia.
  - reflexivity.
  - reflexivity.
  - reflexivity.
  - simpl. lia.
  - eexists. split; [exact Hex|]. split; reflexivity.
Defined.

Lemma Scarlet_source_count_errors_sample :
  ScarletDeblend.deblend (scarlet := sample_scarlet) (Seg := unit)
    (Scarlet.mk 1 1 1 200 2 50) 0 coincident_batch
    (Some [[("ra", [1; 2]); ("dec", [1; 2])]%Q])
  = Raise (ValueError "could not broadcast input array").
Proof.
  destruct (Scarlet_source_count_errors (scarlet := sample_scarlet) (Seg := unit)
              (Scarlet.mk 1 1 1 200 2 50) 0 coincident_batch
              (Some [[("ra", [1; 2]); ("dec", [1; 2])]%Q]) [("ra", [1; 2]); ("dec", [1; 2])]%Q
              [spike 4 4 1 1 50]
              [((1 / 3600, 1 / 3600)%Q, [spike 4 4 1 1 50]);
               ((2 / 3600, 2 / 3600)%Q, [spike 4 4 1 1 50])]
              [[spike 4 4 1 1 50]; [spike 4 4 1 1 50]]) as [Hmany _].
  - reflexivity.
  - apply list_elem_of_In. simpl. tauto.
  - apply list_elem_of_In. simpl. tauto.
  - reflexivity.
  - simpl. lia.
  - reflexivity.
  - reflexivity.
  - apply Hmany; simpl; lia.
Defined.

Lemma batch_call_empty_batch_raises_sample :
  Deblender.batch_call (nd_shape := stacked_cubes_shape) uneven_deblender
    (BlendBatch.mk 0 4 [] arcsec_pixels []) 2 []
  = Raise IndexError.
Proof.
  apply (batch_call_empty_batch_raises (nd_shape := stacked_cubes_shape) uneven_deblender
           (BlendBatch.mk 0 4 [] arcsec_pixels []) 2 []).
  reflexivity.
Defined.

Lemma batch_call_fails_with_an_example_sample :
  (exists e',
     Deblender.batch_call (nd_shape := stacked_cubes_shape)
       (DeepDisc.as_deblender (model := sample_model) (DeepDisc.mk 2 false))
       two_examples 2 [1; 0]%nat = Raise e') /\
  Deblender.batch_call (nd_shape := stacked_cubes_shape)
    (DeepDisc.as_deblender (model := sample_model) (DeepDisc.mk 2 false))
    two_examples 1 [1; 0]%nat = Raise DeepDisc.too_many.
Proof.
  destruct (batch_call_fails_with_an_example (nd_shape := stacked_cubes_shape)
              (DeepDisc.as_deblender (model := sample_model) (DeepDisc.mk 2 false))
              two_examples 2 [1; 0]%nat 0 DeepDisc.too_many)
    as [Hraises _].
  - exact completion_10.
  - simpl. lia.
  - reflexivity.
  - split; [exact Hraises|].
    destruct (batch_call_fails_with_an_example (nd_shape := stacked_cubes_shape)
                (DeepDisc.as_deblender (model := sample_model) (DeepDisc.mk 2 false))
                two_examples 1 [1; 0]%nat 0 DeepDisc.too_many)
      as [_ Hfirst].
    + exact completion_10.
    + simpl. lia.
    + reflexivity.
    + apply Hfirst. intros jj Hjj. lia.
Defined.

Lemma PeakLocalMax_returns_iff_in_range_sample :
  (exists ex : DeblendExample.t unit unit unit,
     PeakLocalMax.deblend (skimage := first_bright_pixels) (numpy := sample_numpy)
       (PeakLocalMax.mk 2 16 5 2 (UseBand (-1))) 0 three_examples = Ok ex) /\
  PeakLocalMax.deblend (skimage := first_bright_pixels) (numpy := sample_numpy)
    (Seg := unit) (Debl := unit) (Extra := unit)
    (PeakLocalMax.mk 2 16 5 2 (UseBand 1)) 0 three_examples = Raise IndexError.
Proof.
  assert (Hcap : forall image min_distance threshold_abs num_peaks,
    (length (peak_local_max (Skimage := first_bright_pixels)
               image min_distance threshold_abs num_peaks) <= num_peaks)%nat).
  { intros image min_distance threshold_abs num_peaks.
    unfold peak_local_max, first_bright_pixels. rewrite length_take. lia. }
  split.
  - pose proof (PeakLocalMax_returns_iff_in_range (skimage := first_bright_pixels)
                  (numpy := sample_numpy) (Seg := unit) (Debl := unit) (Extra := unit)
                  (PeakLocalMax.mk 2 16 5 2 (UseBand (-1))) 0 three_examples Hcap)
      as Hreturns.
    cbv zeta in Hreturns. destruct Hreturns as [[_ Hreturns] _].
    apply Hreturns. eexists. split; [reflexivity|]. simpl. lia.
  - pose proof (PeakLocalMax_returns_iff_in_range (skimage := first_bright_pixels)
                  (numpy := sample_numpy) (Seg := unit) (Debl := unit) (Extra := unit)
                  (PeakLocalMax.mk 2 16 5 2 (UseBand 1)) 0 three_examples Hcap)
      as Hraises.
    cbv zeta in Hraises. destruct Hraises as (_ & [_ Hraises] & _).
    apply Hraises. intros (blend_image & Hlookup & Hrange).
    injection Hlookup as <-. simpl in Hrange. lia.
Defined.

Lemma unique_names_are_distinct_sample :
  NoDup (DeblendGenerator._get_unique_deblender_names id
           ["SepSingleBand"; "Scarlet"; "SepSingleBand"]).
Proof.
  apply (unique_names_are_distinct id ["SepSingleBand"; "Scarlet"; "SepSingleBand"]).
  repeat constructor.
Defined.

Lemma validate_deblenders_accepts_instances_only_sample :
  Generator._validate_deblenders (D := nat) (inl (Generator.AnInstance 7%nat)) = inr [7%nat] /\
  exists e,
    Generator._validate_deblenders (D := nat)
      (inr [Generator.AnInstance 7%nat; Generator.AClass "Scarlet" true false]) = inl e.
Proof.
  split.
  - apply (validate_deblenders_accepts_instances_only (inl (Generator.AnInstance 7%nat))).
    reflexivity.
  - apply (proj2 (validate_deblenders_accepts_instances_only
                    (inr [Generator.AnInstance 7%nat; Generator.AClass "Scarlet" true false]))
             "Scarlet" true false).
    apply list_elem_of_In. simpl. tauto.
Defined.

Lemma next_returns_one_entry_per_deblender_sample :
  exists out,
    Generator.next_ (nd_shape := stacked_cubes_shape)
      (Generator.init two_uneven_deblenders 1) two_examples (fun _ => [1; 0]%nat) = Ok out /\
    out.1 = two_examples /\
    size out.2 = 2%nat /\
    is_Some (out.2 !! "Uneven_0") /\
    is_Some (out.2 !! "Uneven_1").
Proof.
  pose proof (next_returns_one_entry_per_deblender (nd_shape := stacked_cubes_shape)
                two_uneven_deblenders 1 two_examples (fun _ => [1; 0]%nat)) as Hnext.
  cbv zeta in Hnext. destruct Hnext as [[_ Hreturns] Hentries].
  - change (NoDup (DeblendGenerator._get_unique_deblender_names fst two_uneven_deblenders)).
    rewrite unique_names_imap. vm_compute.
    apply NoDup_cons. split; [|apply NoDup_singleton].
    intros Hin. apply list_elem_of_singleton in Hin. discriminate Hin.
  - destruct Hreturns as [out Hout].
    + intros k d Hd. destruct k as [|[|k]]; [| |discriminate Hd];
        injection Hd as <-; eexists; reflexivity.
    + destruct (Hentries out Hout) as (Hbatch & Hsize & Hlookup).
      exists out. split; [exact Hout|]. split; [exact Hbatch|]. split; [exact Hsize|].
      assert (Hnames : Generator.deblender_names (Generator.init two_uneven_deblenders 1)
                       = ["Uneven_0"; "Uneven_1"]).
      { change (DeblendGenerator._get_unique_deblender_names fst two_uneven_deblenders
                = ["Uneven_0"; "Uneven_1"]).
        rewrite unique_names_imap. vm_compute. reflexivity. }
      split.
      * destruct (Hlookup 0%nat "Uneven_0" ("Uneven", uneven_deblender))
          as (output & _ & Houtput); [by rewrite Hnames | reflexivity |].
        by eexists.
      * destruct (Hlookup 1%nat "Uneven_1" ("Uneven", uneven_deblender))
          as (output & _ & Houtput); [by rewrite Hnames | reflexivity |].
        by eexists.
Defined.
